(** * Audio pipeline of AK-HD-Translated-Video: a shallow embedding

    The development follows three source files:
    - [src/core/audio/AudioProcessor.ts]   (module [AudioProcessor]),
    - [src/core/audio/VAD.ts]              (module [VAD]),
    - [src/core/stt/AudioSessionManager.ts] (module [Session]).

    JavaScript numbers are modelled by [number]: the IEEE special values
    NaN, +Infinity and -Infinity are kept, finite values are exact rationals.
    Rounding (binary64 arithmetic, binary32 storage in a [Float32Array]) and
    the sign of zero are not modelled.  The decimal literals of the source
    denote the rationals they spell.  The properties of the three
    [Behaviour] modules at the end are stated so that the rounding does
    not bear on them: they are about comparisons, counts, bounds that
    rounding to nearest respects, and values computed from whole
    numbers. *)

From Stdlib Require Import QArith Qround Qabs ZArith List Bool Lia Lqa Permutation Sorted Ascii.
From stdpp Require Import gmap strings.
Import ListNotations.

Local Open Scope Q_scope.

(** ** JavaScript numbers *)

Module JS.

Inductive number : Type :=
| NaN
| PInf
| NInf
| Fin (q : Q).

Definition zero : number := Fin 0.
Definition one : number := Fin 1.

Definition of_nat (n : nat) : number := Fin (inject_Z (Z.of_nat n)).
Definition of_Z (z : Z) : number := Fin (inject_Z z).

Definition is_finite (x : number) : bool :=
  match x with Fin _ => true | _ => false end.

Definition is_nan (x : number) : bool :=
  match x with NaN => true | _ => false end.

(** [Qltb a b] decides [a < b]. *)
Definition Qltb (a b : Q) : bool := negb (Qle_bool b a).

(** Unary minus. *)
Definition neg (x : number) : number :=
  match x with
  | NaN => NaN
  | PInf => NInf
  | NInf => PInf
  | Fin q => Fin (- q)
  end.

(** [x + y] *)
Definition add (x y : number) : number :=
  match x, y with
  | NaN, _ | _, NaN => NaN
  | PInf, NInf | NInf, PInf => NaN
  | PInf, _ | _, PInf => PInf
  | NInf, _ | _, NInf => NInf
  | Fin a, Fin b => Fin (a + b)
  end.

(** [x - y] *)
Definition sub (x y : number) : number := add x (neg y).

(** The infinity with the sign of [q] times the sign of the infinity;
    an infinity times zero is NaN. *)
Definition inf_times (positive : bool) (q : Q) : number :=
  if Qeq_bool q 0 then NaN
  else if xorb positive (Qltb 0 q) then NInf else PInf.

(** [x * y] *)
Definition mul (x y : number) : number :=
  match x, y with
  | NaN, _ | _, NaN => NaN
  | PInf, PInf | NInf, NInf => PInf
  | PInf, NInf | NInf, PInf => NInf
  | PInf, Fin q | Fin q, PInf => inf_times true q
  | NInf, Fin q | Fin q, NInf => inf_times false q
  | Fin a, Fin b => Fin (a * b)
  end.

(** [x / y].  A finite non-zero value over zero is an infinity (the zero
    divisor is taken as +0), zero over zero is NaN. *)
Definition div (x y : number) : number :=
  match x, y with
  | NaN, _ | _, NaN => NaN
  | (PInf | NInf), (PInf | NInf) => NaN
  | PInf, Fin q => if Qltb q 0 then NInf else PInf
  | NInf, Fin q => if Qltb q 0 then PInf else NInf
  | Fin _, (PInf | NInf) => Fin 0
  | Fin a, Fin b =>
      if Qeq_bool b 0 then
        if Qeq_bool a 0 then NaN
        else if Qltb 0 a then PInf else NInf
      else Fin (a / b)
  end.

(** [x < y]; false as soon as one side is NaN. *)
Definition lt (x y : number) : bool :=
  match x, y with
  | NaN, _ | _, NaN => false
  | _, NInf => false
  | NInf, _ => true
  | PInf, _ => false
  | Fin _, PInf => true
  | Fin a, Fin b => Qltb a b
  end.

(** [x > y] *)
Definition gt (x y : number) : bool := lt y x.

(** [x <= y]; false as soon as one side is NaN. *)
Definition le (x y : number) : bool :=
  match x, y with
  | NaN, _ | _, NaN => false
  | NInf, _ => true
  | _, PInf => true
  | _, NInf => false
  | PInf, _ => false
  | Fin a, Fin b => Qle_bool a b
  end.

(** [x >= y] *)
Definition ge (x y : number) : bool := le y x.

(** [x === y] on numbers: NaN differs from itself. *)
Definition strict_eq (x y : number) : bool :=
  match x, y with
  | PInf, PInf | NInf, NInf => true
  | Fin a, Fin b => Qeq_bool a b
  | _, _ => false
  end.

(** Truthiness of a number ([x || d], [!x]): NaN and zero are falsy. *)
Definition truthy (x : number) : bool :=
  match x with
  | NaN => false
  | Fin q => negb (Qeq_bool q 0)
  | _ => true
  end.

(** [x || d] for a possibly missing array element [x]. *)
Definition or_default (x : option number) (d : number) : number :=
  match x with
  | Some v => if truthy v then v else d
  | None => d
  end.

(** [Math.abs] *)
Definition Math_abs (x : number) : number :=
  match x with
  | NaN => NaN
  | PInf | NInf => PInf
  | Fin q => Fin (Qabs q)
  end.

(** [Math.max(x, y)]: NaN when an argument is NaN. *)
Definition Math_max (x y : number) : number :=
  match x, y with
  | NaN, _ | _, NaN => NaN
  | _, _ => if lt x y then y else x
  end.

(** [Math.min(x, y)]: NaN when an argument is NaN. *)
Definition Math_min (x y : number) : number :=
  match x, y with
  | NaN, _ | _, NaN => NaN
  | _, _ => if lt y x then y else x
  end.

(** [Math.max(...xs)]: -Infinity without arguments. *)
Definition Math_max_list (xs : list number) : number :=
  fold_left Math_max xs NInf.

(** [Math.min(...xs)]: +Infinity without arguments. *)
Definition Math_min_list (xs : list number) : number :=
  fold_left Math_min xs PInf.

(** [Math.floor] *)
Definition Math_floor (x : number) : number :=
  match x with
  | Fin q => Fin (inject_Z (Qfloor q))
  | _ => x
  end.

(** [Math.ceil] *)
Definition Math_ceil (x : number) : number :=
  match x with
  | Fin q => Fin (inject_Z (Qceiling q))
  | _ => x
  end.

(** [Math.round]: the nearest integer, a half rounding up. *)
Definition Math_round (x : number) : number :=
  match x with
  | Fin q => Fin (inject_Z (Qfloor (q + (1 # 2))))
  | _ => x
  end.

(** Host functions that leave the rationals.  Their behaviour on the
    special values is written out below; on finite arguments they are
    whatever the host computes. *)
Class MathLib : Type := {
  sqrtQ : Q -> Q;        (* Math.sqrt on a positive finite argument *)
  log10Q : Q -> Q;       (* Math.log10 on a positive finite argument *)
  cosQ : Q -> Q;         (* Math.cos on a finite argument *)
  sinQ : Q -> Q;         (* Math.sin on a finite argument *)
  PI : Q;                (* Math.PI *)
  Math_pow : number -> number -> number   (* Math.pow *)
}.

Section Host.
Context {M : MathLib}.

(** [Math.sqrt] *)
Definition Math_sqrt (x : number) : number :=
  match x with
  | NaN | NInf => NaN
  | PInf => PInf
  | Fin q =>
      if Qltb q 0 then NaN
      else if Qeq_bool q 0 then Fin 0
      else Fin (sqrtQ q)
  end.

(** [Math.log10] *)
Definition Math_log10 (x : number) : number :=
  match x with
  | NaN | NInf => NaN
  | PInf => PInf
  | Fin q =>
      if Qltb q 0 then NaN
      else if Qeq_bool q 0 then NInf
      else Fin (log10Q q)
  end.

(** [Math.cos] *)
Definition Math_cos (x : number) : number :=
  match x with
  | Fin q => Fin (cosQ q)
  | _ => NaN
  end.

(** [Math.sin] *)
Definition Math_sin (x : number) : number :=
  match x with
  | Fin q => Fin (sinQ q)
  | _ => NaN
  end.

End Host.

(** A typed array of numbers.  Reading past the end gives [undefined],
    which every use in the source turns into NaN. *)
Definition Float32Array := list number.

Definition get (xs : Float32Array) (i : nat) : number := nth i xs NaN.

(** [new Float32Array(n)] *)
Definition zeros (n : nat) : Float32Array := repeat zero n.

(** [xs.slice(a, b)] for [0 <= a]. *)
Definition slice (xs : Float32Array) (a b : nat) : Float32Array :=
  firstn (b - a) (skipn a xs).

(** [for (let i = start; i < stop; i += step) body], [step >= 1]. *)
Fixpoint for_loop_aux {S : Type} (fuel i stop step : nat)
  (body : nat -> S -> S) (s : S) : S :=
  match fuel with
  | O => s
  | Datatypes.S fuel' =>
      if (i <? stop)%nat
      then for_loop_aux fuel' (i + step) stop step body (body i s)
      else s
  end.

Definition for_loop {S : Type} (start stop step : nat)
  (body : nat -> S -> S) (s : S) : S :=
  for_loop_aux (stop - start) start stop step body s.

(** [xs.sort((a, b) => a - b)]: a stable insertion sort driven by the sign
    of the comparator, a NaN comparison counting as "equal".  On finite
    numbers the comparator is consistent and every sort returns this
    ascending list.  On an array that holds NaN (or two infinities of one
    sign) the comparator is not consistent and ECMAScript leaves the order
    to the implementation: what is proved of the sorted order below
    assumes finite entries. *)
Fixpoint sort_insert (x : number) (l : list number) : list number :=
  match l with
  | [] => [x]
  | y :: l' => if gt (sub x y) zero then y :: sort_insert x l' else x :: l
  end.

Definition sort_numbers (l : list number) : list number :=
  fold_right sort_insert [] l.

End JS.

(** ** src/core/audio/AudioProcessor.ts *)

Module AudioProcessor.
Import JS.

Inductive AudioFormat : Type := wav | mp3 | ogg | webm | raw | float32.

Record AudioConfig : Type := {
  sampleRate : number;
  channels : number;
  bitDepth : number;
  format : AudioFormat;
  enableNormalization : bool;
  enableNoiseReduction : bool;
  enableVAD : bool;
  targetVolume : number;
  silenceThreshold : number
}.

(** [Partial<AudioConfig>]: every property may be absent. *)
Record PartialAudioConfig : Type := {
  sampleRate' : option number;
  channels' : option number;
  bitDepth' : option number;
  format' : option AudioFormat;
  enableNormalization' : option bool;
  enableNoiseReduction' : option bool;
  enableVAD' : option bool;
  targetVolume' : option number;
  silenceThreshold' : option number
}.

Definition override {A : Type} (old : A) (new : option A) : A :=
  match new with Some v => v | None => old end.

(** [{ ...c, ...p }] *)
Definition merge (c : AudioConfig) (p : PartialAudioConfig) : AudioConfig :=
  {| sampleRate := override (sampleRate c) (sampleRate' p);
     channels := override (channels c) (channels' p);
     bitDepth := override (bitDepth c) (bitDepth' p);
     format := override (format c) (format' p);
     enableNormalization := override (enableNormalization c) (enableNormalization' p);
     enableNoiseReduction := override (enableNoiseReduction c) (enableNoiseReduction' p);
     enableVAD := override (enableVAD c) (enableVAD' p);
     targetVolume := override (targetVolume c) (targetVolume' p);
     silenceThreshold := override (silenceThreshold c) (silenceThreshold' p) |}.

(** A complete [AudioConfig] passed where a partial one is expected. *)
Definition complete (c : AudioConfig) : PartialAudioConfig :=
  {| sampleRate' := Some (sampleRate c);
     channels' := Some (channels c);
     bitDepth' := Some (bitDepth c);
     format' := Some (format c);
     enableNormalization' := Some (enableNormalization c);
     enableNoiseReduction' := Some (enableNoiseReduction c);
     enableVAD' := Some (enableVAD c);
     targetVolume' := Some (targetVolume c);
     silenceThreshold' := Some (silenceThreshold c) |}.

(** The empty object [{}]. *)
Definition no_override : PartialAudioConfig :=
  {| sampleRate' := None; channels' := None; bitDepth' := None;
     format' := None; enableNormalization' := None;
     enableNoiseReduction' := None; enableVAD' := None;
     targetVolume' := None; silenceThreshold' := None |}.

Record AudioQuality : Type := {
  snr : number;
  dynamicRange : number;
  clipping : number;
  silence : number;
  peakLevel : number;
  rmsLevel : number;
  thd : number
}.

Record SpectralData : Type := {
  frequencies : list number;
  magnitudes : list number;
  dominantFrequency : number;
  bandwidth : number
}.

Record ProcessedAudio : Type := {
  data : Float32Array;
  out_format : AudioFormat;
  out_sampleRate : number;
  out_channels : number;
  duration : number;
  volume : number;
  hasVoice : bool;
  quality : AudioQuality;
  spectralAnalysis : SpectralData
}.

(** The fields of [AudioProcessorImpl]. *)
Record AudioProcessorImpl : Type := {
  config : AudioConfig;
  noiseProfile : option Float32Array
}.

(** [new AudioProcessorImpl(config)] *)
Definition create (c : AudioConfig) : AudioProcessorImpl :=
  {| config := c; noiseProfile := None |}.

(** [Math.floor(n * q)] for an array length [n]. *)
Definition floor_scale (n : nat) (q : Q) : nat :=
  Z.to_nat (Qfloor (inject_Z (Z.of_nat n) * q)).

(** Array index denoted by a number that is a non-negative integer. *)
Definition to_index (x : number) : nat :=
  match x with
  | Fin q => Z.to_nat (Qfloor q)
  | _ => O
  end.

Definition byte_at (bytes : list Byte.byte) (i : nat) : Z :=
  match nth_error bytes i with
  | Some b => Z.of_N (Byte.to_N b)
  | None => 0%Z
  end.

(** [convertToFloat32]: little-endian 16-bit samples mapped to [-1, 1). *)
Definition convertToFloat32 (audioData : list Byte.byte) : Float32Array :=
  map (fun i =>
         let sample := Z.lor (byte_at audioData (i * 2))
                             (Z.shiftl (byte_at audioData (i * 2 + 1)) 8) in
         div (of_Z (sample - 32768)) (Fin 32768))
      (seq 0 (length audioData / 2)).

Definition sum_squares (audioData : Float32Array) : number :=
  fold_left (fun sum x => add sum (mul x x)) audioData zero.

Definition calculateRMSVolume `{MathLib} (audioData : Float32Array) : number :=
  Math_sqrt (div (sum_squares audioData) (of_nat (length audioData))).

Definition calculateEnergy (audioData : Float32Array) : number :=
  div (sum_squares audioData) (of_nat (length audioData)).

Definition calculateZeroCrossingRate (audioData : Float32Array) : number :=
  let crossings :=
    for_loop 1 (length audioData) 1
      (fun i crossings =>
         if Bool.eqb (ge (get audioData i) zero) (ge (get audioData (i - 1)) zero)
         then crossings else S crossings) O in
  div (of_nat crossings) (of_nat (length audioData)).

Definition normalize (c : AudioConfig) (audioData : Float32Array) : Float32Array :=
  let max := Math_max_list (map Math_abs audioData) in
  if strict_eq max zero then audioData
  else
    let target := targetVolume c in
    map (fun x => mul (div x max) target) audioData.

Definition applyGain (audioData : Float32Array) (gain : number) : Float32Array :=
  map (fun x => mul x gain) audioData.

Definition createNoiseProfile (audioData : Float32Array) : Float32Array :=
  let noiseLength := floor_scale (length audioData) (1 # 10) in
  slice audioData 0 noiseLength.

Definition applySpectralSubtraction `{MathLib}
  (window noiseProfile : Float32Array) : Float32Array :=
  let alpha := Fin 2 in
  map (fun i =>
         if (i <? length noiseProfile)%nat then
           let signalPower := mul (get window i) (get window i) in
           let noisePower := mul (get noiseProfile i) (get noiseProfile i) in
           let cleanSignal :=
             Math_max (sub signalPower (mul alpha noisePower))
                      (mul (Fin (1 # 100)) signalPower) in
           if ge (get window i) zero
           then Math_sqrt cleanSignal
           else neg (Math_sqrt cleanSignal)
         else zero)
      (seq 0 (length window)).

(** The inner loop of [denoise]: [denoised[i + j] = processedWindow[j]]
    while [j < processedWindow.length && i + j < denoised.length]. *)
Definition overlap_add (denoised : Float32Array) (i : nat)
  (processedWindow : Float32Array) : Float32Array :=
  for_loop 0 (Nat.min (length processedWindow) (length denoised - i)) 1
    (fun j d => <[(i + j)%nat := get processedWindow j]> d) denoised.

Definition denoise `{MathLib} (p : AudioProcessorImpl) (audioData : Float32Array)
  : Float32Array * AudioProcessorImpl :=
  let windowSize := 1024%nat in
  let hopSize := 512%nat in
  let profile :=
    match noiseProfile p with
    | Some n => n
    | None => createNoiseProfile audioData
    end in
  let denoised :=
    for_loop 0 (length audioData - windowSize) hopSize
      (fun i denoised =>
         let window := slice audioData i (i + windowSize) in
         overlap_add denoised i (applySpectralSubtraction window profile))
      (zeros (length audioData)) in
  (denoised, {| config := config p; noiseProfile := Some profile |}).

Definition detectSilence `{MathLib} (audioData : Float32Array) (threshold : number) : bool :=
  lt (calculateRMSVolume audioData) threshold.

(** One pass of the window loop of [detectVoiceActivity]; the boolean of
    the accumulator records that [break] was taken. *)
Definition voice_window (c : AudioConfig) (audioData : Float32Array)
  (windowSize hopSize : number) (acc : nat * bool) (i : nat) : nat * bool :=
  let '(speechWindows, stopped) := acc in
  if stopped then acc
  else
    let start := mul (of_nat i) hopSize in
    let end_ := add start windowSize in
    if gt end_ (of_nat (length audioData)) then (speechWindows, true)
    else
      let window := slice audioData (to_index start) (to_index end_) in
      let energy := calculateEnergy window in
      let zcr := calculateZeroCrossingRate window in
      let hasSpeech := gt energy (silenceThreshold c) && lt zcr (Fin (1 # 10)) in
      (if hasSpeech then S speechWindows else speechWindows, false).

(** [detectVoiceActivity].  [None] stands for a loop that never exits:
    [windows] is +Infinity exactly when [hopSize] is zero on a non-empty
    frame, every pass then looks at the window starting at 0, and the loop
    ends only if its first pass takes the [break]. *)
Definition detectVoiceActivity (c : AudioConfig) (audioData : Float32Array)
  : option bool :=
  let windowSize := Math_floor (mul (sampleRate c) (Fin (3 # 100))) in
  let hopSize := Math_floor (div windowSize (Fin 2)) in
  let windows := Math_floor (div (of_nat (length audioData)) hopSize) in
  let verdict (speechWindows : nat) :=
    gt (div (of_nat speechWindows) windows) (Fin (3 # 10)) in
  match windows with
  | Fin w =>
      let passes := seq 0 (Z.to_nat (Qceiling w)) in
      let '(speechWindows, _) :=
        fold_left (voice_window c audioData windowSize hopSize) passes (O, false) in
      Some (verdict speechWindows)
  | PInf =>
      let '(speechWindows, stopped) :=
        voice_window c audioData windowSize hopSize (O, false) O in
      if stopped then Some (verdict speechWindows) else None
  | _ => Some (verdict O)
  end.

Definition calculateSNR `{MathLib} (audioData : Float32Array) : number :=
  let signal := calculateEnergy audioData in
  let windowSize := 1024%nat in
  let windows := (length audioData / windowSize)%nat in
  (* the guard [end > audioData.length] cannot fire below [windows] *)
  let energies :=
    map (fun i => calculateEnergy (slice audioData (i * windowSize)
                                         (i * windowSize + windowSize)))
        (seq 0 windows) in
  let sorted := sort_numbers energies in
  let noiseIndex := floor_scale (length sorted) (1 # 10) in
  let noise := or_default (nth_error sorted noiseIndex) (Fin (1 # 10000)) in
  mul (Fin 10) (Math_log10 (div signal (Math_max noise (Fin (1 # 10000))))).

(** The autocorrelation of [audioData] at lag [period]. *)
Definition correlation_at (audioData : Float32Array) (period : Z) : number :=
  let validSamples := (Z.of_nat (length audioData) - period)%Z in
  let correlation :=
    fold_left (fun corr i =>
                 add corr (mul (get audioData i)
                               (get audioData (i + Z.to_nat period))))
              (seq 0 (Z.to_nat validSamples)) zero in
  div correlation (of_Z validSamples).

(** [estimateFundamentalFrequency].  Both bounds are floors of the sample
    rate over a positive constant, so the loop runs only between two
    finite integers. *)
Definition estimateFundamentalFrequency (c : AudioConfig)
  (audioData : Float32Array) : number :=
  let minPeriod := Math_floor (div (sampleRate c) (Fin 1000)) in
  let maxPeriod := Math_floor (div (sampleRate c) (Fin 50)) in
  let bestPeriod :=
    match minPeriod, maxPeriod with
    | Fin a, Fin b =>
        let lo := Qfloor a in
        let hi := Qfloor b in
        let '(bestPeriod, _) :=
          fold_left
            (fun (best : Z * number) k =>
               let period := (lo + Z.of_nat k)%Z in
               let correlation := correlation_at audioData period in
               if gt correlation (snd best) then (period, correlation) else best)
            (seq 0 (Z.to_nat (hi - lo))) (lo, zero) in
        of_Z bestPeriod
    | _, _ => minPeriod
    end in
  div (sampleRate c) bestPeriod.

Definition estimateAmplitudeAtFrequency `{MathLib} (c : AudioConfig)
  (audioData : Float32Array) (frequency : number) : number :=
  let omega := div (mul (mul (Fin 2) (Fin PI)) frequency) (sampleRate c) in
  let '(real, imag) :=
    fold_left
      (fun (acc : number * number) n =>
         (add (fst acc) (mul (get audioData n) (Math_cos (mul omega (of_nat n)))),
          add (snd acc) (mul (get audioData n) (Math_sin (mul omega (of_nat n))))))
      (seq 0 (length audioData)) (zero, zero) in
  div (Math_sqrt (add (mul real real) (mul imag imag))) (of_nat (length audioData)).

Definition estimateHarmonics `{MathLib} (c : AudioConfig)
  (audioData : Float32Array) (fundamental : number) : list number :=
  map (fun h => estimateAmplitudeAtFrequency c audioData (mul fundamental (of_nat h)))
      (seq 1 5).

Definition estimateTHD `{MathLib} (c : AudioConfig) (audioData : Float32Array) : number :=
  let fundamental := estimateFundamentalFrequency c audioData in
  let harmonics := estimateHarmonics c audioData fundamental in
  let totalHarmonicPower := fold_left (fun sum h => add sum (mul h h)) harmonics zero in
  let fundamentalPower := mul (get harmonics 0) (get harmonics 0) in
  Math_sqrt (div totalHarmonicPower (Math_max fundamentalPower (Fin (1 # 10000)))).

Definition count_if (f : number -> bool) (audioData : Float32Array) : nat :=
  length (List.filter f audioData).

Definition calculateQuality `{MathLib} (c : AudioConfig) (audioData : Float32Array)
  : AudioQuality :=
  let snr := calculateSNR audioData in
  let max := Math_max_list (map Math_abs audioData) in
  let min := Math_min_list (map Math_abs audioData) in
  let dynamicRange := sub max min in
  let clipped := count_if (fun sample => gt (Math_abs sample) (Fin (99 # 100))) audioData in
  let clipping := mul (div (of_nat clipped) (of_nat (length audioData))) (Fin 100) in
  let silenceThreshold := Fin (1 # 1000) in
  let silenceCount := count_if (fun sample => lt (Math_abs sample) silenceThreshold) audioData in
  let silence := mul (div (of_nat silenceCount) (of_nat (length audioData))) (Fin 100) in
  let peakLevel := max in
  let rmsLevel := calculateRMSVolume audioData in
  let thd := estimateTHD c audioData in
  {| snr := snr; dynamicRange := dynamicRange; clipping := clipping;
     silence := silence; peakLevel := peakLevel; rmsLevel := rmsLevel; thd := thd |}.

(** The state of the bandwidth loop of [performSpectralAnalysis]. *)
Record band : Type := {
  cumulativeEnergy : number;
  bandwidthStart : number;
  bandwidthEnd : number;
  finished : bool
}.

Definition performSpectralAnalysis `{MathLib} (c : AudioConfig)
  (audioData : Float32Array) : SpectralData :=
  let bins := 1024%nat in
  let binSize := div (sampleRate c) (mul (Fin 2) (of_nat bins)) in
  let frequencies := map (fun i => mul (of_nat i) binSize) (seq 0 bins) in
  let magnitudes := map (estimateAmplitudeAtFrequency c audioData) frequencies in
  let '(_, dominantIndex) :=
    for_loop 1 (length magnitudes) 1
      (fun i (best : number * nat) =>
         if gt (get magnitudes i) (fst best) then (get magnitudes i, i) else best)
      (zero, O) in
  let dominantFrequency := get frequencies dominantIndex in
  let totalEnergy := fold_left (fun sum m => add sum (mul m m)) magnitudes zero in
  let final :=
    for_loop 0 (length magnitudes) 1
      (fun i (b : band) =>
         if finished b then b
         else
           let cumulative :=
             add (cumulativeEnergy b) (mul (get magnitudes i) (get magnitudes i)) in
           let start :=
             if ge cumulative (mul totalEnergy (Fin (5 # 100)))
                && strict_eq (bandwidthStart b) zero
             then get frequencies i else bandwidthStart b in
           if ge cumulative (mul totalEnergy (Fin (95 # 100)))
           then {| cumulativeEnergy := cumulative; bandwidthStart := start;
                   bandwidthEnd := get frequencies i; finished := true |}
           else {| cumulativeEnergy := cumulative; bandwidthStart := start;
                   bandwidthEnd := bandwidthEnd b; finished := false |})
      {| cumulativeEnergy := zero; bandwidthStart := zero;
         bandwidthEnd := get frequencies (length frequencies - 1);
         finished := false |} in
  {| frequencies := frequencies; magnitudes := magnitudes;
     dominantFrequency := dominantFrequency;
     bandwidth := sub (bandwidthEnd final) (bandwidthStart final) |}.

(** [process]: the result and the processor afterwards, or [None] when the
    window loop of [detectVoiceActivity] does not exit. *)
Definition process `{MathLib} (p : AudioProcessorImpl) (audioData : list Byte.byte)
  (cfg : PartialAudioConfig) : option (ProcessedAudio * AudioProcessorImpl) :=
  let c := merge (config p) cfg in
  let p := {| config := c; noiseProfile := noiseProfile p |} in
  let floatData := convertToFloat32 audioData in
  let processed := floatData in
  let processed := if enableNormalization c then normalize c processed else processed in
  let '(processed, p) :=
    if enableNoiseReduction c then denoise p processed else (processed, p) in
  let processed := applyGain processed (targetVolume c) in
  match detectVoiceActivity c processed with
  | None => None
  | Some hasVoice =>
      let quality := calculateQuality c processed in
      let volume := calculateRMSVolume processed in
      let duration := div (of_nat (length processed)) (sampleRate c) in
      let spectralAnalysis := performSpectralAnalysis c processed in
      Some ({| data := processed;
               out_format := format c;
               out_sampleRate := sampleRate c;
               out_channels := channels c;
               duration := duration;
               volume := volume;
               hasVoice := hasVoice;
               quality := quality;
               spectralAnalysis := spectralAnalysis |}, p)
  end.

Definition updateConfig (p : AudioProcessorImpl) (cfg : PartialAudioConfig)
  : AudioProcessorImpl :=
  {| config := merge (config p) cfg; noiseProfile := noiseProfile p |}.

Definition getConfig (p : AudioProcessorImpl) : AudioConfig := config p.

Definition calibrateNoiseProfile (p : AudioProcessorImpl)
  (backgroundNoise : Float32Array) : AudioProcessorImpl :=
  {| config := config p; noiseProfile := Some backgroundNoise |}.

Definition resetNoiseProfile (p : AudioProcessorImpl) : AudioProcessorImpl :=
  {| config := config p; noiseProfile := None |}.

(** The length [new Float32Array(n)] allocates for a number [n] that is
    NaN or an integer: NaN counts as 0; a negative or infinite length, or
    one above [limit], the largest length the host grants, is a
    [RangeError] ([None]). *)
Definition array_length (limit : Z) (n : number) : option nat :=
  match n with
  | NaN => Some O
  | PInf | NInf => None
  | Fin q =>
      if Qltb q 0 then None
      else if Qltb (inject_Z limit) q then None
      else Some (Z.to_nat (Qfloor q))
  end.

(** [resample] on a host that grants typed arrays of up to [limit]
    elements; [None] is the [RangeError] of the allocation. *)
Definition resample (limit : Z) (audioData : Float32Array) (fromRate toRate : number)
  : option Float32Array :=
  if strict_eq fromRate toRate then Some audioData
  else
    let ratio := div toRate fromRate in
    let newLength := Math_round (mul (of_nat (length audioData)) ratio) in
    match array_length limit newLength with
    | None => None
    | Some newLength =>
        Some
          (map (fun i =>
                  let srcIndex := div (of_nat i) ratio in
                  let srcIndexFloor := Math_floor srcIndex in
                  let srcIndexCeil := Math_ceil srcIndex in
                  if ge srcIndexFloor (of_nat (length audioData)) then zero
                  else if ge srcIndexCeil (of_nat (length audioData))
                  then get audioData (to_index srcIndexFloor)
                  else
                    let fraction := sub srcIndex srcIndexFloor in
                    add (mul (get audioData (to_index srcIndexFloor)) (sub one fraction))
                        (mul (get audioData (to_index srcIndexCeil)) fraction))
               (seq 0 newLength))
    end.

(** [convertFormat], a placeholder in the source. *)
Definition convertFormat (audioData : list Byte.byte) (fromFormat toFormat : AudioFormat)
  : list Byte.byte :=
  audioData.

Definition applyCompressor (audioData : Float32Array) (threshold ratio : number)
  : Float32Array :=
  map (fun x =>
         let input := Math_abs x in
         if gt input threshold then
           let excess := sub input threshold in
           let compressedExcess := div excess ratio in
           let output := add threshold compressedExcess in
           mul (if gt x zero then Fin 1 else Fin (- 1)) output
         else x)
      audioData.

End AudioProcessor.

(** ** src/core/audio/VAD.ts *)

Module VAD.
Import JS.

Record VADConfig : Type := {
  sampleRate : number;
  windowSize : number;
  hopSize : number;
  threshold : number;
  minSpeechDuration : number;
  minSilenceDuration : number;
  sensitivity : number;
  adaptiveThreshold : bool
}.

(** [Partial<VADConfig>] *)
Record PartialVADConfig : Type := {
  sampleRate' : option number;
  windowSize' : option number;
  hopSize' : option number;
  threshold' : option number;
  minSpeechDuration' : option number;
  minSilenceDuration' : option number;
  sensitivity' : option number;
  adaptiveThreshold' : option bool
}.

Record VADResult : Type := {
  isSpeech : bool;
  confidence : number;
  energy : number;
  timestamp : number;
  frameIndex : nat;
  voiceProbability : number;
  spectralCentroid : number
}.

(** [VADState]; its [isSpeech] flag is [inSpeech] here. *)
Record VADState : Type := {
  inSpeech : bool;
  speechStartTime : number;
  speechEndTime : number;
  totalSpeechDuration : number;
  totalSilenceDuration : number;
  speechFrames : nat;
  silenceFrames : nat
}.

(** The fields of a [VoiceActivityDetector] ([frameBuffer] is never
    read or written by the class and is left out). *)
Record VoiceActivityDetector : Type := {
  this_config : VADConfig;
  this_frameIndex : nat;
  this_state : VADState;
  this_energyHistory : list number;
  this_baselineEnergy : number;
  this_adaptationRate : number;
  this_lastVADResult : option VADResult
}.

Definition initial_state : VADState :=
  {| inSpeech := false;
     speechStartTime := zero;
     speechEndTime := zero;
     totalSpeechDuration := zero;
     totalSilenceDuration := zero;
     speechFrames := O;
     silenceFrames := O |}.

(** [new VoiceActivityDetector(config)] *)
Definition create (c : VADConfig) : VoiceActivityDetector :=
  {| this_config := c;
     this_frameIndex := O;
     this_state := initial_state;
     this_energyHistory := [];
     this_baselineEnergy := zero;
     this_adaptationRate := Fin (1 # 100);
     this_lastVADResult := None |}.

Definition calculateEnergy (audioData : Float32Array) : number :=
  let sum := fold_left (fun sum x => add sum (mul x x)) audioData zero in
  div sum (of_nat (length audioData)).

Definition calculateZeroCrossingRate (audioData : Float32Array) : number :=
  let crossings :=
    for_loop 1 (length audioData) 1
      (fun i crossings =>
         if Bool.eqb (ge (get audioData i) zero) (ge (get audioData (i - 1)) zero)
         then crossings else S crossings) O in
  div (of_nat crossings) (of_nat (length audioData)).

Definition calculateSpectralCentroid (c : VADConfig) (audioData : Float32Array)
  : number :=
  let '(weightedSum, magnitudeSum) :=
    for_loop 1 (length audioData) 1
      (fun i (acc : number * number) =>
         let magnitude := Math_abs (get audioData i) in
         let frequency :=
           div (mul (of_nat i) (sampleRate c))
               (mul (Fin 2) (of_nat (length audioData))) in
         (add (fst acc) (mul magnitude frequency), add (snd acc) magnitude))
      (zero, zero) in
  if gt magnitudeSum zero then div weightedSum magnitudeSum else zero.

(** The [threshold] argument is accepted and not used, as in the source. *)
Definition calculateVoiceProbability `{MathLib} (c : VADConfig)
  (energy zcr spectralCentroid threshold : number) : number :=
  let normalizedEnergy := Math_min (mul energy (Fin 10)) one in
  let normalizedZCR := Math_max zero (Math_min (mul zcr (Fin 10)) one) in
  let normalizedCentroid := Math_min (div spectralCentroid (Fin 2000)) one in
  let energyWeight := Fin (5 # 10) in
  let zcrWeight := Fin (2 # 10) in
  let centroidWeight := Fin (3 # 10) in
  let voiceProbability :=
    add (add (mul normalizedEnergy energyWeight)
             (mul (sub one normalizedZCR) zcrWeight))
        (mul normalizedCentroid centroidWeight) in
  let adjustedProbability := Math_pow voiceProbability (sensitivity c) in
  Math_max zero (Math_min one adjustedProbability).

(** [calculateAdaptiveThreshold]: the threshold and the detector with its
    baseline updated. *)
Definition calculateAdaptiveThreshold (d : VoiceActivityDetector)
  : number * VoiceActivityDetector :=
  if (length (this_energyHistory d) <? 10)%nat then (threshold (this_config d), d)
  else
    let sortedEnergies := sort_numbers (this_energyHistory d) in
    let medianIndex := AudioProcessor.floor_scale (length sortedEnergies) (1 # 2) in
    let medianEnergy := get sortedEnergies medianIndex in
    let adaptiveThreshold := mul medianEnergy (Fin (25 # 10)) in
    let smoothedThreshold :=
      add (mul (this_baselineEnergy d) (sub one (this_adaptationRate d)))
          (mul adaptiveThreshold (this_adaptationRate d)) in
    (Math_max (mul (threshold (this_config d)) (Fin (5 # 10)))
              (Math_min smoothedThreshold (mul (threshold (this_config d)) (Fin 3))),
     {| this_config := this_config d;
        this_frameIndex := this_frameIndex d;
        this_state := this_state d;
        this_energyHistory := this_energyHistory d;
        this_baselineEnergy := smoothedThreshold;
        this_adaptationRate := this_adaptationRate d;
        this_lastVADResult := this_lastVADResult d |}).

Definition applyHysteresis (lastVADResult : option VADResult)
  (voiceProbability : number) : bool :=
  match lastVADResult with
  | None => gt voiceProbability (Fin (5 # 10))
  | Some last =>
      let currentIsSpeech := isSpeech last in
      let hysteresisFactor := Fin (1 # 10) in
      if currentIsSpeech
      then gt voiceProbability (sub (Fin (5 # 10)) hysteresisFactor)
      else gt voiceProbability (add (Fin (5 # 10)) hysteresisFactor)
  end.

Definition updateState (c : VADConfig) (frameIndex : nat) (st : VADState)
  (isSpeech : bool) (energy : number) : VADState :=
  let now := mul (of_nat frameIndex) (hopSize c) in
  let st :=
    if isSpeech && negb (inSpeech st) then
      {| inSpeech := true;
         speechStartTime := now;
         speechEndTime := speechEndTime st;
         totalSpeechDuration := totalSpeechDuration st;
         totalSilenceDuration := totalSilenceDuration st;
         speechFrames := speechFrames st;
         silenceFrames := silenceFrames st |}
    else if negb isSpeech && inSpeech st then
      {| inSpeech := false;
         speechStartTime := speechStartTime st;
         speechEndTime := now;
         totalSpeechDuration :=
           add (totalSpeechDuration st) (sub now (speechStartTime st));
         totalSilenceDuration := totalSilenceDuration st;
         speechFrames := speechFrames st;
         silenceFrames := silenceFrames st |}
    else st in
  if isSpeech then
    {| inSpeech := inSpeech st;
       speechStartTime := speechStartTime st;
       speechEndTime := speechEndTime st;
       totalSpeechDuration := totalSpeechDuration st;
       totalSilenceDuration := totalSilenceDuration st;
       speechFrames := S (speechFrames st);
       silenceFrames := silenceFrames st |}
  else
    {| inSpeech := inSpeech st;
       speechStartTime := speechStartTime st;
       speechEndTime := speechEndTime st;
       totalSpeechDuration := totalSpeechDuration st;
       totalSilenceDuration :=
         if inSpeech st
         then add (totalSilenceDuration st) (sub now (speechEndTime st))
         else totalSilenceDuration st;
       speechFrames := speechFrames st;
       silenceFrames := S (silenceFrames st) |}.

(** [this.energyHistory.push(energy)] followed by the [shift] past 100. *)
Definition push_energy (history : list number) (energy : number) : list number :=
  let history := history ++ [energy] in
  if (100 <? length history)%nat then tl history else history.

(** The part of [processFrame] that follows the computation of the voice
    probability: hysteresis, state update, result, counters. *)
Definition classify (d : VoiceActivityDetector)
  (energy voiceProbability spectralCentroid : number)
  : VADResult * VoiceActivityDetector :=
  let isSpeech := applyHysteresis (this_lastVADResult d) voiceProbability in
  let st := updateState (this_config d) (this_frameIndex d) (this_state d) isSpeech energy in
  let result :=
    {| isSpeech := isSpeech;
       confidence := voiceProbability;
       energy := energy;
       timestamp := mul (of_nat (this_frameIndex d)) (hopSize (this_config d));
       frameIndex := this_frameIndex d;
       voiceProbability := voiceProbability;
       spectralCentroid := spectralCentroid |} in
  (result,
   {| this_config := this_config d;
      this_frameIndex := S (this_frameIndex d);
      this_state := st;
      this_energyHistory := this_energyHistory d;
      this_baselineEnergy := this_baselineEnergy d;
      this_adaptationRate := this_adaptationRate d;
      this_lastVADResult := Some result |}).

(** The threshold [processFrame] works with, after the history update. *)
Definition operating_threshold (d : VoiceActivityDetector)
  : number * VoiceActivityDetector :=
  if adaptiveThreshold (this_config d)
  then calculateAdaptiveThreshold d
  else (threshold (this_config d), d).

Definition with_history (d : VoiceActivityDetector) (h : list number)
  : VoiceActivityDetector :=
  {| this_config := this_config d;
     this_frameIndex := this_frameIndex d;
     this_state := this_state d;
     this_energyHistory := h;
     this_baselineEnergy := this_baselineEnergy d;
     this_adaptationRate := this_adaptationRate d;
     this_lastVADResult := this_lastVADResult d |}.

(** [processFrame]; its [windowSamples] and [hopSamples] are computed and
    never used, and are left out. *)
Definition processFrame `{MathLib} (d : VoiceActivityDetector)
  (audioData : Float32Array) : VADResult * VoiceActivityDetector :=
  let energy := calculateEnergy audioData in
  let zcr := calculateZeroCrossingRate audioData in
  let spectralCentroid := calculateSpectralCentroid (this_config d) audioData in
  let d := with_history d (push_energy (this_energyHistory d) energy) in
  let '(threshold, d) := operating_threshold d in
  let voiceProbability :=
    calculateVoiceProbability (this_config d) energy zcr spectralCentroid threshold in
  classify d energy voiceProbability spectralCentroid.

Definition getState (d : VoiceActivityDetector) : VADState := this_state d.

Definition getCurrentResult (d : VoiceActivityDetector) : option VADResult :=
  this_lastVADResult d.

Record Statistics : Type := {
  speechRatio : number;
  silenceRatio : number;
  averageEnergy : number;
  energyVariance : number
}.

Definition getStatistics `{MathLib} (d : VoiceActivityDetector) : Statistics :=
  let totalFrames := this_frameIndex d in
  let speechRatio :=
    if (0 <? totalFrames)%nat
    then div (of_nat (speechFrames (this_state d))) (of_nat totalFrames)
    else zero in
  let silenceRatio := sub one speechRatio in
  let history := this_energyHistory d in
  let averageEnergy :=
    if (0 <? length history)%nat
    then div (fold_left (fun sum e => add sum e) history zero) (of_nat (length history))
    else zero in
  let energyVariance :=
    if (1 <? length history)%nat
    then div (fold_left (fun sum e => add sum (Math_pow (sub e averageEnergy) (Fin 2)))
                        history zero)
             (of_nat (length history))
    else zero in
  {| speechRatio := speechRatio; silenceRatio := silenceRatio;
     averageEnergy := averageEnergy; energyVariance := energyVariance |}.

Definition with_config (d : VoiceActivityDetector) (c : VADConfig)
  : VoiceActivityDetector :=
  {| this_config := c;
     this_frameIndex := this_frameIndex d;
     this_state := this_state d;
     this_energyHistory := this_energyHistory d;
     this_baselineEnergy := this_baselineEnergy d;
     this_adaptationRate := this_adaptationRate d;
     this_lastVADResult := this_lastVADResult d |}.

Definition set_threshold (c : VADConfig) (t : number) : VADConfig :=
  {| sampleRate := sampleRate c; windowSize := windowSize c; hopSize := hopSize c;
     threshold := t;
     minSpeechDuration := minSpeechDuration c;
     minSilenceDuration := minSilenceDuration c;
     sensitivity := sensitivity c; adaptiveThreshold := adaptiveThreshold c |}.

(** [xs.slice(0, n)] for a number [n]: NaN counts as 0, a negative end is
    taken from the end of the array. *)
Definition slice_to (xs : Float32Array) (n : number) : Float32Array :=
  match n with
  | NaN | NInf => []
  | PInf => xs
  | Fin q =>
      if Qle_bool 0 q then firstn (Z.to_nat (Qfloor q)) xs
      else
        let back := Z.to_nat (Qfloor (- q)) in
        if (back =? 0)%nat then [] else firstn (length xs - back) xs
  end.

Definition calibrate (d : VoiceActivityDetector) (backgroundNoise : Float32Array)
  : VoiceActivityDetector :=
  let c := this_config d in
  let windowSize := Math_floor (mul (div (windowSize c) (Fin 1000)) (sampleRate c)) in
  let noiseEnergy := calculateEnergy (slice_to backgroundNoise windowSize) in
  let newThreshold := mul noiseEnergy (Fin 3) in
  {| this_config := set_threshold c (Math_max (Fin (1 # 1000)) newThreshold);
     this_frameIndex := this_frameIndex d;
     this_state := this_state d;
     this_energyHistory := [];
     this_baselineEnergy := newThreshold;
     this_adaptationRate := this_adaptationRate d;
     this_lastVADResult := this_lastVADResult d |}.

Definition reset (d : VoiceActivityDetector) : VoiceActivityDetector :=
  {| this_config := this_config d;
     this_frameIndex := O;
     this_state := initial_state;
     this_energyHistory := [];
     this_baselineEnergy := threshold (this_config d);
     this_adaptationRate := this_adaptationRate d;
     this_lastVADResult := None |}.

Definition override {A : Type} (old : A) (new : option A) : A :=
  match new with Some v => v | None => old end.

Definition updateConfig (d : VoiceActivityDetector) (p : PartialVADConfig)
  : VoiceActivityDetector :=
  let c := this_config d in
  with_config d
    {| sampleRate := override (sampleRate c) (sampleRate' p);
       windowSize := override (windowSize c) (windowSize' p);
       hopSize := override (hopSize c) (hopSize' p);
       threshold := override (threshold c) (threshold' p);
       minSpeechDuration := override (minSpeechDuration c) (minSpeechDuration' p);
       minSilenceDuration := override (minSilenceDuration c) (minSilenceDuration' p);
       sensitivity := override (sensitivity c) (sensitivity' p);
       adaptiveThreshold := override (adaptiveThreshold c) (adaptiveThreshold' p) |}.

(** A complete [VADConfig] passed to [updateConfig]. *)
Definition complete (c : VADConfig) : PartialVADConfig :=
  {| sampleRate' := Some (sampleRate c);
     windowSize' := Some (windowSize c);
     hopSize' := Some (hopSize c);
     threshold' := Some (threshold c);
     minSpeechDuration' := Some (minSpeechDuration c);
     minSilenceDuration' := Some (minSilenceDuration c);
     sensitivity' := Some (sensitivity c);
     adaptiveThreshold' := Some (adaptiveThreshold c) |}.

Definition getConfig (d : VoiceActivityDetector) : VADConfig := this_config d.

Definition setSensitivity (d : VoiceActivityDetector) (s : number)
  : VoiceActivityDetector :=
  let c := this_config d in
  with_config d
    {| sampleRate := sampleRate c; windowSize := windowSize c; hopSize := hopSize c;
       threshold := threshold c;
       minSpeechDuration := minSpeechDuration c;
       minSilenceDuration := minSilenceDuration c;
       sensitivity := Math_max (Fin (1 # 10)) (Math_min (Fin 2) s);
       adaptiveThreshold := adaptiveThreshold c |}.

Definition setAdaptiveThreshold (d : VoiceActivityDetector) (enabled : bool)
  : VoiceActivityDetector :=
  let c := this_config d in
  {| this_config :=
       {| sampleRate := sampleRate c; windowSize := windowSize c; hopSize := hopSize c;
          threshold := threshold c;
          minSpeechDuration := minSpeechDuration c;
          minSilenceDuration := minSilenceDuration c;
          sensitivity := sensitivity c;
          adaptiveThreshold := enabled |};
     this_frameIndex := this_frameIndex d;
     this_state := this_state d;
     this_energyHistory := this_energyHistory d;
     this_baselineEnergy := this_baselineEnergy d;
     this_adaptationRate := if enabled then Fin (1 # 100) else this_adaptationRate d;
     this_lastVADResult := this_lastVADResult d |}.

(** The calls a client can make on a detector that change it. *)
Inductive call : Type :=
| ProcessFrame (audioData : Float32Array)
| Calibrate (backgroundNoise : Float32Array)
| Reset
| UpdateConfig (p : PartialVADConfig)
| SetSensitivity (s : number)
| SetAdaptiveThreshold (enabled : bool).

Definition perform `{MathLib} (d : VoiceActivityDetector) (c : call)
  : option VADResult * VoiceActivityDetector :=
  match c with
  | ProcessFrame audioData =>
      let '(r, d) := processFrame d audioData in (Some r, d)
  | Calibrate backgroundNoise => (None, calibrate d backgroundNoise)
  | Reset => (None, reset d)
  | UpdateConfig p => (None, updateConfig d p)
  | SetSensitivity s => (None, setSensitivity d s)
  | SetAdaptiveThreshold enabled => (None, setAdaptiveThreshold d enabled)
  end.

(** A history of calls, oldest first: the detector afterwards. *)
Definition run `{MathLib} (d : VoiceActivityDetector) (calls : list call)
  : VoiceActivityDetector :=
  fold_left (fun d c => snd (perform d c)) calls d.

(** The results of the [processFrame] calls of a history, oldest first. *)
Fixpoint results `{MathLib} (d : VoiceActivityDetector) (calls : list call)
  : list VADResult :=
  match calls with
  | [] => []
  | c :: calls =>
      let '(r, d) := perform d c in
      match r with
      | Some r => r :: results d calls
      | None => results d calls
      end
  end.

(** Feeding voice probabilities straight to the classifier, the energy and
    centroid of the frames being immaterial to the verdicts. *)
Fixpoint classify_all (d : VoiceActivityDetector) (probabilities : list number)
  : list bool :=
  match probabilities with
  | [] => []
  | p :: rest =>
      let '(r, d) := classify d zero p zero in
      isSpeech r :: classify_all d rest
  end.

Definition estimateSpeakingRate (audioData : Float32Array) : number :=
  let energy := calculateEnergy audioData in
  let zcr := calculateZeroCrossingRate audioData in
  let baseRate := Fin 150 in
  let energyFactor := Math_min (mul energy (Fin 5)) (Fin 2) in
  let zcrFactor := add one (mul (sub zcr (Fin (1 # 10))) (Fin 2)) in
  mul (mul baseRate energyFactor) zcrFactor.

(** [detectEmotion]: the emotion and its confidence, [None] for [null]. *)
Definition detectEmotion (c : VADConfig) (audioData : Float32Array)
  : option (string * number) :=
  let spectralCentroid := calculateSpectralCentroid c audioData in
  let energy := calculateEnergy audioData in
  let zcr := calculateZeroCrossingRate audioData in
  if gt energy (Fin (1 # 10)) && gt spectralCentroid (Fin 1500)
  then Some ("excited"%string, Fin (7 # 10))
  else if lt energy (Fin (1 # 100)) && lt zcr (Fin (5 # 100))
  then Some ("calm"%string, Fin (6 # 10))
  else if gt zcr (Fin (15 # 100))
  then Some ("stressed"%string, Fin (5 # 10))
  else None.

End VAD.

(** ** src/core/stt/AudioSessionManager.ts *)

Module Session.
Import JS.

(** What a rejected promise carries. *)
Inductive Error : Type :=
| SessionNotFound (sessionId : string)        (* `Session ${sessionId} not found` *)
| SessionAlreadyActive (sessionId : string)   (* `Session ${sessionId} is already active` *)
| External (message : string)                 (* raised by a collaborator *)
| Wrapped (message : string) (cause : Error). (* new Error(`${message}: ${cause}`) *)

(** How an awaited call on a collaborator ends. *)
Inductive outcome : Type :=
| Resolves
| Rejects (e : Error).

(** How a method of the manager ends. *)
Inductive completion (A : Type) : Type :=
| Returns (v : A)
| Throws (e : Error).
Arguments Returns {A} v.
Arguments Throws {A} e.

(** Calls on the collaborators and on the callbacks of a session, in the
    order they are made. *)
Inductive event : Type :=
| GetUserMedia
| TrackStop
| NewAudioContext
| AudioContextClose
| SttStartSession
| SttStopSession (sessionId : string)
| SttPause
| SttResume
| SetTimeout (sessionId : string)
| ClearTimeout
| OnError (sessionId : string) (e : Error)
| OnVADChange (sessionId : string) (isSpeech : bool)
| OnSessionEnd (sessionId : string).

Record AudioTranscript : Type := {
  transcript_id : string;
  text : string;
  confidence : number;
  timestamp : Z;
  transcript_duration : number;
  isFinal : bool
}.

Record AudioSessionStatistics : Type := {
  totalDuration : number;
  speakingDuration : number;
  silenceDuration : number;
  averageConfidence : number;
  wordsPerMinute : number;
  chunksProcessed : number;
  errorCount : number;
  voiceActivityRatio : number;
  averageEnergy : number;
  peakEnergy : number;
  silencePeriods : number
}.

(** The settings of [AudioSessionConfig].  Its three collaborators
    ([sttService], [audioProcessor], [vad]) are objects shared by reference;
    they are kept once, in the manager. *)
Record AudioSessionConfig : Type := {
  autoStart : bool;
  autoStop : bool;
  maxSessionDuration : number;
  silenceTimeout : number;
  minConfidence : number;
  enablePartialResults : bool;
  audioConfig : AudioProcessor.AudioConfig;
  vadConfig : VAD.VADConfig
}.

(** [Partial<AudioSessionConfig>], settings only. *)
Record PartialAudioSessionConfig : Type := {
  autoStart' : option bool;
  autoStop' : option bool;
  maxSessionDuration' : option number;
  silenceTimeout' : option number;
  minConfidence' : option number;
  enablePartialResults' : option bool;
  audioConfig' : option AudioProcessor.AudioConfig;
  vadConfig' : option VAD.VADConfig
}.

Definition override {A : Type} (old : A) (new : option A) : A :=
  match new with Some v => v | None => old end.

Definition merge (c : AudioSessionConfig) (p : option PartialAudioSessionConfig)
  : AudioSessionConfig :=
  match p with
  | None => c
  | Some p =>
      {| autoStart := override (autoStart c) (autoStart' p);
         autoStop := override (autoStop c) (autoStop' p);
         maxSessionDuration := override (maxSessionDuration c) (maxSessionDuration' p);
         silenceTimeout := override (silenceTimeout c) (silenceTimeout' p);
         minConfidence := override (minConfidence c) (minConfidence' p);
         enablePartialResults := override (enablePartialResults c) (enablePartialResults' p);
         audioConfig := override (audioConfig c) (audioConfig' p);
         vadConfig := override (vadConfig c) (vadConfig' p) |}
  end.

(** Dates are milliseconds since the epoch. *)
Record AudioSession : Type := {
  id : string;
  config : AudioSessionConfig;
  isActive : bool;
  isRecording : bool;
  startTime : Z;
  endTime : option Z;
  audioChunks : list (list Byte.byte);
  processedChunks : list (list Byte.byte);
  transcripts : list AudioTranscript;
  statistics : AudioSessionStatistics
}.

Record AudioSessionManager : Type := {
  sessions : gmap string AudioSession;
  this_config : AudioSessionConfig;
  silenceTimer : option string;        (* the session the pending timer is for *)
  lastVADResult : option VAD.VADResult;
  activeAudioContext : bool;           (* an audio context is held *)
  mediaStream : bool;                  (* a media stream is held *)
  audioProcessor : AudioProcessor.AudioProcessorImpl;
  vad : VAD.VoiceActivityDetector;
  trace : list event                   (* latest last *)
}.

(** [new AudioSessionManager(config)] around the given collaborators. *)
Definition create (c : AudioSessionConfig)
  (audioProcessor : AudioProcessor.AudioProcessorImpl)
  (vad : VAD.VoiceActivityDetector) : AudioSessionManager :=
  {| sessions := ∅; this_config := c; silenceTimer := None;
     lastVADResult := None; activeAudioContext := false; mediaStream := false;
     audioProcessor := audioProcessor; vad := vad; trace := [] |}.

(** *** Field updates *)

Definition set_flags (s : AudioSession) (active recording : bool) : AudioSession :=
  {| id := id s; config := config s; isActive := active; isRecording := recording;
     startTime := startTime s; endTime := endTime s;
     audioChunks := audioChunks s; processedChunks := processedChunks s;
     transcripts := transcripts s; statistics := statistics s |}.

Definition set_isActive (s : AudioSession) (b : bool) : AudioSession :=
  set_flags s b (isRecording s).

Definition set_isRecording (s : AudioSession) (b : bool) : AudioSession :=
  set_flags s (isActive s) b.

Definition set_endTime (s : AudioSession) (t : Z) : AudioSession :=
  {| id := id s; config := config s; isActive := isActive s;
     isRecording := isRecording s;
     startTime := startTime s; endTime := Some t;
     audioChunks := audioChunks s; processedChunks := processedChunks s;
     transcripts := transcripts s; statistics := statistics s |}.

Definition set_statistics (s : AudioSession) (st : AudioSessionStatistics)
  : AudioSession :=
  {| id := id s; config := config s; isActive := isActive s;
     isRecording := isRecording s;
     startTime := startTime s; endTime := endTime s;
     audioChunks := audioChunks s; processedChunks := processedChunks s;
     transcripts := transcripts s; statistics := st |}.

(** The session object is shared with the map: a change made to the object
    found under [sessionId] shows there. *)
Definition store (m : AudioSessionManager) (sessionId : string) (s : AudioSession)
  : AudioSessionManager :=
  {| sessions := <[sessionId := s]> (sessions m); this_config := this_config m;
     silenceTimer := silenceTimer m; lastVADResult := lastVADResult m;
     activeAudioContext := activeAudioContext m; mediaStream := mediaStream m;
     audioProcessor := audioProcessor m; vad := vad m; trace := trace m |}.

Definition set_sessions (m : AudioSessionManager) (ss : gmap string AudioSession)
  : AudioSessionManager :=
  {| sessions := ss; this_config := this_config m;
     silenceTimer := silenceTimer m; lastVADResult := lastVADResult m;
     activeAudioContext := activeAudioContext m; mediaStream := mediaStream m;
     audioProcessor := audioProcessor m; vad := vad m; trace := trace m |}.

Definition emit (m : AudioSessionManager) (e : event) : AudioSessionManager :=
  {| sessions := sessions m; this_config := this_config m;
     silenceTimer := silenceTimer m; lastVADResult := lastVADResult m;
     activeAudioContext := activeAudioContext m; mediaStream := mediaStream m;
     audioProcessor := audioProcessor m; vad := vad m; trace := trace m ++ [e] |}.

Definition set_mediaStream (m : AudioSessionManager) (b : bool) : AudioSessionManager :=
  {| sessions := sessions m; this_config := this_config m;
     silenceTimer := silenceTimer m; lastVADResult := lastVADResult m;
     activeAudioContext := activeAudioContext m; mediaStream := b;
     audioProcessor := audioProcessor m; vad := vad m; trace := trace m |}.

Definition set_activeAudioContext (m : AudioSessionManager) (b : bool)
  : AudioSessionManager :=
  {| sessions := sessions m; this_config := this_config m;
     silenceTimer := silenceTimer m; lastVADResult := lastVADResult m;
     activeAudioContext := b; mediaStream := mediaStream m;
     audioProcessor := audioProcessor m; vad := vad m; trace := trace m |}.

Definition set_silenceTimer (m : AudioSessionManager) (t : option string)
  : AudioSessionManager :=
  {| sessions := sessions m; this_config := this_config m;
     silenceTimer := t; lastVADResult := lastVADResult m;
     activeAudioContext := activeAudioContext m; mediaStream := mediaStream m;
     audioProcessor := audioProcessor m; vad := vad m; trace := trace m |}.

Definition set_lastVADResult (m : AudioSessionManager) (r : option VAD.VADResult)
  : AudioSessionManager :=
  {| sessions := sessions m; this_config := this_config m;
     silenceTimer := silenceTimer m; lastVADResult := r;
     activeAudioContext := activeAudioContext m; mediaStream := mediaStream m;
     audioProcessor := audioProcessor m; vad := vad m; trace := trace m |}.

Definition set_collaborators (m : AudioSessionManager)
  (p : AudioProcessor.AudioProcessorImpl) (d : VAD.VoiceActivityDetector)
  : AudioSessionManager :=
  {| sessions := sessions m; this_config := this_config m;
     silenceTimer := silenceTimer m; lastVADResult := lastVADResult m;
     activeAudioContext := activeAudioContext m; mediaStream := mediaStream m;
     audioProcessor := p; vad := d; trace := trace m |}.

(** *** The methods *)

Definition empty_statistics : AudioSessionStatistics :=
  {| totalDuration := zero; speakingDuration := zero; silenceDuration := zero;
     averageConfidence := zero; wordsPerMinute := zero; chunksProcessed := zero;
     errorCount := zero; voiceActivityRatio := zero; averageEnergy := zero;
     peakEnergy := zero; silencePeriods := zero |}.

(** [processAudioStream], up to the registration of the frame handler.
    The caller does not await it: when the audio context cannot be built
    the error reaches [onError] and a promise nobody holds. *)
Definition processAudioStream (m : AudioSessionManager) (s : AudioSession)
  (context : outcome) : AudioSessionManager :=
  let m := emit m NewAudioContext in
  match context with
  | Resolves => set_activeAudioContext m true
  | Rejects e => emit m (OnError (id s) (Wrapped "Failed to process audio stream" e))
  end.

Definition startRecording (m : AudioSessionManager) (s : AudioSession)
  (microphone context : outcome)
  : completion unit * AudioSessionManager * AudioSession :=
  let m := emit m GetUserMedia in
  match microphone with
  | Resolves =>
      let m := set_mediaStream m true in
      let s := set_isRecording s true in
      let m := processAudioStream m s context in
      (Returns tt, m, s)
  | Rejects e =>
      let s := set_isRecording s false in
      let m := emit m (OnError (id s) (Wrapped "Failed to access microphone" e)) in
      (Throws e, m, s)
  end.

(** [startSession].  [microphone], [context] and [stt] say how
    [getUserMedia], the construction of the audio context and
    [sttService.startSession] end, should they be reached. *)
Definition startSession (m : AudioSessionManager) (sessionId : string)
  (microphone context stt : outcome) : completion unit * AudioSessionManager :=
  match sessions m !! sessionId with
  | None => (Throws (SessionNotFound sessionId), m)
  | Some session =>
      if isActive session then (Throws (SessionAlreadyActive sessionId), m)
      else
        let session := set_isActive session true in
        let m :=
          set_collaborators m
            (AudioProcessor.updateConfig (audioProcessor m)
               (AudioProcessor.complete (audioConfig (config session))))
            (VAD.updateConfig (vad m) (VAD.complete (vadConfig (config session)))) in
        let failed (m : AudioSessionManager) (session : AudioSession) (error : Error) :=
          let session := set_isActive session false in
          let session := set_isRecording session false in
          let m := emit m (OnError (id session) error) in
          (Throws error, store m sessionId session) in
        match startRecording m session microphone context with
        | (Throws error, m, session) => failed m session error
        | (Returns _, m, session) =>
            let m := emit m SttStartSession in
            match stt with
            | Rejects error => failed m session error
            | Resolves => (Returns tt, store m sessionId session)
            end
        end
  end.

(** [stopRecording]; [close] says how [activeAudioContext.close()] ends. *)
Definition stopRecording (m : AudioSessionManager) (s : AudioSession)
  (close : outcome) : completion unit * AudioSessionManager * AudioSession :=
  let s := set_isRecording s false in
  let m := if mediaStream m then set_mediaStream (emit m TrackStop) false else m in
  let cleared (m : AudioSessionManager) :=
    match silenceTimer m with
    | Some _ => set_silenceTimer (emit m ClearTimeout) None
    | None => m
    end in
  if activeAudioContext m then
    let m := emit m AudioContextClose in
    match close with
    | Rejects e => (Throws e, m, s)
    | Resolves => (Returns tt, cleared (set_activeAudioContext m false), s)
    end
  else (Returns tt, cleared m, s).

Definition countSilencePeriods (s : AudioSession) : nat :=
  fst (fold_left
         (fun (acc : nat * bool) transcript =>
            let '(silencePeriods, wasInSpeech) := acc in
            let isInSpeech := gt (confidence transcript) (minConfidence (config s)) in
            (if negb isInSpeech && wasInSpeech then S silencePeriods else silencePeriods,
             isInSpeech))
         (transcripts s) (O, false)).

Definition calculateFinalStatistics `{MathLib} (d : VAD.VoiceActivityDetector)
  (s : AudioSession) : AudioSession :=
  match endTime s with
  | None => s
  | Some endTime =>
      let totalDuration := of_Z (endTime - startTime s) in
      let vadStats := VAD.getStatistics d in
      let st := statistics s in
      set_statistics s
        {| totalDuration := totalDuration;
           speakingDuration := mul totalDuration (VAD.speechRatio vadStats);
           silenceDuration := mul totalDuration (VAD.silenceRatio vadStats);
           averageConfidence := averageConfidence st;
           wordsPerMinute := wordsPerMinute st;
           chunksProcessed := chunksProcessed st;
           errorCount := errorCount st;
           voiceActivityRatio := voiceActivityRatio st;
           averageEnergy := averageEnergy st;
           peakEnergy := peakEnergy st;
           silencePeriods := of_nat (countSilencePeriods s) |}
  end.

(** [stopSession].  [close] and [stt] say how closing the audio context and
    [sttService.stopSession] end, should they be reached; [now] is the
    clock read by [new Date()]. *)
Definition stopSession `{MathLib} (m : AudioSessionManager) (sessionId : string)
  (close stt : outcome) (now : Z) : completion unit * AudioSessionManager :=
  match sessions m !! sessionId with
  | None => (Throws (SessionNotFound sessionId), m)
  | Some session =>
      let failed (m : AudioSessionManager) (session : AudioSession) (error : Error) :=
        let m := emit m (OnError (id session) error) in
        (Throws error, store m sessionId session) in
      match stopRecording m session close with
      | (Throws error, m, session) => failed m session error
      | (Returns _, m, session) =>
          let m := emit m (SttStopSession sessionId) in
          match stt with
          | Rejects error => failed m session error
          | Resolves =>
              let session := set_endTime session now in
              let session := set_isActive session false in
              let session := calculateFinalStatistics (vad m) session in
              (Returns tt, store m sessionId session)
          end
      end
  end.

(** [createSession]; [sessionId] is what [generateSessionId] draws and
    [now] the clock.  The outcomes are those of the [startSession] that
    [autoStart] triggers. *)
Definition createSession (m : AudioSessionManager)
  (options : option PartialAudioSessionConfig) (sessionId : string) (now : Z)
  (microphone context stt : outcome) : completion string * AudioSessionManager :=
  let sessionConfig := merge (this_config m) options in
  let session :=
    {| id := sessionId; config := sessionConfig;
       isActive := false; isRecording := false;
       startTime := now; endTime := None;
       audioChunks := []; processedChunks := []; transcripts := [];
       statistics := empty_statistics |} in
  let m := set_sessions m (<[sessionId := session]> (sessions m)) in
  if autoStart sessionConfig then
    match startSession m sessionId microphone context stt with
    | (Throws e, m) => (Throws e, m)
    | (Returns _, m) => (Returns sessionId, m)
    end
  else (Returns sessionId, m).

Definition startSilenceTimer (m : AudioSessionManager) (s : AudioSession)
  : AudioSessionManager :=
  set_silenceTimer (emit m (SetTimeout (id s))) (Some (id s)).

(** The callback of the silence timer set for session [sessionId]. *)
Definition silenceTimerFires `{MathLib} (m : AudioSessionManager) (sessionId : string)
  (close stt : outcome) (now : Z) : completion unit * AudioSessionManager :=
  match sessions m !! sessionId with
  | None => (Returns tt, m)
  | Some session =>
      if autoStop (config session) && isActive session then
        match stopSession m sessionId close stt now with
        | (Throws e, m) => (Throws e, m)
        | (Returns _, m) => (Returns tt, emit m (OnSessionEnd sessionId))
        end
      else (Returns tt, m)
  end.

Definition handleVADChange (m : AudioSessionManager) (s : AudioSession)
  (vadResult : VAD.VADResult) : AudioSessionManager :=
  let isSpeechChanged :=
    match lastVADResult m with
    | Some last => negb (Bool.eqb (VAD.isSpeech last) (VAD.isSpeech vadResult))
    | None => true
    end in
  let m :=
    if isSpeechChanged then
      let m := emit m (OnVADChange (id s) (VAD.isSpeech vadResult)) in
      if negb (VAD.isSpeech vadResult) then startSilenceTimer m s
      else
        match silenceTimer m with
        | Some _ => set_silenceTimer (emit m ClearTimeout) None
        | None => m
        end
    else m in
  set_lastVADResult m (Some vadResult).

Definition getSession (m : AudioSessionManager) (sessionId : string)
  : option AudioSession :=
  sessions m !! sessionId.

Definition pauseSession (m : AudioSessionManager) (sessionId : string)
  : AudioSessionManager :=
  match getSession m sessionId with
  | Some session =>
      if isActive session
      then emit (store m sessionId (set_isRecording session false)) SttPause
      else m
  | None => m
  end.

Definition resumeSession (m : AudioSessionManager) (sessionId : string)
  : AudioSessionManager :=
  match getSession m sessionId with
  | Some session =>
      if isActive session
      then emit (store m sessionId (set_isRecording session true)) SttResume
      else m
  | None => m
  end.

(** How often [getUserMedia] was called. *)
Definition microphone_requests (m : AudioSessionManager) : nat :=
  length (List.filter (fun e => match e with GetUserMedia => true | _ => false end) (trace m)).

(** The flags of a session, [None] for an unknown id. *)
Definition flags (m : AudioSessionManager) (sessionId : string) : option (bool * bool) :=
  match sessions m !! sessionId with
  | Some s => Some (isActive s, isRecording s)
  | None => None
  end.

(** [text.split(' ').length]: one more than the number of spaces. *)
Fixpoint count_spaces (text : string) : nat :=
  match text with
  | EmptyString => O
  | String c rest =>
      ((if Ascii.eqb c " "%char then 1 else 0) + count_spaces rest)%nat
  end.

Definition split_length (text : string) : nat := S (count_spaces text).

Definition estimateSpeakingRate (text : string) (duration : number) : number :=
  let words := of_nat (split_length text) in
  if gt duration zero then mul (div words duration) (Fin 60) else zero.


(** [removeSession], once the stop it launches without awaiting has
    settled: the rest of that stop works on the session object it already
    holds and never reads the map, so it ends as a stop followed by the
    deletion.  A stop that fails is logged and changes nothing else here. *)
Definition removeSession `{MathLib} (m : AudioSessionManager) (sessionId : string)
  (close stt : outcome) (now : Z) : AudioSessionManager :=
  let m :=
    match sessions m !! sessionId with
    | Some session =>
        if isActive session then snd (stopSession m sessionId close stt now) else m
    | None => m
    end in
  set_sessions m (delete sessionId (sessions m)).

End Session.

(** ** Concrete inputs *)

Module Examples.
Import JS.

(** A host with crude stand-ins for the functions that leave the
    rationals, to run the definitions on examples.  Every theorem below
    that mentions a host holds for all of them. *)
Definition sample_host : MathLib :=
  {| sqrtQ := fun q => inject_Z (Z.sqrt (Qfloor (q * 1000000))) / 1000;
     log10Q := fun q => inject_Z (Z.log2 (Qfloor (q * 1024)) - 10) * (301 # 1000);
     cosQ := fun q => 1 - q * q / 2;
     sinQ := fun q => q;
     PI := 355 # 113;
     Math_pow := fun x _ => x |}.

(** The configurations of [src/background/main.ts]. *)
Definition audioConfig : AudioProcessor.AudioConfig :=
  {| AudioProcessor.sampleRate := Fin 44100;
     AudioProcessor.channels := Fin 1;
     AudioProcessor.bitDepth := Fin 16;
     AudioProcessor.format := AudioProcessor.wav;
     AudioProcessor.enableNormalization := true;
     AudioProcessor.enableNoiseReduction := true;
     AudioProcessor.enableVAD := true;
     AudioProcessor.targetVolume := Fin (7 # 10);
     AudioProcessor.silenceThreshold := Fin (1 # 100) |}.

Definition vadConfig : VAD.VADConfig :=
  {| VAD.sampleRate := Fin 44100;
     VAD.windowSize := Fin 30;
     VAD.hopSize := Fin 15;
     VAD.threshold := Fin (1 # 100);
     VAD.minSpeechDuration := Fin 300;
     VAD.minSilenceDuration := Fin 500;
     VAD.sensitivity := Fin (8 # 10);
     VAD.adaptiveThreshold := true |}.

Definition sessionConfig : Session.AudioSessionConfig :=
  {| Session.autoStart := false;
     Session.autoStop := true;
     Session.maxSessionDuration := Fin 300000;
     Session.silenceTimeout := Fin 3000;
     Session.minConfidence := Fin (6 # 10);
     Session.enablePartialResults := true;
     Session.audioConfig := audioConfig;
     Session.vadConfig := vadConfig |}.

Definition manager : Session.AudioSessionManager :=
  Session.create sessionConfig (AudioProcessor.create audioConfig) (VAD.create vadConfig).

(** A result that classified its frame as silence. *)
Definition silence_result : VAD.VADResult :=
  {| VAD.isSpeech := false; VAD.confidence := Fin (3 # 10); VAD.energy := zero;
     VAD.timestamp := zero; VAD.frameIndex := O;
     VAD.voiceProbability := Fin (3 # 10); VAD.spectralCentroid := zero |}.

(** A detector whose single processed frame, of voice probability 0.3,
    was classified as silence. *)
Definition after_silence : VAD.VoiceActivityDetector :=
  snd (VAD.classify (VAD.create vadConfig) zero (Fin (3 # 10)) zero).

(** Two 16-bit samples of value 32768, which decode to 0. *)
Definition silent_frame : list Byte.byte := [Byte.x00; Byte.x80; Byte.x00; Byte.x80].

(** [{ sampleRate: r }] *)
Definition only_sampleRate (r : number) : AudioProcessor.PartialAudioConfig :=
  {| AudioProcessor.sampleRate' := Some r;
     AudioProcessor.channels' := None;
     AudioProcessor.bitDepth' := None;
     AudioProcessor.format' := None;
     AudioProcessor.enableNormalization' := None;
     AudioProcessor.enableNoiseReduction' := None;
     AudioProcessor.enableVAD' := None;
     AudioProcessor.targetVolume' := None;
     AudioProcessor.silenceThreshold' := None |}.

(** The processor after one call, if the call ends. *)
Definition processor_after (p : AudioProcessor.AudioProcessorImpl)
  (audioData : list Byte.byte) (cfg : AudioProcessor.PartialAudioConfig)
  : AudioProcessor.AudioProcessorImpl :=
  match AudioProcessor.process (H := sample_host) p audioData cfg with
  | Some (_, p') => p'
  | None => p
  end.

(** The session object [createSession] builds at time 0 under the id
    [s1] from the manager's config. *)
Definition created_session : Session.AudioSession :=
  {| Session.id := "s1"; Session.config := sessionConfig;
     Session.isActive := false; Session.isRecording := false;
     Session.startTime := 0; Session.endTime := None;
     Session.audioChunks := []; Session.processedChunks := [];
     Session.transcripts := []; Session.statistics := Session.empty_statistics |}.

(** A session created at time 0, then started, then stopped at time 1000,
    every collaborator accepting. *)
Definition created : Session.AudioSessionManager :=
  snd (Session.createSession manager None "s1" 0
         Session.Resolves Session.Resolves Session.Resolves).

Definition started : Session.AudioSessionManager :=
  snd (Session.startSession created "s1"
         Session.Resolves Session.Resolves Session.Resolves).

Definition stopped : Session.AudioSessionManager :=
  snd (Session.stopSession (H := sample_host) started "s1"
         Session.Resolves Session.Resolves 1000).

(** [{ autoStart: true }] *)
Definition only_autoStart : Session.PartialAudioSessionConfig :=
  {| Session.autoStart' := Some true;
     Session.autoStop' := None;
     Session.maxSessionDuration' := None;
     Session.silenceTimeout' := None;
     Session.minConfidence' := None;
     Session.enablePartialResults' := None;
     Session.audioConfig' := None;
     Session.vadConfig' := None |}.

(** Three samples taken from rate 1 to rate 2, on a host that grants
    arrays of a thousand elements. *)
Definition upsampled : Float32Array :=
  match AudioProcessor.resample 1000 [Fin 1; Fin 2; Fin 3] (Fin 1) (Fin 2) with
  | Some out => out
  | None => []
  end.

(** [{ sampleRate: 50, enableNormalization: false }] *)
Definition low_rate : AudioProcessor.PartialAudioConfig :=
  {| AudioProcessor.sampleRate' := Some (Fin 50);
     AudioProcessor.channels' := None;
     AudioProcessor.bitDepth' := None;
     AudioProcessor.format' := None;
     AudioProcessor.enableNormalization' := Some false;
     AudioProcessor.enableNoiseReduction' := None;
     AudioProcessor.enableVAD' := None;
     AudioProcessor.targetVolume' := None;
     AudioProcessor.silenceThreshold' := None |}.

(** A detector that has classified three frames, one of them as speech. *)
Definition one_in_three : VAD.VoiceActivityDetector :=
  VAD.run (H := sample_host) (VAD.create vadConfig)
    [VAD.ProcessFrame [Fin 1; Fin (- 1 # 2)]; VAD.ProcessFrame []; VAD.ProcessFrame []].

(** The started manager of above with that detector. *)
Definition started_after_frames : Session.AudioSessionManager :=
  Session.set_collaborators started (Session.audioProcessor started) one_in_three.


End Examples.

(** ** Notions the properties are stated with *)

Module Reading.
Import JS.

(** The number of [processFrame] calls of a history since its last
    [reset], counted from [n]. *)
Fixpoint frames_since_reset (calls : list VAD.call) (n : nat) : nat :=
  match calls with
  | [] => n
  | VAD.ProcessFrame _ :: calls => frames_since_reset calls (S n)
  | VAD.Reset :: calls => frames_since_reset calls O
  | _ :: calls => frames_since_reset calls n
  end.

(** The verdicts that are silence. *)
Definition silent_results (rs : list VAD.VADResult) : list VAD.VADResult :=
  List.filter (fun r => negb (VAD.isSpeech r)) rs.

(** The larger of two rationals, as [Math_max] picks it. *)
Definition pick_max (a b : Q) : Q := if Qltb a b then b else a.







(** A number of the unit interval, or [NaN]. *)
Definition unit_or_nan (x : number) : Prop :=
  x = NaN \/ exists q, x = Fin q /\ 0 <= q <= 1.

(** Two detectors that agree on everything a verdict is computed from but
    the threshold, the energy history and the baseline. *)
Definition alike (d1 d2 : VAD.VoiceActivityDetector) : Prop :=
  VAD.sampleRate (VAD.this_config d1) = VAD.sampleRate (VAD.this_config d2) /\
  VAD.hopSize (VAD.this_config d1) = VAD.hopSize (VAD.this_config d2) /\
  VAD.sensitivity (VAD.this_config d1) = VAD.sensitivity (VAD.this_config d2) /\
  VAD.this_frameIndex d1 = VAD.this_frameIndex d2 /\
  VAD.this_state d1 = VAD.this_state d2 /\
  VAD.this_lastVADResult d1 = VAD.this_lastVADResult d2.

(** What the compressor does to one sample [x], giving [y], for a
    threshold [T]: a sample within the threshold is kept, a finite sample
    beyond it is not taken to the other sign nor beyond its former
    magnitude. *)
Definition compressed (T : Q) (x y : number) : Prop :=
  (gt (Math_abs x) (Fin T) = false -> y = x) /\
  (forall q, x = Fin q -> T < Qabs q ->
             exists p, y = Fin p /\ Qabs p <= Qabs q /\ 0 <= p * q).

(** How often the session-ended callback of [sessionId] was called. *)
Definition session_ends (m : Session.AudioSessionManager) (sessionId : string) : nat :=
  length (List.filter (fun e => match e with
                                | Session.OnSessionEnd i => String.eqb i sessionId
                                | _ => false
                                end) (Session.trace m)).

(** The transcripts whose confidence exceeds the session's minimum. *)
Definition confident (s : Session.AudioSession) : list Session.AudioTranscript :=
  List.filter (fun t => gt (Session.confidence t)
                           (Session.minConfidence (Session.config s)))
              (Session.transcripts s).




End Reading.

(** * Properties *)

(** ** Numbers *)

Module JSFacts.
Import JS.

Lemma Qltb_lt (a b : Q) : Qltb a b = true <-> a < b.
Proof.
  unfold Qltb. rewrite negb_true_iff.
  split; intros H.
  - apply Qnot_le_lt. intros Hle. apply Qle_bool_iff in Hle. congruence.
  - destruct (Qle_bool b a) eqn:E; [|reflexivity].
    apply Qle_bool_iff in E. exfalso. apply (Qlt_not_le _ _ H E).
Qed.

Lemma Qltb_ge (a b : Q) : Qltb a b = false <-> b <= a.
Proof.
  unfold Qltb. rewrite negb_false_iff. apply Qle_bool_iff.
Qed.

Lemma gt_Fin (a b : Q) : gt (Fin a) (Fin b) = true <-> b < a.
Proof. unfold gt, lt. apply Qltb_lt. Qed.

Lemma gt_Fin_false (a b : Q) : gt (Fin a) (Fin b) = false <-> a <= b.
Proof. unfold gt, lt. apply Qltb_ge. Qed.


Lemma le_finite_l (x : number) (b : Q) :
  le x (Fin b) = true -> x = NInf \/ exists a, x = Fin a /\ a <= b.
Proof.
  destruct x as [| | |a]; simpl; try discriminate; auto.
  intros H. right. exists a. split; [reflexivity | now apply Qle_bool_iff].
Qed.

(** A comparison with a finite bound depends on the bound's value only. *)
Lemma gt_bound_compat (x : number) (a b : Q) :
  a == b -> gt x (Fin a) = gt x (Fin b).
Proof.
  intros Hab. destruct x as [| | |q]; try reflexivity.
  unfold gt, lt, Qltb. f_equal.
  destruct (Qle_bool q a) eqn:E1, (Qle_bool q b) eqn:E2; try reflexivity.
  - apply Qle_bool_iff in E1. rewrite Hab in E1. apply Qle_bool_iff in E1. congruence.
  - apply Qle_bool_iff in E2. rewrite <- Hab in E2. apply Qle_bool_iff in E2. congruence.
Qed.

End JSFacts.

(** ** The voice-activity detector *)

Module VADFacts.
Import JS VAD JSFacts Reading.

Lemma applyHysteresis_speech (last : VADResult) (p : number) :
  isSpeech last = true -> applyHysteresis (Some last) p = gt p (Fin (4 # 10)).
Proof.
  intros H. unfold applyHysteresis. rewrite H. simpl sub.
  apply gt_bound_compat. reflexivity.
Qed.

Lemma applyHysteresis_silence (last : VADResult) (p : number) :
  isSpeech last = false -> applyHysteresis (Some last) p = gt p (Fin (6 # 10)).
Proof.
  intros H. unfold applyHysteresis. rewrite H. simpl add.
  apply gt_bound_compat. reflexivity.
Qed.

Lemma le_not_gt (p : number) (b : Q) : le p (Fin b) = true -> gt p (Fin b) = false.
Proof.
  intros H. destruct (le_finite_l _ _ H) as [-> | (a & -> & Hab)]; [reflexivity|].
  now apply gt_Fin_false.
Qed.

(** [operating_threshold] touches the baseline only. *)
Lemma operating_threshold_frame (d : VoiceActivityDetector) :
  let d' := snd (operating_threshold d) in
  this_config d' = this_config d /\
  this_frameIndex d' = this_frameIndex d /\
  this_state d' = this_state d /\
  this_energyHistory d' = this_energyHistory d /\
  this_adaptationRate d' = this_adaptationRate d /\
  this_lastVADResult d' = this_lastVADResult d.
Proof.
  unfold operating_threshold, calculateAdaptiveThreshold.
  destruct (adaptiveThreshold (this_config d)); [|simpl; tauto].
  destruct (length (this_energyHistory d) <? 10)%nat; simpl; tauto.
Qed.

Section Detector.
Context {M : MathLib}.

(** [processFrame] is [classify] on the detector with the new history. *)
Lemma processFrame_classify (d : VoiceActivityDetector) (audioData : Float32Array) :
  exists d' p,
    processFrame d audioData
    = classify d' (calculateEnergy audioData) p
        (calculateSpectralCentroid (this_config d) audioData) /\
    this_config d' = this_config d /\
    this_frameIndex d' = this_frameIndex d /\
    this_state d' = this_state d /\
    this_energyHistory d'
    = push_energy (this_energyHistory d) (calculateEnergy audioData) /\
    this_lastVADResult d' = this_lastVADResult d.
Proof.
  unfold processFrame.
  set (d0 := with_history d _).
  pose proof (operating_threshold_frame d0) as Hf.
  destruct (operating_threshold d0) as [t d1]. simpl in Hf.
  destruct Hf as (Hc & Hi & Hs & Hh & _ & Hl).
  eexists d1, _. split; [reflexivity|].
  subst d0. simpl in *. tauto.
Qed.

Lemma processFrame_verdict (d : VoiceActivityDetector) (audioData : Float32Array) :
  let r := fst (processFrame d audioData) in
  isSpeech r = applyHysteresis (this_lastVADResult d) (voiceProbability r).
Proof.
  destruct (processFrame_classify d audioData) as (d' & p & -> & _ & _ & _ & _ & Hl).
  simpl. now rewrite Hl.
Qed.

Lemma processFrame_frameIndex (d : VoiceActivityDetector) (audioData : Float32Array) :
  frameIndex (fst (processFrame d audioData)) = this_frameIndex d /\
  this_frameIndex (snd (processFrame d audioData)) = S (this_frameIndex d).
Proof.
  destruct (processFrame_classify d audioData) as (d' & p & -> & _ & Hi & _).
  simpl. now rewrite Hi.
Qed.

Lemma processFrame_history (d : VoiceActivityDetector) (audioData : Float32Array) :
  this_energyHistory (snd (processFrame d audioData))
  = push_energy (this_energyHistory d) (calculateEnergy audioData).
Proof.
  destruct (processFrame_classify d audioData) as (d' & p & -> & _ & _ & _ & Hh & _).
  exact Hh.
Qed.

Lemma processFrame_state (d : VoiceActivityDetector) (audioData : Float32Array) :
  this_state (snd (processFrame d audioData))
  = updateState (this_config d) (this_frameIndex d) (this_state d)
      (isSpeech (fst (processFrame d audioData))) (calculateEnergy audioData).
Proof.
  destruct (processFrame_classify d audioData) as (d' & p & -> & Hc & Hi & Hs & _ & _).
  simpl. now rewrite Hc, Hi, Hs.
Qed.

Lemma push_energy_length (h : list number) (e : number) :
  (length h <= 100)%nat -> (length (push_energy h e) <= 100)%nat.
Proof.
  intros H. unfold push_energy.
  destruct (100 <? length (h ++ [e]))%nat eqn:E.
  - destruct (h ++ [e]) as [|x t] eqn:Eh.
    + simpl. lia.
    + assert (length (x :: t) = S (length h)) as Hl.
      { rewrite <- Eh, length_app. simpl. lia. }
      simpl in *. lia.
  - apply Nat.ltb_ge in E. exact E.
Qed.

Lemma perform_history (d : VoiceActivityDetector) (c : call) :
  (length (this_energyHistory d) <= 100)%nat ->
  (length (this_energyHistory (snd (perform d c))) <= 100)%nat.
Proof.
  intros H. destruct c; simpl; try lia; try exact H.
  destruct (processFrame d audioData) as [r d'] eqn:E. simpl.
  replace d' with (snd (processFrame d audioData)) by now rewrite E.
  rewrite processFrame_history. now apply push_energy_length.
Qed.

Lemma run_cons (d : VoiceActivityDetector) (c : call) (calls : list call) :
  run d (c :: calls) = run (snd (perform d c)) calls.
Proof. reflexivity. Qed.

(** What every call preserves holds after every history. *)
Lemma run_invariant (P : VoiceActivityDetector -> Prop) :
  (forall d c, P d -> P (snd (perform d c))) ->
  forall calls d, P d -> P (run d calls).
Proof.
  intros Hstep calls. induction calls as [|c calls IH]; intros d Hd; [exact Hd|].
  rewrite run_cons. apply IH, Hstep, Hd.
Qed.

Lemma perform_frameIndex (d : VoiceActivityDetector) (c : call) :
  this_frameIndex (snd (perform d c))
  = frames_since_reset [c] (this_frameIndex d).
Proof.
  destruct c; simpl; try reflexivity.
  destruct (processFrame d audioData) as [r d'] eqn:E. simpl.
  replace d' with (snd (processFrame d audioData)) by now rewrite E.
  apply processFrame_frameIndex.
Qed.

Lemma run_frameIndex (calls : list call) (d : VoiceActivityDetector) :
  this_frameIndex (run d calls) = frames_since_reset calls (this_frameIndex d).
Proof.
  revert d. induction calls as [|c calls IH]; intros d; [reflexivity|].
  rewrite run_cons, IH, perform_frameIndex. destruct c; reflexivity.
Qed.

Lemma results_frames (frames : list Float32Array) (d : VoiceActivityDetector) :
  map frameIndex (results d (map ProcessFrame frames))
  = seq (this_frameIndex d) (length frames).
Proof.
  revert d. induction frames as [|a frames IH]; intros d; [reflexivity|].
  simpl. destruct (processFrame d a) as [r d'] eqn:E. simpl.
  pose proof (processFrame_frameIndex d a) as [Hr Hd]. rewrite E in Hr, Hd.
  simpl in Hr, Hd. now rewrite IH, Hr, Hd.
Qed.

Lemma updateState_totalSilenceDuration (c : VADConfig) (i : nat) (st : VADState)
  (speech : bool) (e : number) :
  totalSilenceDuration (updateState c i st speech e) = totalSilenceDuration st.
Proof. destruct st as [[|] ? ? ? ? ? ?], speech; reflexivity. Qed.

Lemma updateState_silenceFrames (c : VADConfig) (i : nat) (st : VADState)
  (speech : bool) (e : number) :
  silenceFrames (updateState c i st speech e)
  = if speech then silenceFrames st else S (silenceFrames st).
Proof. destruct st as [[|] ? ? ? ? ? ?], speech; reflexivity. Qed.

Lemma perform_totalSilenceDuration (d : VoiceActivityDetector) (c : call) :
  totalSilenceDuration (this_state d) = zero ->
  totalSilenceDuration (this_state (snd (perform d c))) = zero.
Proof.
  intros H. destruct c; simpl; try exact H; try reflexivity.
  destruct (processFrame d audioData) as [r d'] eqn:E. simpl.
  replace d' with (snd (processFrame d audioData)) by now rewrite E.
  now rewrite processFrame_state, updateState_totalSilenceDuration.
Qed.

Lemma run_frames_silenceFrames (frames : list Float32Array) (d : VoiceActivityDetector) :
  silenceFrames (this_state (run d (map ProcessFrame frames)))
  = (silenceFrames (this_state d)
     + length (silent_results (results d (map ProcessFrame frames))))%nat.
Proof.
  revert d. induction frames as [|a frames IH]; intros d.
  - simpl. lia.
  - cbn [map]. rewrite run_cons. cbn [results perform].
    pose proof (processFrame_state d a) as Hs.
    destruct (processFrame d a) as [r d'] eqn:E. cbn [fst snd] in *.
    rewrite IH, Hs, updateState_silenceFrames.
    unfold silent_results. cbn [List.filter].
    destruct (isSpeech r); simpl; lia.
Qed.

Lemma perform_adaptationRate (d : VoiceActivityDetector) (c : call) :
  this_adaptationRate d = Fin (1 # 100) ->
  this_adaptationRate (snd (perform d c)) = Fin (1 # 100).
Proof.
  intros H. destruct c; simpl; try exact H.
  - destruct (processFrame_classify d audioData) as (d' & p & E & _).
    unfold processFrame in *.
    pose proof (operating_threshold_frame
                  (with_history d (push_energy (this_energyHistory d)
                                     (calculateEnergy audioData)))) as Hf.
    destruct (operating_threshold _) as [t d1]. simpl in Hf. simpl.
    destruct Hf as (_ & _ & _ & _ & Hr & _). now rewrite Hr.
  - destruct enabled; [reflexivity | exact H].
Qed.

(** The smoothing factor of a detector never leaves 0.01. *)
Lemma run_adaptationRate (c : VADConfig) (calls : list call) :
  this_adaptationRate (run (create c) calls) = Fin (1 # 100).
Proof.
  apply (run_invariant (fun d => this_adaptationRate d = Fin (1 # 100))).
  - apply perform_adaptationRate.
  - reflexivity.
Qed.

End Detector.











Lemma lt_le (p : number) (b : Q) : lt p (Fin b) = true -> le p (Fin b) = true.
Proof.
  destruct p as [| | |a]; simpl; try discriminate; try reflexivity.
  intros H. apply Qltb_lt in H. apply Qle_bool_iff. now apply Qlt_le_weak.
Qed.

(** C1, as the source has it.  [processFrame] classifies a frame by
    [applyHysteresis] on the voice probability it computed and on the
    previous result.  After a Speech result a probability of at most 0.4
    gives Silence and a larger one Speech; after a Silence result a
    probability above 0.6 gives Speech and one of at most 0.6 (0.6 itself
    included) gives Silence; strictly between 0.4 and 0.6 the previous
    verdict stands; without a previous result the verdict is Speech exactly
    when the probability exceeds 0.5.  On a fresh detector the
    probabilities 0.6, 0.55, 0.45, 0.38 give Speech, Speech, Speech,
    Silence. *)
Theorem hysteresis_bands `{MathLib} (d : VoiceActivityDetector)
  (audioData : Float32Array) (last : VADResult) (p : number) (c : VADConfig) :
  isSpeech (fst (processFrame d audioData))
  = applyHysteresis (this_lastVADResult d)
      (voiceProbability (fst (processFrame d audioData))) /\
  (isSpeech last = true -> le p (Fin (4 # 10)) = true ->
   applyHysteresis (Some last) p = false) /\
  (isSpeech last = true -> gt p (Fin (4 # 10)) = true ->
   applyHysteresis (Some last) p = true) /\
  (isSpeech last = false -> gt p (Fin (6 # 10)) = true ->
   applyHysteresis (Some last) p = true) /\
  (isSpeech last = false -> le p (Fin (6 # 10)) = true ->
   applyHysteresis (Some last) p = false) /\
  (gt p (Fin (4 # 10)) = true -> lt p (Fin (6 # 10)) = true ->
   applyHysteresis (Some last) p = isSpeech last) /\
  applyHysteresis None p = gt p (Fin (5 # 10)) /\
  classify_all (create c)
    [Fin (60 # 100); Fin (55 # 100); Fin (45 # 100); Fin (38 # 100)]
  = [true; true; true; false].
Proof.
  split; [apply processFrame_verdict|].
  repeat split.
  - intros Hs Hp. rewrite (applyHysteresis_speech _ _ Hs). now apply le_not_gt.
  - intros Hs Hp. now rewrite (applyHysteresis_speech _ _ Hs).
  - intros Hs Hp. now rewrite (applyHysteresis_silence _ _ Hs).
  - intros Hs Hp. rewrite (applyHysteresis_silence _ _ Hs). now apply le_not_gt.
  - intros Hlo Hhi. destruct (isSpeech last) eqn:Hs.
    + now rewrite (applyHysteresis_speech _ _ Hs).
    + rewrite (applyHysteresis_silence _ _ Hs). now apply le_not_gt, lt_le.
Qed.

(** C1, the claim refuted: after a Silence result a probability of exactly
    0.6, which is at least 0.6, is classified Silence; and on a detector
    whose previous frame was classified Silence the probabilities 0.6,
    0.55, 0.45, 0.38 give Silence four times. *)
Lemma hysteresis_at_upper_band :
  ge (Fin (6 # 10)) (Fin (6 # 10)) = true /\
  isSpeech Examples.silence_result = false /\
  applyHysteresis (Some Examples.silence_result) (Fin (6 # 10)) = false /\
  option_map isSpeech (this_lastVADResult Examples.after_silence) = Some false /\
  classify_all Examples.after_silence
    [Fin (60 # 100); Fin (55 # 100); Fin (45 # 100); Fin (38 # 100)]
  = [false; false; false; false].
Proof. repeat split. Qed.

(** C9.  After any history of calls on a fresh detector the energy history
    holds at most 100 entries; the result of the next [processFrame]
    carries as [frameIndex] the number of frames processed since the last
    [reset] (since creation when there was none) and the counter is one
    more afterwards; right after a [reset] the next result has index 0; and
    the results of n frames processed in a row by a fresh detector carry
    the indices 0, 1, ..., n-1. *)
Theorem history_bound_and_frame_counter `{MathLib} (c : VADConfig)
  (calls : list call) (audioData : Float32Array) (frames : list Float32Array) :
  (length (this_energyHistory (run (create c) calls)) <= 100)%nat /\
  frameIndex (fst (processFrame (run (create c) calls) audioData))
  = frames_since_reset calls 0 /\
  this_frameIndex (snd (processFrame (run (create c) calls) audioData))
  = S (frames_since_reset calls 0) /\
  frameIndex (fst (processFrame (reset (run (create c) calls)) audioData)) = O /\
  map frameIndex (results (create c) (map ProcessFrame frames))
  = seq 0 (length frames).
Proof.
  repeat split.
  - apply (run_invariant (fun d => (length (this_energyHistory d) <= 100)%nat)).
    + apply perform_history.
    + simpl. lia.
  - destruct (processFrame_frameIndex (run (create c) calls) audioData) as [-> _].
    apply run_frameIndex.
  - destruct (processFrame_frameIndex (run (create c) calls) audioData) as [_ ->].
    f_equal. apply run_frameIndex.
  - now destruct (processFrame_frameIndex (reset (run (create c) calls)) audioData)
      as [-> _].
  - apply (results_frames frames (create c)).
Qed.

(** C10.  After any history of calls on a fresh detector
    [totalSilenceDuration] is 0, while [silenceFrames] counts the frames
    classified as silence. *)
Theorem totalSilenceDuration_stays_zero `{MathLib} (c : VADConfig)
  (calls : list call) (frames : list Float32Array) :
  totalSilenceDuration (this_state (run (create c) calls)) = zero /\
  silenceFrames (this_state (run (create c) (map ProcessFrame frames)))
  = length (silent_results (results (create c) (map ProcessFrame frames))).
Proof.
  split.
  - apply (run_invariant (fun d => totalSilenceDuration (this_state d) = zero)).
    + apply perform_totalSilenceDuration.
    + reflexivity.
  - now rewrite run_frames_silenceFrames.
Qed.

(** Case analysis on every rational comparison of the goal. *)
Ltac order_cases :=
  repeat match goal with
         | |- context [Qltb ?a ?b] =>
             let E := fresh "E" in
             destruct (Qltb a b) eqn:E;
             [apply Qltb_lt in E | apply Qltb_ge in E]
         end.





End VADFacts.

(** ** The frame processor *)

Module AudioProcessorFacts.
Import JS AudioProcessor JSFacts Reading.

Lemma Math_max_Fin (a b : Q) : Math_max (Fin a) (Fin b) = Fin (pick_max a b).
Proof. unfold pick_max. cbn. now destruct (Qltb a b). Qed.

Lemma pick_max_spec (a b : Q) :
  a <= pick_max a b /\ b <= pick_max a b /\ (pick_max a b = a \/ pick_max a b = b).
Proof.
  unfold pick_max. destruct (Qltb a b) eqn:E.
  - apply Qltb_lt in E. repeat split; [lra | lra | now right].
  - apply Qltb_ge in E. repeat split; [lra | lra | now left].
Qed.

Lemma all_finite (xs : list number) :
  Forall (fun x => is_finite x = true) xs -> exists qs, xs = map Fin qs.
Proof.
  induction 1 as [|x xs Hx _ [qs ->]].
  - now exists [].
  - destruct x as [| | |q]; try discriminate. now exists (q :: qs).
Qed.

Lemma fold_max_Fin (qs : list Q) (a : Q) :
  fold_left Math_max (map Fin qs) (Fin a) = Fin (fold_left pick_max qs a).
Proof.
  revert a. induction qs as [|q qs IH]; intros a; [reflexivity|].
  cbn [map fold_left]. now rewrite Math_max_Fin, IH.
Qed.

Lemma fold_pick_max_spec (qs : list Q) (a : Q) :
  let m := fold_left pick_max qs a in
  a <= m /\ (forall q, In q qs -> q <= m) /\ In m (a :: qs).
Proof.
  revert a. induction qs as [|q qs IH]; intros a; cbn [fold_left].
  - repeat split; [lra | intros q [] | now left].
  - destruct (IH (pick_max a q)) as (H1 & H2 & H3).
    destruct (pick_max_spec a q) as (Ha & Hq & Hm).
    repeat split.
    + lra.
    + intros q' [<- | Hin]; [lra | now apply H2].
    + destruct H3 as [H3 | H3].
      * rewrite <- H3. destruct Hm as [-> | ->]; [now left | right; now left].
      * right. now right.
Qed.

(** The peak of finite samples: [-Infinity] for no sample, else the
    largest absolute value, which one of the samples has. *)
Lemma peak_finite (qs : list Q) :
  qs <> [] ->
  exists m, Math_max_list (map Math_abs (map Fin qs)) = Fin m /\
            (forall q, In q qs -> Qabs q <= m) /\
            (exists q, In q qs /\ m = Qabs q).
Proof.
  destruct qs as [|q0 qs]; [congruence|]. intros _.
  unfold Math_max_list. cbn [map fold_left Math_abs].
  change (Math_max NInf (Fin (Qabs q0))) with (Fin (Qabs q0)).
  rewrite map_map. cbn [Math_abs]. rewrite <- (map_map Qabs Fin), fold_max_Fin.
  destruct (fold_pick_max_spec (map Qabs qs) (Qabs q0)) as (H1 & H2 & H3).
  eexists. split; [reflexivity|]. split.
  - intros q [<- | Hin]; [exact H1|]. apply H2. apply (in_map Qabs), Hin.
  - destruct H3 as [H3 | H3].
    + exists q0. split; [now left | symmetry; exact H3].
    + apply in_map_iff in H3 as (q & Hq & Hin). exists q. split; [now right | symmetry; exact Hq].
Qed.

Lemma Qabs_nonzero (q : Q) : ~ q == 0 -> 0 < Qabs q.
Proof.
  intros Hq. apply Qabs_case; intros Hs.
  - destruct (Qlt_le_dec 0 q); [assumption | exfalso; apply Hq; lra].
  - destruct (Qlt_le_dec 0 (- q)); [assumption | exfalso; apply Hq; lra].
Qed.

Lemma scaled_abs (q m t : Q) : 0 < m -> 0 < t -> Qabs (q / m * t) == Qabs q / m * t.
Proof.
  intros Hm Ht. unfold Qdiv. rewrite !Qabs_Qmult.
  rewrite (Qabs_pos t) by lra.
  rewrite (Qabs_pos (/ m)); [reflexivity|].
  apply Qlt_le_weak, Qinv_lt_0_compat, Hm.
Qed.

Lemma normalize_finite (c : AudioConfig) (qs : list Q) (m t : Q) :
  targetVolume c = Fin t ->
  Math_max_list (map Math_abs (map Fin qs)) = Fin m -> 0 < m ->
  normalize c (map Fin qs) = map Fin (map (fun q => q / m * t) qs).
Proof.
  intros Ht Hmax Hm. unfold normalize. rewrite Hmax, Ht.
  assert (Qeq_bool m 0 = false) as Hz.
  { destruct (Qeq_bool m 0) eqn:E; [|reflexivity]. apply Qeq_bool_iff in E. lra. }
  cbn [strict_eq zero]. rewrite Hz. rewrite !map_map.
  apply List.map_ext. intros q. cbn [div mul]. now rewrite Hz.
Qed.

(** C3.  For a finite [targetVolume > 0] and a frame of finite samples of
    which one at least is not zero, the largest absolute sample of
    [normalize]'s result equals [targetVolume]; a frame whose samples are
    all zero (the empty frame included) is returned as it is. *)
Theorem normalize_peak (c : AudioConfig) (audioData : Float32Array) :
  (forall t,
     targetVolume c = Fin t -> 0 < t ->
     Forall (fun x => is_finite x = true) audioData ->
     Exists (fun x => strict_eq x zero = false) audioData ->
     exists peak,
       Math_max_list (map Math_abs (normalize c audioData)) = Fin peak /\ peak == t) /\
  (Forall (fun x => strict_eq x zero = true) audioData ->
   normalize c audioData = audioData).
Proof.
  split.
  - intros t Ht Hpos Hfin Hnz. destruct (all_finite _ Hfin) as [qs ->].
    assert (exists q, In q qs /\ ~ q == 0) as (q1 & Hin1 & Hq1).
    { apply List.Exists_exists in Hnz as (x & Hin & Hx).
      apply in_map_iff in Hin as (q & <- & Hin). exists q. split; [exact Hin|].
      intros Hq. apply Qeq_bool_iff in Hq. cbn in Hx. congruence. }
    assert (qs <> []) as Hne by (intros ->; destruct Hin1).
    destruct (peak_finite qs Hne) as (m & Hmax & Hle & (qm & Hinm & Hqm)).
    assert (0 < m) as Hm.
    { specialize (Hle q1 Hin1). pose proof (Qabs_nonzero q1 Hq1). lra. }
    rewrite (normalize_finite c qs m t Ht Hmax Hm).
    assert (map (fun q => q / m * t) qs <> []) as Hne'
        by (destruct qs; [congruence | discriminate]).
    destruct (peak_finite _ Hne') as (m' & Hmax' & Hle' & (y & Hiny & Hy)).
    exists m'. split; [exact Hmax'|].
    apply in_map_iff in Hiny as (q & <- & Hinq).
    apply Qle_antisym.
    + rewrite Hy, scaled_abs by assumption.
      specialize (Hle q Hinq).
      assert (Qabs q / m <= 1) by (apply Qle_shift_div_r; lra).
      nra.
    + assert (Qabs (qm / m * t) <= m') as Hb
          by (apply Hle'; apply (in_map (fun q => q / m * t)); exact Hinm).
      rewrite scaled_abs in Hb by assumption. rewrite <- Hqm in Hb.
      assert (m / m == 1) as Hone by (field; lra).
      rewrite Hone in Hb. lra.
  - intros Hz. destruct audioData as [|x xs]; [reflexivity|].
    assert (Forall (fun x => is_finite x = true) (x :: xs)) as Hfin.
    { rewrite List.Forall_forall in Hz |- *. intros y Hy.
      specialize (Hz y Hy). destruct y; cbn in *; congruence. }
    destruct (all_finite _ Hfin) as [qs Hqs]. rewrite Hqs in *.
    assert (qs <> []) as Hne by (destruct qs; [discriminate | congruence]).
    destruct (peak_finite qs Hne) as (m & Hmax & _ & (qm & Hinm & Hqm)).
    unfold normalize. rewrite Hmax.
    assert (strict_eq (Fin m) zero = true) as ->; [|reflexivity].
    rewrite List.Forall_forall in Hz.
    specialize (Hz (Fin qm) (in_map Fin _ _ Hinm)). cbn in Hz |- *.
    apply Qeq_bool_iff in Hz. apply Qeq_bool_iff. rewrite Hqm, Hz. reflexivity.
Qed.

(** The theorem at the frame (0.5, -0.25) and the target volume 0.7. *)
Lemma normalize_peak_witness :
  exists peak,
    Math_max_list
      (map Math_abs (normalize Examples.audioConfig [Fin (1 # 2); Fin (- 1 # 4)]))
    = Fin peak /\ peak == 7 # 10.
Proof.
  apply (proj1 (normalize_peak Examples.audioConfig [Fin (1 # 2); Fin (- 1 # 4)])
           (7 # 10)).
  - reflexivity.
  - reflexivity.
  - repeat constructor.
  - apply Exists_cons_hd. reflexivity.
Defined.

Lemma Qfloor_zero_over (h : Q) : Qfloor (0 / h) = 0%Z.
Proof. unfold Qdiv, Qmult, Qfloor. cbn [Qnum Qden]. now rewrite Z.mul_0_l. Qed.

Lemma detectVoiceActivity_empty (c : AudioConfig) : detectVoiceActivity c [] = Some false.
Proof.
  unfold detectVoiceActivity.
  generalize (Math_floor (mul (sampleRate c) (Fin (3 # 100)))) as windowSize.
  intros windowSize.
  generalize (Math_floor (div windowSize (Fin 2))) as hopSize.
  intros [| | |h]; try reflexivity.
  cbn [length of_nat Z.of_nat inject_Z div].
  change (Qeq_bool (0 # 1) 0) with true. cbn match.
  destruct (Qeq_bool h 0); [reflexivity|].
  cbn [Math_floor]. change (0 # 1) with 0. rewrite Qfloor_zero_over. reflexivity.
Qed.


(** C4, the code at the inputs where it departs from the claim.  Whatever
    the processor and the config, the empty frame is processed without an
    error into a frame without samples whose [volume] and [rmsLevel] are
    NaN, whose [peakLevel] and [dynamicRange] are -Infinity and whose
    [clipping], [silence] and [snr] are NaN.  At the configuration of
    [background/main.ts] a frame of two zero samples gets the [snr]
    -Infinity. *)
Theorem process_empty_frame_not_finite `{MathLib} (p : AudioProcessorImpl)
  (cfg : PartialAudioConfig) :
  (exists r p',
     process p [] cfg = Some (r, p') /\
     data r = [] /\
     volume r = NaN /\
     rmsLevel (quality r) = NaN /\
     peakLevel (quality r) = NInf /\
     dynamicRange (quality r) = NInf /\
     clipping (quality r) = NaN /\
     silence (quality r) = NaN /\
     snr (quality r) = NaN) /\
  (exists r p',
     process (create Examples.audioConfig) Examples.silent_frame no_override
     = Some (r, p') /\
     length (data r) = 2%nat /\
     snr (quality r) = NInf).
Proof.
  split.
  - unfold process.
    destruct (enableNormalization (merge (config p) cfg)),
             (enableNoiseReduction (merge (config p) cfg));
      cbn -[detectVoiceActivity calculateQuality calculateRMSVolume
            performSpectralAnalysis div merge];
      rewrite detectVoiceActivity_empty;
      eexists _, _; (split; [reflexivity|]); repeat split.
  - eexists _, _. split; [reflexivity|]. split; reflexivity.
Qed.

(** C7, as the source has it.  The outcome of [process] (result and
    processor afterwards) is determined by the raw frame, the cached noise
    profile and the stored config merged with the config argument; with a
    complete config argument the stored config plays no part.  The call
    stores the merged config, and leaves the noise profile as it was unless
    noise reduction is on and none was cached. *)
Theorem process_determined_by_merged_config `{MathLib} (p1 p2 : AudioProcessorImpl)
  (audioData : list Byte.byte) (cfg : PartialAudioConfig) (c : AudioConfig) :
  (noiseProfile p1 = noiseProfile p2 ->
   merge (config p1) cfg = merge (config p2) cfg ->
   process p1 audioData cfg = process p2 audioData cfg) /\
  (noiseProfile p1 = noiseProfile p2 ->
   process p1 audioData (complete c) = process p2 audioData (complete c)) /\
  (forall r p',
     process p1 audioData cfg = Some (r, p') ->
     config p' = merge (config p1) cfg /\
     (noiseProfile p' = noiseProfile p1 \/
      enableNoiseReduction (merge (config p1) cfg) = true /\
      noiseProfile p1 = None /\ exists n, noiseProfile p' = Some n)).
Proof.
  assert (forall q1 q2 cfg',
             noiseProfile q1 = noiseProfile q2 ->
             merge (config q1) cfg' = merge (config q2) cfg' ->
             process q1 audioData cfg' = process q2 audioData cfg') as Hdet.
  { intros q1 q2 cfg' Hn Hc. unfold process. rewrite Hn, Hc. reflexivity. }
  split; [apply Hdet|]. split.
  - intros Hn. apply Hdet; [exact Hn | reflexivity].
  - intros r p' Hp. unfold process in Hp.
    destruct (enableNoiseReduction (merge (config p1) cfg)) eqn:En.
    + unfold denoise in Hp. cbn [noiseProfile config] in Hp.
      destruct (detectVoiceActivity _ _); [|discriminate].
      injection Hp as _ <-. cbn [config noiseProfile]. split; [reflexivity|].
      destruct (noiseProfile p1) as [n|]; [now left | right; eauto].
    + destruct (detectVoiceActivity _ _); [|discriminate].
      injection Hp as _ <-. cbn [config noiseProfile]. split; [reflexivity | now left].
Qed.

(** The theorem at two processors that differ in the config an earlier
    call left in them, which a complete config argument overrides. *)
Lemma process_determined_by_merged_config_witness :
  process (H := Examples.sample_host)
    (Examples.processor_after (create Examples.audioConfig) [] no_override)
    Examples.silent_frame (complete Examples.audioConfig)
  = process (H := Examples.sample_host)
      (Examples.processor_after (create Examples.audioConfig) []
         (Examples.only_sampleRate (Fin 8000)))
      Examples.silent_frame (complete Examples.audioConfig).
Proof.
  apply (proj1 (process_determined_by_merged_config
                  (Examples.processor_after (create Examples.audioConfig) [] no_override)
                  (Examples.processor_after (create Examples.audioConfig) []
                     (Examples.only_sampleRate (Fin 8000)))
                  Examples.silent_frame (complete Examples.audioConfig)
                  Examples.audioConfig)).
  - reflexivity.
  - reflexivity.
Defined.

(** C7, the claim refuted: two processors with the same noise profile,
    given the same frame and the same (empty) config argument, return
    different results, because an earlier call left its sample rate behind
    in one of them. *)
Lemma process_keeps_earlier_config :
  noiseProfile (Examples.processor_after (create Examples.audioConfig) []
                  (Examples.only_sampleRate (Fin 8000)))
  = noiseProfile (Examples.processor_after (create Examples.audioConfig) [] no_override) /\
  option_map (fun out => out_sampleRate (fst out))
    (process (H := Examples.sample_host)
       (Examples.processor_after (create Examples.audioConfig) []
          (Examples.only_sampleRate (Fin 8000)))
       [] no_override)
  = Some (Fin 8000) /\
  option_map (fun out => out_sampleRate (fst out))
    (process (H := Examples.sample_host)
       (Examples.processor_after (create Examples.audioConfig) [] no_override)
       [] no_override)
  = Some (Fin 44100).
Proof. repeat split. Qed.

End AudioProcessorFacts.

(** ** The session manager *)

Module SessionFacts.
Import JS Session JSFacts.

Lemma flags_store (m : AudioSessionManager) (sessionId : string) (s : AudioSession) :
  flags (store m sessionId s) sessionId = Some (isActive s, isRecording s).
Proof. unfold flags, store. cbn [sessions]. now rewrite lookup_insert_eq. Qed.

Lemma requests_emit (m : AudioSessionManager) (e : event) :
  microphone_requests (emit m e)
  = (microphone_requests m
     + match e with GetUserMedia => 1 | _ => 0 end)%nat.
Proof.
  unfold microphone_requests, emit. cbn [trace].
  rewrite List.filter_app, List.length_app. destruct e; reflexivity.
Qed.

Lemma requests_store m sessionId s :
  microphone_requests (store m sessionId s) = microphone_requests m.
Proof. reflexivity. Qed.

Lemma requests_set_collaborators m p d :
  microphone_requests (set_collaborators m p d) = microphone_requests m.
Proof. reflexivity. Qed.

Lemma requests_set_mediaStream m b :
  microphone_requests (set_mediaStream m b) = microphone_requests m.
Proof. reflexivity. Qed.

Lemma requests_set_activeAudioContext m b :
  microphone_requests (set_activeAudioContext m b) = microphone_requests m.
Proof. reflexivity. Qed.

Create Rewrite HintDb requests.
#[local] Hint Rewrite requests_emit requests_store requests_set_collaborators
  requests_set_mediaStream requests_set_activeAudioContext : requests.

(** C5, the code against the claim.  [startSession] on an unknown id, or
    on a session that is Active, throws at once and changes nothing.  On
    a known session that is not Active, when [getUserMedia] rejects, or
    when it resolves and the transcription service refuses the session,
    [startSession] throws that very error, the session is left with
    [isActive] and [isRecording] false, and [getUserMedia] has been
    called once and no more.  These are the only ways for [startSession]
    to throw past its two guards.  The third failure of a start does not
    behave so: when the microphone is granted and the audio context
    cannot be built, [processAudioStream], which [startRecording] calls
    without awaiting it, reports the error to [onError] and rethrows it
    into a promise nobody holds; [startSession] returns normally and the
    session is left Active and recording, without an audio context. *)
Theorem startSession_failure (m : AudioSessionManager) (sessionId : string)
  (microphone context stt : outcome) :
  (sessions m !! sessionId = None ->
   startSession m sessionId microphone context stt
   = (Throws (SessionNotFound sessionId), m)) /\
  (forall s,
     sessions m !! sessionId = Some s -> isActive s = true ->
     startSession m sessionId microphone context stt
     = (Throws (SessionAlreadyActive sessionId), m)) /\
  (forall s e,
     sessions m !! sessionId = Some s -> isActive s = false ->
     microphone = Rejects e \/ microphone = Resolves /\ stt = Rejects e ->
     exists m',
       startSession m sessionId microphone context stt = (Throws e, m') /\
       flags m' sessionId = Some (false, false) /\
       microphone_requests m' = S (microphone_requests m)) /\
  (forall s e m',
     sessions m !! sessionId = Some s -> isActive s = false ->
     startSession m sessionId microphone context stt = (Throws e, m') ->
     microphone = Rejects e \/ microphone = Resolves /\ stt = Rejects e) /\
  (forall s e,
     sessions m !! sessionId = Some s -> isActive s = false ->
     microphone = Resolves -> context = Rejects e -> stt = Resolves ->
     exists m',
       startSession m sessionId microphone context stt = (Returns tt, m') /\
       flags m' sessionId = Some (true, true) /\
       activeAudioContext m' = activeAudioContext m /\
       In (OnError (id s) (Wrapped "Failed to process audio stream" e)) (trace m')).
Proof.
  unfold startSession. split; [|split; [|split; [|split]]].
  - now intros ->.
  - intros s -> ->. reflexivity.
  - intros s e -> -> [-> | [-> ->]].
    + eexists. split; [reflexivity|]. split; [apply flags_store|].
      unfold processAudioStream. autorewrite with requests. lia.
    + eexists. split; [reflexivity|]. split; [apply flags_store|].
      unfold processAudioStream. destruct context; autorewrite with requests; lia.
  - intros s e m' -> ->. unfold startRecording.
    destruct microphone as [|e1]; [destruct stt as [|e2]|]; intros Heq;
      inversion Heq; subst; auto.
  - intros s e -> -> -> -> ->. eexists. split; [reflexivity|].
    split; [apply flags_store|]. split; [reflexivity|].
    cbn. rewrite !in_app_iff. cbn. tauto.
Qed.

(** The theorem at a fresh session: with the microphone refused the
    start throws and the session is not Active; with the microphone
    granted and no audio context to be had the start returns and the
    session is Active and recording. *)
Lemma startSession_failure_witness :
  (exists m',
     startSession Examples.created "s1"
       (Rejects (External "NotAllowedError")) Resolves Resolves
     = (Throws (External "NotAllowedError"), m') /\
     flags m' "s1" = Some (false, false) /\
     microphone_requests m' = S (microphone_requests Examples.created)) /\
  (exists m',
     startSession Examples.created "s1"
       Resolves (Rejects (External "NotSupportedError")) Resolves
     = (Returns tt, m') /\
     flags m' "s1" = Some (true, true) /\
     activeAudioContext m' = false).
Proof.
  split.
  - destruct (startSession_failure Examples.created "s1"
                (Rejects (External "NotAllowedError")) Resolves Resolves)
      as (_ & _ & H & _).
    eapply H; [reflexivity | reflexivity | now left].
  - destruct (startSession_failure Examples.created "s1"
                Resolves (Rejects (External "NotSupportedError")) Resolves)
      as (_ & _ & _ & _ & H).
    destruct (H Examples.created_session (External "NotSupportedError")
                eq_refl eq_refl eq_refl eq_refl eq_refl) as (m' & E & F & A & _).
    exists m'. repeat split; assumption.
Defined.

Section Stop.
Context {M : MathLib}.

(** A stop whose collaborators accept. *)
Lemma stopSession_resolves (m : AudioSessionManager) (sessionId : string)
  (s : AudioSession) (now : Z) :
  sessions m !! sessionId = Some s ->
  exists m',
    stopSession m sessionId Resolves Resolves now = (Returns tt, m') /\
    sessions m' !! sessionId
    = Some (calculateFinalStatistics (vad m)
              (set_isActive (set_endTime (set_isRecording s false) now) false)) /\
    vad m' = vad m.
Proof.
  intros Hs. unfold stopSession, stopRecording. rewrite Hs.
  destruct (mediaStream m), (activeAudioContext m) eqn:Ea, (silenceTimer m) eqn:Et;
    cbn; rewrite ?Ea, ?Et; cbn; rewrite ?Ea, ?Et; cbn;
    eexists; (split; [reflexivity|]); cbn; rewrite lookup_insert_eq; split; reflexivity.
Qed.

(** C2, the code against the claim.  [stopSession] has no guard on
    [isActive], which [removeSession], [clearAllSessions] and the silence
    timer have before they call it: it runs on every known session,
    Active or not.  When the collaborators accept it throws nothing and
    leaves the session with [isActive] and [isRecording] false, [endTime]
    at the clock of the call and [totalDuration] at [endTime - startTime].
    A second stop does the same again with its own clock: the flags are as
    after the first, [endTime] and [totalDuration] are those of the second
    call, and the session is as the first stop left it when both calls
    read the same clock. *)
Theorem stopSession_again (m : AudioSessionManager) (sessionId : string)
  (s : AudioSession) (now1 now2 : Z) :
  sessions m !! sessionId = Some s ->
  exists m1 m2 s1 s2,
    stopSession m sessionId Resolves Resolves now1 = (Returns tt, m1) /\
    sessions m1 !! sessionId = Some s1 /\
    stopSession m1 sessionId Resolves Resolves now2 = (Returns tt, m2) /\
    sessions m2 !! sessionId = Some s2 /\
    isActive s1 = false /\ isRecording s1 = false /\
    endTime s1 = Some now1 /\
    totalDuration (statistics s1) = of_Z (now1 - startTime s) /\
    isActive s2 = false /\ isRecording s2 = false /\
    endTime s2 = Some now2 /\
    totalDuration (statistics s2) = of_Z (now2 - startTime s) /\
    (now2 = now1 -> s2 = s1).
Proof.
  intros Hs.
  destruct (stopSession_resolves m sessionId s now1 Hs) as (m1 & E1 & L1 & V1).
  destruct (stopSession_resolves m1 sessionId _ now2 L1) as (m2 & E2 & L2 & V2).
  exists m1, m2. eexists _, _.
  split; [exact E1|]. split; [exact L1|]. split; [exact E2|]. split; [exact L2|].
  rewrite V1. repeat split. intros ->. reflexivity.
Qed.

(** C6, as the source has it.  A stopped session is not final: whatever
    the session found under an id, once it has been stopped (by
    [stopSession], or by the silence timer when [autoStop] is set and the
    session is Active) a [startSession] on the same id whose collaborators
    accept succeeds and makes it Active again. *)
Theorem stopped_session_restarts (m : AudioSessionManager) (sessionId : string)
  (s : AudioSession) (now : Z) (context : outcome) :
  sessions m !! sessionId = Some s ->
  (exists m1 m2,
     stopSession m sessionId Resolves Resolves now = (Returns tt, m1) /\
     flags m1 sessionId = Some (false, false) /\
     startSession m1 sessionId Resolves context Resolves = (Returns tt, m2) /\
     flags m2 sessionId = Some (true, true)) /\
  (autoStop (config s) = true -> isActive s = true ->
   exists m1 m2,
     silenceTimerFires m sessionId Resolves Resolves now = (Returns tt, m1) /\
     flags m1 sessionId = Some (false, false) /\
     startSession m1 sessionId Resolves context Resolves = (Returns tt, m2) /\
     flags m2 sessionId = Some (true, true)).
Proof.
  intros Hs.
  destruct (stopSession_resolves m sessionId s now Hs) as (m1 & E1 & L1 & _).
  assert (forall m1',
             sessions m1' = sessions m1 ->
             flags m1' sessionId = Some (false, false) /\
             exists m2,
               startSession m1' sessionId Resolves context Resolves = (Returns tt, m2) /\
               flags m2 sessionId = Some (true, true)) as Hrestart.
  { intros m1' Hm. split.
    - unfold flags. rewrite Hm, L1. reflexivity.
    - unfold startSession. rewrite Hm, L1. cbn.
      eexists. split; [reflexivity|]. apply flags_store. }
  split.
  - destruct (Hrestart m1 eq_refl) as (Hf & m2 & E2 & F2). now exists m1, m2.
  - intros Ha Hact. unfold silenceTimerFires. rewrite Hs, Ha, Hact, E1. cbn [andb].
    destruct (Hrestart (emit m1 (OnSessionEnd sessionId)) eq_refl) as (Hf & m2 & E2 & F2).
    now exists (emit m1 (OnSessionEnd sessionId)), m2.
Qed.

End Stop.

(** The theorem at the session of the examples, stopped at two times. *)
Lemma stopSession_again_witness :
  exists m1 m2 s1 s2,
    stopSession (H := Examples.sample_host) Examples.started "s1" Resolves Resolves 1000
    = (Returns tt, m1) /\
    sessions m1 !! "s1" = Some s1 /\
    stopSession (H := Examples.sample_host) m1 "s1" Resolves Resolves 2000
    = (Returns tt, m2) /\
    sessions m2 !! "s1" = Some s2 /\
    endTime s1 = Some 1000%Z /\ endTime s2 = Some 2000%Z.
Proof.
  destruct (stopSession_again (M := Examples.sample_host) Examples.started "s1"
              (set_flags (Examples.created_session) true true) 1000 2000 eq_refl)
    as (m1 & m2 & s1 & s2 & H1 & H2 & H3 & H4 & _ & _ & H7 & _ & _ & _ & H11 & _).
  exists m1, m2, s1, s2. repeat split; assumption.
Defined.

(** C2, the code at the failing input.  The session stopped at time 1000
    is stopped again at time 2000 without error, and its [endTime] and
    [totalDuration] move from 1000 to 2000.  Stopping a session that was
    never started is no no-op either: it sets [endTime], and it throws when
    the transcription service rejects the stop. *)
Lemma second_stop_moves_statistics :
  (fun s => (endTime s, totalDuration (statistics s)))
    <$> sessions Examples.stopped !! "s1"
  = Some (Some 1000%Z, Fin 1000) /\
  fst (stopSession (H := Examples.sample_host) Examples.stopped "s1"
         Resolves Resolves 2000)
  = Returns tt /\
  (fun s => (endTime s, totalDuration (statistics s)))
    <$> sessions (snd (stopSession (H := Examples.sample_host) Examples.stopped "s1"
                         Resolves Resolves 2000)) !! "s1"
  = Some (Some 2000%Z, Fin 2000) /\
  flags Examples.created "s1" = Some (false, false) /\
  endTime <$> sessions Examples.created !! "s1" = Some None /\
  endTime <$> sessions (snd (stopSession (H := Examples.sample_host) Examples.created
                               "s1" Resolves Resolves 500)) !! "s1"
  = Some (Some 500%Z) /\
  fst (stopSession (H := Examples.sample_host) Examples.created "s1" Resolves
         (Rejects (External "Session not found or not active")) 500)
  = Throws (External "Session not found or not active").
Proof. repeat split. Qed.

(** The theorem at the started session of the examples. *)
Lemma stopped_session_restarts_witness :
  exists m1 m2,
    stopSession (H := Examples.sample_host) Examples.started "s1" Resolves Resolves 1000
    = (Returns tt, m1) /\
    flags m1 "s1" = Some (false, false) /\
    startSession m1 "s1" Resolves Resolves Resolves = (Returns tt, m2) /\
    flags m2 "s1" = Some (true, true).
Proof.
  apply (proj1 (stopped_session_restarts (M := Examples.sample_host) Examples.started
                  "s1" (set_flags (Examples.created_session) true true) 1000 Resolves
                  eq_refl)).
Defined.

(** C6, the claim refuted: the session of the examples was Active, was
    stopped, and a further [startSession] on its id succeeds and makes it
    Active a second time. *)
Lemma stopped_session_active_again :
  flags Examples.started "s1" = Some (true, true) /\
  flags Examples.stopped "s1" = Some (false, false) /\
  fst (startSession Examples.stopped "s1" Resolves Resolves Resolves) = Returns tt /\
  flags (snd (startSession Examples.stopped "s1" Resolves Resolves Resolves)) "s1"
  = Some (true, true).
Proof. repeat split. Qed.

End SessionFacts.

(** ** The voice-activity detector: verdicts, counters and settings *)

Module VADBehaviour.
Import JS VAD JSFacts Reading VADFacts AudioProcessorFacts.

Lemma clamp_unit (x : number) : unit_or_nan (Math_max zero (Math_min one x)).
Proof.
  unfold unit_or_nan.
  destruct x as [| | |q]; cbn [Math_max Math_min lt zero one].
  - now left.
  - right. exists 1. split; [reflexivity | lra].
  - right. exists 0. split; [reflexivity | lra].
  - right. order_cases; eexists; (split; [reflexivity|]); lra.
Qed.

Lemma updateState_speechFrames (c : VADConfig) (i : nat) (st : VADState)
  (speech : bool) (e : number) :
  speechFrames (updateState c i st speech e)
  = if speech then S (speechFrames st) else speechFrames st.
Proof. destruct st as [[|] ? ? ? ? ? ?], speech; reflexivity. Qed.

Lemma updateState_inSpeech (c : VADConfig) (i : nat) (st : VADState)
  (speech : bool) (e : number) :
  inSpeech (updateState c i st speech e) = speech.
Proof. destruct st as [[|] ? ? ? ? ? ?], speech; reflexivity. Qed.

Lemma slice_to_nil (n : number) : slice_to [] n = [].
Proof.
  destruct n as [| | |q]; try reflexivity. cbn.
  destruct (Qle_bool 0 q); [now destruct (Z.to_nat _)|].
  destruct (Z.to_nat _ =? 0)%nat; [reflexivity|]. now destruct (_ - _)%nat.
Qed.

(** A loop body that adds at most one per pass counts at most the
    passes. *)
Lemma for_loop_aux_count (body : nat -> nat -> nat) :
  (forall i n, (body i n <= S n)%nat) ->
  forall fuel i stop step s,
    (for_loop_aux fuel i stop step body s <= s + fuel)%nat.
Proof.
  intros Hb fuel. induction fuel as [|fuel IH]; intros i stop step s; cbn [for_loop_aux].
  - lia.
  - destruct (i <? stop)%nat; [|lia].
    specialize (IH (i + step)%nat stop step (body i s)). specialize (Hb i s). lia.
Qed.

Lemma zero_crossing_rate_finite (audioData : Float32Array) :
  audioData <> [] ->
  exists r, calculateZeroCrossingRate audioData = Fin r /\ 0 <= r < 1.
Proof.
  intros Hne. unfold calculateZeroCrossingRate.
  set (body := fun i crossings => _).
  assert (for_loop 1 (length audioData) 1 body 0 <= length audioData - 1)%nat as Hc.
  { unfold for_loop. etransitivity; [apply for_loop_aux_count|]; [|lia].
    intros i n. unfold body. destruct (Bool.eqb _ _); lia. }
  generalize dependent (for_loop 1 (length audioData) 1 body 0%nat). intros c Hc.
  assert (1 <= length audioData)%nat as Hl by (destruct audioData; [congruence | cbn; lia]).
  assert (0 < inject_Z (Z.of_nat (length audioData))) as Hpos.
  { rewrite <- (Zlt_Qlt 0). lia. }
  assert (Qeq_bool (inject_Z (Z.of_nat (length audioData))) 0 = false) as Hz.
  { destruct (Qeq_bool _ 0) eqn:Eq; [|reflexivity]. apply Qeq_bool_iff in Eq. lra. }
  unfold of_nat. cbn [div]. rewrite Hz. eexists. split; [reflexivity|].
  assert (0 <= inject_Z (Z.of_nat c)) by (rewrite <- (Zle_Qle 0); lia).
  assert (inject_Z (Z.of_nat c) < inject_Z (Z.of_nat (length audioData)))
    by (rewrite <- Zlt_Qlt; lia).
  split.
  - apply Qle_shift_div_l; lra.
  - apply Qlt_shift_div_r; lra.
Qed.

Lemma sum_squares_finite (qs : list Q) (a : Q) :
  0 <= a ->
  exists s, fold_left (fun sum x => add sum (mul x x)) (map Fin qs) (Fin a) = Fin s
            /\ 0 <= s.
Proof.
  revert a. induction qs as [|q qs IH]; intros a Ha; cbn [map fold_left].
  - now exists a.
  - cbn [mul add]. apply IH. nra.
Qed.

(** The energy of a non-empty frame of finite samples is a finite number,
    not below zero. *)
Lemma energy_of_finite_frame (audioData : Float32Array) :
  audioData <> [] ->
  Forall (fun x => is_finite x = true) audioData ->
  exists e, calculateEnergy audioData = Fin e /\ 0 <= e.
Proof.
  intros Hne Hf. destruct (all_finite _ Hf) as [qs ->].
  unfold calculateEnergy, zero.
  destruct (sum_squares_finite qs 0 ltac:(lra)) as (s & -> & Hs).
  assert (1 <= length (map Fin qs))%nat as Hl
      by (destruct qs; [exfalso; now apply Hne | cbn; lia]).
  assert (0 < inject_Z (Z.of_nat (length (map Fin qs)))) as Hpos.
  { rewrite <- (Zlt_Qlt 0). lia. }
  assert (Qeq_bool (inject_Z (Z.of_nat (length (map Fin qs)))) 0 = false) as Hz.
  { destruct (Qeq_bool _ 0) eqn:Eq; [|reflexivity]. apply Qeq_bool_iff in Eq. lra. }
  unfold of_nat. cbn [div]. rewrite Hz. eexists. split; [reflexivity|].
  apply Qle_shift_div_l; lra.
Qed.

Section Detector.
Context {M : MathLib}.

(** [processFrame] is [classify] on the features of the frame, on a
    detector that differs from the given one in the energy history and
    the baseline only. *)
Lemma processFrame_unfold (d : VoiceActivityDetector) (audioData : Float32Array) :
  exists d' t,
    processFrame d audioData
    = classify d' (calculateEnergy audioData)
        (calculateVoiceProbability (this_config d) (calculateEnergy audioData)
           (calculateZeroCrossingRate audioData)
           (calculateSpectralCentroid (this_config d) audioData) t)
        (calculateSpectralCentroid (this_config d) audioData) /\
    this_config d' = this_config d /\
    this_frameIndex d' = this_frameIndex d /\
    this_state d' = this_state d /\
    this_lastVADResult d' = this_lastVADResult d.
Proof.
  unfold processFrame.
  set (d0 := with_history d _).
  pose proof (operating_threshold_frame d0) as Hf.
  destruct (operating_threshold d0) as [t d1]. simpl in Hf.
  destruct Hf as (Hc & Hi & Hs & Hh & _ & Hl).
  exists d1, t. subst d0. simpl in *. rewrite Hc. tauto.
Qed.

Lemma perform_ProcessFrame (d : VoiceActivityDetector) (audioData : Float32Array) :
  snd (perform d (ProcessFrame audioData)) = snd (processFrame d audioData).
Proof. cbn. now destruct (processFrame d audioData). Qed.

Lemma perform_counters (d : VoiceActivityDetector) (c : call) :
  (speechFrames (this_state d) + silenceFrames (this_state d))%nat = this_frameIndex d ->
  (speechFrames (this_state (snd (perform d c)))
   + silenceFrames (this_state (snd (perform d c))))%nat
  = this_frameIndex (snd (perform d c)).
Proof.
  intros H. destruct c; try exact H; try reflexivity.
  rewrite perform_ProcessFrame, processFrame_state,
    updateState_speechFrames, updateState_silenceFrames.
  destruct (processFrame_frameIndex d audioData) as [_ ->].
  destruct (isSpeech _); lia.
Qed.

Lemma perform_inSpeech (d : VoiceActivityDetector) (c : call) :
  inSpeech (this_state d)
  = match this_lastVADResult d with Some r => isSpeech r | None => false end ->
  inSpeech (this_state (snd (perform d c)))
  = match this_lastVADResult (snd (perform d c)) with
    | Some r => isSpeech r
    | None => false
    end.
Proof.
  intros H. destruct c; try exact H; try reflexivity.
  rewrite perform_ProcessFrame, processFrame_state, updateState_inSpeech.
  destruct (processFrame_classify d audioData) as (d' & p & -> & _). reflexivity.
Qed.

Lemma processFrame_alike (d1 d2 : VoiceActivityDetector) (audioData : Float32Array) :
  alike d1 d2 ->
  fst (processFrame d1 audioData) = fst (processFrame d2 audioData) /\
  alike (snd (processFrame d1 audioData)) (snd (processFrame d2 audioData)).
Proof.
  intros (Hr & Hh & Hs & Hi & Hst & Hl).
  destruct (processFrame_unfold d1 audioData) as (e1 & t1 & -> & C1 & I1 & S1 & L1).
  destruct (processFrame_unfold d2 audioData) as (e2 & t2 & -> & C2 & I2 & S2 & L2).
  assert (calculateSpectralCentroid (this_config d1) audioData
          = calculateSpectralCentroid (this_config d2) audioData) as Hc.
  { unfold calculateSpectralCentroid. now rewrite Hr. }
  assert (forall e z sc, calculateVoiceProbability (this_config d1) e z sc t1
                         = calculateVoiceProbability (this_config d2) e z sc t2) as Hp.
  { intros. unfold calculateVoiceProbability. now rewrite Hs. }
  assert (forall i st b e, updateState (this_config e1) i st b e
                           = updateState (this_config e2) i st b e) as Hu.
  { intros. unfold updateState. now rewrite C1, C2, Hh. }
  unfold classify, alike. cbn [fst snd this_config this_frameIndex this_state
                                 this_lastVADResult].
  rewrite Hc, Hp, Hu, C1, C2, I1, I2, S1, S2, L1, L2, Hh, Hi, Hst, Hl, Hr, Hs.
  repeat split.
Qed.

Lemma results_alike (frames : list Float32Array) (d1 d2 : VoiceActivityDetector) :
  alike d1 d2 ->
  results d1 (map ProcessFrame frames) = results d2 (map ProcessFrame frames).
Proof.
  revert d1 d2. induction frames as [|a frames IH]; intros d1 d2 H; [reflexivity|].
  cbn [map results perform].
  destruct (processFrame_alike d1 d2 a H) as [Hr Ha].
  destruct (processFrame d1 a) as [r1 e1], (processFrame d2 a) as [r2 e2].
  cbn [fst snd] in *. subst r2. f_equal. now apply IH.
Qed.

(** X1.  The [confidence] of a result of [processFrame] is its
    [voiceProbability], and that is a number from 0 to 1 or [NaN],
    whatever the frame, the configuration and the host's [Math.pow]. *)
Theorem confidence_in_unit_interval (d : VoiceActivityDetector)
  (audioData : Float32Array) :
  confidence (fst (processFrame d audioData))
  = voiceProbability (fst (processFrame d audioData)) /\
  unit_or_nan (voiceProbability (fst (processFrame d audioData))).
Proof.
  destruct (processFrame_unfold d audioData) as (d' & t & -> & _).
  split; [reflexivity|]. cbn [classify fst voiceProbability].
  unfold calculateVoiceProbability. apply clamp_unit.
Qed.

(** X2.  After any history of calls on a fresh detector [speechFrames]
    and [silenceFrames] add up to the frame counter, and [getStatistics]
    reports a [speechRatio] from 0 to 1 with [silenceRatio] its
    complement to 1. *)
Theorem frame_counters_and_ratios (c : VADConfig) (calls : list call) :
  (speechFrames (this_state (run (create c) calls))
   + silenceFrames (this_state (run (create c) calls)))%nat
  = this_frameIndex (run (create c) calls) /\
  exists r s,
    speechRatio (getStatistics (run (create c) calls)) = Fin r /\
    silenceRatio (getStatistics (run (create c) calls)) = Fin s /\
    0 <= r <= 1 /\ r + s == 1.
Proof.
  assert ((speechFrames (this_state (run (create c) calls))
           + silenceFrames (this_state (run (create c) calls)))%nat
          = this_frameIndex (run (create c) calls)) as Hc.
  { apply (run_invariant
             (fun d => (speechFrames (this_state d) + silenceFrames (this_state d))%nat
                       = this_frameIndex d)).
    - apply perform_counters.
    - reflexivity. }
  split; [exact Hc|].
  generalize dependent (run (create c) calls). intros d Hc.
  unfold getStatistics. cbn [speechRatio silenceRatio].
  destruct (0 <? this_frameIndex d)%nat eqn:E.
  - apply Nat.ltb_lt in E.
    assert (0 < inject_Z (Z.of_nat (this_frameIndex d))) as Hpos.
    { rewrite <- (Zlt_Qlt 0). lia. }
    assert (Qeq_bool (inject_Z (Z.of_nat (this_frameIndex d))) 0 = false) as Hz.
    { destruct (Qeq_bool _ 0) eqn:Eq; [|reflexivity]. apply Qeq_bool_iff in Eq. lra. }
    unfold of_nat. cbn [div sub neg add one]. rewrite Hz.
    eexists _, _. split; [reflexivity|]. split; [reflexivity|].
    assert (inject_Z (Z.of_nat (speechFrames (this_state d)))
            <= inject_Z (Z.of_nat (this_frameIndex d))) as Hle.
    { rewrite <- Zle_Qle. lia. }
    assert (0 <= inject_Z (Z.of_nat (speechFrames (this_state d)))) as Hnn.
    { rewrite <- (Zle_Qle 0). lia. }
    split; [|ring]. split.
    + apply Qle_shift_div_l; lra.
    + apply Qle_shift_div_r; lra.
  - exists 0, (1 + - 0). split; [reflexivity|]. split; [reflexivity|]. split; lra.
Qed.

(** X3.  After any history of calls on a fresh detector the [isSpeech]
    flag of [getState] is the verdict of [getCurrentResult], and false
    while there is no result. *)
Theorem state_follows_last_verdict (c : VADConfig) (calls : list call) :
  inSpeech (getState (run (create c) calls))
  = match getCurrentResult (run (create c) calls) with
    | Some r => isSpeech r
    | None => false
    end.
Proof.
  unfold getState, getCurrentResult.
  apply (run_invariant
           (fun d => inSpeech (this_state d)
                     = match this_lastVADResult d with
                       | Some r => isSpeech r
                       | None => false
                       end)).
  - apply perform_inSpeech.
  - reflexivity.
Qed.

(** X4.  The results of a fresh detector on a list of frames do not depend
    on the configured [threshold] nor on [adaptiveThreshold]: the
    operating threshold is computed and never read by
    [calculateVoiceProbability]. *)
Theorem results_ignore_threshold (c : VADConfig) (t : number) (adaptive : bool)
  (frames : list Float32Array) :
  results (create c) (map ProcessFrame frames)
  = results
      (create {| sampleRate := sampleRate c; windowSize := windowSize c;
                 hopSize := hopSize c; threshold := t;
                 minSpeechDuration := minSpeechDuration c;
                 minSilenceDuration := minSilenceDuration c;
                 sensitivity := sensitivity c; adaptiveThreshold := adaptive |})
      (map ProcessFrame frames).
Proof. apply results_alike. repeat split. Qed.

(** X5.  After [reset] a detector gives, on any list of frames, the results
    of a detector newly built from its current configuration. *)
Theorem reset_behaves_as_new (d : VoiceActivityDetector) (frames : list Float32Array) :
  results (reset d) (map ProcessFrame frames)
  = results (create (this_config d)) (map ProcessFrame frames).
Proof. apply results_alike. repeat split. Qed.

End Detector.

(** X6.  [setSensitivity] with a number other than [NaN] leaves a
    sensitivity from 0.1 to 2, and the given one when it lies there. *)
Theorem setSensitivity_clamps (d : VoiceActivityDetector) (s : number) :
  is_nan s = false ->
  exists q,
    sensitivity (getConfig (setSensitivity d s)) = Fin q /\
    1 # 10 <= q <= 2 /\
    (forall v, s = Fin v -> 1 # 10 <= v <= 2 -> q == v).
Proof.
  intros Hs. unfold getConfig, setSensitivity, with_config.
  cbn [this_config sensitivity].
  destruct s as [| | |v]; [discriminate| | |]; cbn [Math_max Math_min lt].
  - exists 2. repeat split; [lra | lra | discriminate].
  - exists (1 # 10). repeat split; [lra | lra | discriminate].
  - order_cases; cbn [Math_max lt]; order_cases;
      eexists; (split; [reflexivity|]); (split; [lra|]);
      intros v' [= <-] Hv; lra.
Qed.

Lemma setSensitivity_clamps_witness :
  exists q,
    sensitivity (getConfig (setSensitivity (create Examples.vadConfig) (Fin 5))) = Fin q /\
    1 # 10 <= q <= 2 /\
    (forall v, Fin 5 = Fin v -> 1 # 10 <= v <= 2 -> q == v).
Proof. apply (setSensitivity_clamps (create Examples.vadConfig) (Fin 5)). reflexivity. Defined.

(** X7.  [calibrate] empties the energy history and leaves the frame
    counter, the state and the last result alone; the threshold it sets
    is at least 0.001 or [NaN], and [NaN] for an empty noise sample. *)
Theorem calibrate_resets_history (d : VoiceActivityDetector)
  (backgroundNoise : Float32Array) :
  this_energyHistory (calibrate d backgroundNoise) = [] /\
  this_frameIndex (calibrate d backgroundNoise) = this_frameIndex d /\
  getState (calibrate d backgroundNoise) = getState d /\
  getCurrentResult (calibrate d backgroundNoise) = getCurrentResult d /\
  (threshold (getConfig (calibrate d backgroundNoise)) = NaN \/
   le (Fin (1 # 1000)) (threshold (getConfig (calibrate d backgroundNoise))) = true) /\
  (backgroundNoise = [] -> threshold (getConfig (calibrate d backgroundNoise)) = NaN).
Proof.
  repeat split.
  - unfold getConfig, calibrate. cbn [this_config set_threshold threshold].
    generalize (mul (calculateEnergy (slice_to backgroundNoise
                  (Math_floor (mul (div (windowSize (this_config d)) (Fin 1000))
                                   (sampleRate (this_config d)))))) (Fin 3)).
    intros [| | |q]; cbn [Math_max lt le]; auto.
    right. order_cases; apply Qle_bool_iff; lra.
  - intros ->. unfold getConfig, calibrate. cbn [this_config set_threshold threshold].
    now rewrite slice_to_nil.
Qed.

(** X8.  The zero-crossing rate, which the processor and the detector
    compute alike, is [NaN] for an empty frame and otherwise a number
    from 0 up to, and without, 1. *)
Theorem zero_crossing_rate_range (audioData : Float32Array) :
  AudioProcessor.calculateZeroCrossingRate audioData
  = calculateZeroCrossingRate audioData /\
  (audioData = [] -> calculateZeroCrossingRate audioData = NaN) /\
  (audioData <> [] ->
   exists r, calculateZeroCrossingRate audioData = Fin r /\ 0 <= r < 1).
Proof.
  split; [reflexivity|]. split; [now intros -> | apply zero_crossing_rate_finite].
Qed.

(** X9.  For a non-empty frame of finite samples [estimateSpeakingRate]
    is a number from 0 up to, and without, 840. *)
Theorem speaking_rate_range (audioData : Float32Array) :
  audioData <> [] ->
  Forall (fun x => is_finite x = true) audioData ->
  exists r, estimateSpeakingRate audioData = Fin r /\ 0 <= r < 840.
Proof.
  intros Hne Hf. unfold estimateSpeakingRate.
  destruct (energy_of_finite_frame audioData Hne Hf) as (e & -> & He).
  destruct (zero_crossing_rate_finite audioData Hne) as (z & -> & Hz0 & Hz1).
  cbn [mul Math_min lt add sub neg one]. order_cases; cbn [mul];
    eexists; (split; [reflexivity|]); split; nra.
Qed.

Lemma speaking_rate_range_witness :
  exists r, estimateSpeakingRate [Fin (1 # 2); Fin (- 1 # 2)] = Fin r /\ 0 <= r < 840.
Proof.
  apply (speaking_rate_range [Fin (1 # 2); Fin (- 1 # 2)]);
    [discriminate | repeat constructor].
Defined.

End VADBehaviour.

(** ** The frame processor: decoding, resampling, compression, noise
    reduction and the calls that do not return *)

Module AudioProcessorBehaviour.
Import JS AudioProcessor JSFacts Reading AudioProcessorFacts VADFacts.

Lemma byte_at_range (bytes : list Byte.byte) (i : nat) : (0 <= byte_at bytes i < 256)%Z.
Proof.
  unfold byte_at. destruct (nth_error bytes i) as [b|]; [|lia].
  pose proof (Byte.to_N_bounded b). lia.
Qed.

Lemma lor_range (a b n : Z) :
  (0 < n)%Z -> (0 <= a < 2 ^ n)%Z -> (0 <= b < 2 ^ n)%Z -> (0 <= Z.lor a b < 2 ^ n)%Z.
Proof.
  intros Hn Ha Hb. split; [apply Z.lor_nonneg; lia|].
  destruct (Z.eq_dec (Z.lor a b) 0%Z) as [-> | Hz]; [lia|].
  assert (0 <= Z.lor a b)%Z by (apply Z.lor_nonneg; lia).
  apply Z.log2_lt_pow2; [lia|]. rewrite Z.log2_lor by lia.
  apply Z.max_lub_lt.
  - destruct (Z.eq_dec a 0%Z) as [-> | ?]; [cbn; lia | apply Z.log2_lt_pow2; lia].
  - destruct (Z.eq_dec b 0%Z) as [-> | ?]; [cbn; lia | apply Z.log2_lt_pow2; lia].
Qed.

Lemma positive_nonzero (q : Q) : 0 < q -> Qeq_bool q 0 = false.
Proof.
  intros H. destruct (Qeq_bool q 0) eqn:E; [|reflexivity].
  apply Qeq_bool_iff in E. lra.
Qed.

Lemma length_positive (A : Type) (l : list A) :
  l <> [] -> 0 < inject_Z (Z.of_nat (length l)).
Proof.
  intros H. rewrite <- (Zlt_Qlt 0). destruct l; [congruence | cbn; lia].
Qed.

Lemma sum_squares_zero (xs : Float32Array) (a : Q) :
  a == 0 ->
  Forall (fun x => strict_eq x zero = true) xs ->
  exists s, fold_left (fun sum x => add sum (mul x x)) xs (Fin a) = Fin s /\ s == 0.
Proof.
  intros Ha Hz. revert a Ha. induction Hz as [|x xs Hx _ IH]; intros a Ha.
  - now exists a.
  - destruct x as [| | |q]; try discriminate. cbn in Hx. apply Qeq_bool_iff in Hx.
    cbn [fold_left mul add]. apply IH. rewrite Ha, Hx. ring.
Qed.

Lemma strict_eq_refl (x : number) : is_nan x = false -> strict_eq x x = true.
Proof.
  destruct x as [| | |q]; try discriminate; try reflexivity.
  intros _. cbn. now apply Qeq_bool_iff.
Qed.

Lemma get_map_seq (g : nat -> number) (n i : nat) :
  (i < n)%nat -> get (map g (seq 0 n)) i = g i.
Proof.
  intros Hi. unfold get.
  rewrite (nth_indep _ NaN (g O)) by now rewrite length_map, length_seq.
  rewrite map_nth. now rewrite seq_nth.
Qed.

Lemma for_loop_aux_invariant {S : Type} (P : S -> Prop) (stop step : nat)
  (body : nat -> S -> S) :
  (forall i s, (i < stop)%nat -> P s -> P (body i s)) ->
  forall fuel i s, P s -> P (for_loop_aux fuel i stop step body s).
Proof.
  intros Hb fuel. induction fuel as [|fuel IH]; intros i s Hs; cbn [for_loop_aux].
  - exact Hs.
  - destruct (i <? stop)%nat eqn:E; [|exact Hs].
    apply IH, Hb; [now apply Nat.ltb_lt | exact Hs].
Qed.

Lemma for_loop_invariant {S : Type} (P : S -> Prop) (start stop step : nat)
  (body : nat -> S -> S) (s : S) :
  (forall i s, (i < stop)%nat -> P s -> P (body i s)) ->
  P s -> P (for_loop start stop step body s).
Proof. intros Hb Hs. unfold for_loop. now apply for_loop_aux_invariant. Qed.

(** [overlap_add] keeps the length and every sample outside the window. *)
Lemma overlap_add_outside (denoised : Float32Array) (i : nat)
  (processedWindow : Float32Array) (k : nat) :
  length (overlap_add denoised i processedWindow) = length denoised /\
  ((i + length processedWindow <= k)%nat ->
   get (overlap_add denoised i processedWindow) k = get denoised k).
Proof.
  unfold overlap_add.
  apply (for_loop_invariant
           (fun d => length d = length denoised /\
                     ((i + length processedWindow <= k)%nat -> get d k = get denoised k))).
  - intros j d Hj [Hl Hk]. cbn beta. unfold Float32Array.
    split; [now rewrite length_insert|].
    intros Hik. unfold get in *. rewrite nth_lookup, list_lookup_insert_ne by lia.
    rewrite <- nth_lookup. now apply Hk.
  - split; [reflexivity | reflexivity].
Qed.

Lemma applySpectralSubtraction_length `{MathLib} (window noiseProfile : Float32Array) :
  length (applySpectralSubtraction window noiseProfile) = length window.
Proof. unfold applySpectralSubtraction. now rewrite length_map, length_seq. Qed.

Lemma slice_length_le (xs : Float32Array) (a b : nat) : (length (slice xs a b) <= b - a)%nat.
Proof. unfold slice. rewrite length_firstn. lia. Qed.

(** The output of [denoise] has the length of its input, and from the
    last index on it holds what the zero-filled buffer held. *)
Lemma denoise_tail `{MathLib} (p : AudioProcessorImpl) (audioData : Float32Array)
  (k : nat) :
  (length audioData - 1 <= k)%nat ->
  length (fst (denoise p audioData)) = length audioData /\
  get (fst (denoise p audioData)) k = get (zeros (length audioData)) k.
Proof.
  intros Hk. unfold denoise. cbn [fst].
  set (profile := match noiseProfile p with Some n => n | None => _ end).
  apply (for_loop_invariant
           (fun d => length d = length audioData /\
                     get d k = get (zeros (length audioData)) k)).
  - intros i d Hi [Hl Hg]. cbn beta.
    destruct (overlap_add_outside d i
                (applySpectralSubtraction (slice audioData i (i + 1024)) profile) k)
      as [Hl' Hk'].
    split; [congruence|]. rewrite Hk'; [exact Hg|].
    rewrite applySpectralSubtraction_length.
    pose proof (slice_length_le audioData i (i + 1024)). lia.
  - split; [apply repeat_length | reflexivity].
Qed.

Lemma floor_between (x : Q) (a b : Z) :
  (a <= Qfloor x < b)%Z <-> inject_Z a <= x < inject_Z b.
Proof.
  pose proof (Qfloor_le x) as Hlo. pose proof (Qlt_floor x) as Hhi.
  split; intros [H1 H2].
  - rewrite Zle_Qle in H1. split; [lra|].
    assert (Qfloor x + 1 <= b)%Z as H3 by lia. rewrite Zle_Qle in H3. lra.
  - split.
    + assert (a < Qfloor x + 1)%Z; [|lia]. rewrite Zlt_Qlt. lra.
    + rewrite Zlt_Qlt. lra.
Qed.

Lemma inject_Z_zero (z : Z) : Qeq_bool (inject_Z z) 0 = true <-> z = 0%Z.
Proof.
  rewrite Qeq_bool_iff. unfold Qeq. cbn. lia.
Qed.

(** The hop of [detectVoiceActivity] is zero exactly for the sample rates
    from 0 up to, and without, 200/3. *)
Lemma hop_zero (r : Q) :
  Qfloor (inject_Z (Qfloor (r * (3 # 100))) / 2) = 0%Z <-> 0 <= r /\ r * (3 # 100) < 2.
Proof.
  set (w := Qfloor (r * (3 # 100))).
  assert (Qfloor (inject_Z w / 2) = 0%Z <-> (0 <= w < 2)%Z) as ->.
  { pose proof (floor_between (inject_Z w / 2) 0 1) as Hf.
    assert (inject_Z 0 <= inject_Z w / 2 < inject_Z 1 <-> (0 <= w < 2)%Z) as Hq.
    { rewrite Zle_Qle, Zlt_Qlt. change (inject_Z 0) with 0. change (inject_Z 1) with 1.
      change (inject_Z 2) with 2.
      assert (inject_Z w == 2 * (inject_Z w / 2)) as E by field.
      split; intros [? ?]; split; lra. }
    rewrite <- Hq, <- Hf. lia. }
  subst w. rewrite (floor_between (r * (3 # 100)) 0 2).
  change (inject_Z 0) with 0. change (inject_Z 2) with 2.
  split; intros [? ?]; split; lra.
Qed.

(** When the window loop of [detectVoiceActivity] has no exit. *)
Lemma detectVoiceActivity_None (c : AudioConfig) (audioData : Float32Array) :
  detectVoiceActivity c audioData = None <->
  audioData <> [] /\
  exists r, sampleRate c = Fin r /\ 0 <= r /\ r * (3 # 100) < 2.
Proof.
  unfold detectVoiceActivity.
  destruct (sampleRate c) as [| | |r] eqn:Er.
  1-3: cbn; split; [discriminate | intros (_ & r & Hr & _); discriminate].
  cbn [mul Math_floor div]. change (Qeq_bool 2 0) with false. cbv iota.
  cbn [Math_floor].
  pose proof (hop_zero r) as Hhop.
  pose proof (proj2 (floor_between (r * (3 # 100)) 0 2)) as Hw.
  remember (Qfloor (r * (3 # 100))) as w eqn:Ew.
  remember (Qfloor (inject_Z w / 2)) as h eqn:Ehh.
  unfold of_nat at 1. cbn [div].
  destruct (Qeq_bool (inject_Z h) 0) eqn:Eh.
  - apply inject_Z_zero in Eh.
    destruct (Qeq_bool (inject_Z (Z.of_nat (length audioData))) 0) eqn:El.
    + apply inject_Z_zero in El. cbv iota. cbn [Math_floor]. cbv iota.
      split; [discriminate|]. intros (Hne & _). destruct audioData; [congruence | discriminate].
    + assert (length audioData <> 0)%nat as Hl.
      { intros H0. rewrite H0 in El. discriminate. }
      assert (Qltb 0 (inject_Z (Z.of_nat (length audioData))) = true) as ->.
      { apply Qltb_lt. rewrite <- (Zlt_Qlt 0). lia. }
      cbv iota. cbn [Math_floor]. cbv iota. unfold voice_window.
      assert (gt (add (mul (of_nat 0) (Fin (inject_Z h))) (Fin (inject_Z w)))
                 (of_nat (length audioData)) = false) as ->.
      { unfold of_nat. cbn [mul add]. apply gt_Fin_false.
        rewrite Eh. apply proj1 in Hhop. specialize (Hhop Eh).
        change (inject_Z 0) with 0 in *. change (inject_Z 2) with 2 in Hw.
        assert (0 <= w < 2)%Z as Hw2 by (apply Hw; split; lra).
        assert (inject_Z w <= 1) as Hw1.
        { change 1 with (inject_Z 1). rewrite <- Zle_Qle. lia. }
        assert (1 <= inject_Z (Z.of_nat (length audioData))) as Hl1.
        { change 1 with (inject_Z 1). rewrite <- Zle_Qle. lia. }
        lra. }
      cbv beta iota zeta. (split; [intros _ | reflexivity]);
        (split; [intros ->; now apply Hl | exists r; split; [reflexivity | now apply Hhop]]).
  - assert (h <> 0%Z) as Hh by (intros H0; apply inject_Z_zero in H0; congruence).
    cbv iota. cbn [Math_floor]. cbv iota. destruct (fold_left _ _ _). split; [discriminate|].
    intros (_ & r' & [= <-] & Hr). exfalso. now apply Hh, Hhop.
Qed.

Lemma normalize_length (c : AudioConfig) (audioData : Float32Array) :
  length (normalize c audioData) = length audioData.
Proof.
  unfold normalize. destruct (strict_eq _ _); [reflexivity | apply length_map].
Qed.

(** [updateConfig] with a complete configuration replaces the
    configuration, with an empty one changes nothing, is idempotent and
    never touches the noise profile. *)
Lemma config_round_trip (p : AudioProcessorImpl) (c : AudioConfig)
  (cfg : PartialAudioConfig) :
  getConfig (updateConfig p (complete c)) = c /\
  getConfig (updateConfig p no_override) = getConfig p /\
  updateConfig (updateConfig p cfg) cfg = updateConfig p cfg /\
  noiseProfile (updateConfig p cfg) = noiseProfile p.
Proof.
  repeat split.
  - now destruct c.
  - now destruct p as [[] ?].
  - unfold updateConfig. cbn [config noiseProfile]. f_equal.
    destruct cfg as [[?|] [?|] [?|] [?|] [?|] [?|] [?|] [?|] [?|]]; reflexivity.
Qed.

(** X10.  [convertToFloat32] yields one sample for every two bytes, a
    trailing odd byte dropped, and every sample is a number from -1 up
    to, and without, 1. *)
Theorem convertToFloat32_range (audioData : list Byte.byte) :
  length (convertToFloat32 audioData) = (length audioData / 2)%nat /\
  Forall (fun x => exists q, x = Fin q /\ - (1) <= q < 1) (convertToFloat32 audioData).
Proof.
  unfold convertToFloat32. split; [now rewrite length_map, length_seq|].
  apply List.Forall_forall. intros x Hx.
  apply in_map_iff in Hx as (i & <- & _).
  set (sample := Z.lor _ _).
  assert (0 <= sample < 2 ^ 16)%Z as Hs.
  { apply lor_range; [lia | |].
    - pose proof (byte_at_range audioData (i * 2)). lia.
    - pose proof (byte_at_range audioData (i * 2 + 1)).
      rewrite Z.shiftl_mul_pow2 by lia. lia. }
  cbn [of_Z div]. change (Qeq_bool 32768 0) with false. cbn match.
  eexists. split; [reflexivity|].
  assert (inject_Z (sample - 32768) < 32768) as Hhi.
  { change 32768 with (inject_Z 32768). rewrite <- Zlt_Qlt. lia. }
  assert (- (32768) <= inject_Z (sample - 32768)) as Hlo.
  { change (- (32768)) with (inject_Z (- 32768)). rewrite <- Zle_Qle. lia. }
  split.
  - apply Qle_shift_div_l; lra.
  - apply Qlt_shift_div_r; lra.
Qed.

(** X11.  For a non-empty frame the [clipping] and [silence] figures of
    [calculateQuality] are percentages: numbers from 0 to 100. *)
Theorem quality_percentages `{MathLib} (c : AudioConfig) (audioData : Float32Array) :
  audioData <> [] ->
  exists cl si,
    clipping (calculateQuality c audioData) = Fin cl /\
    silence (calculateQuality c audioData) = Fin si /\
    0 <= cl <= 100 /\ 0 <= si <= 100.
Proof.
  intros Hne. unfold calculateQuality. cbn [clipping silence].
  pose proof (length_positive _ _ Hne) as Hpos.
  pose proof (positive_nonzero _ Hpos) as Hz.
  assert (forall f, exists v,
             mul (div (of_nat (count_if f audioData)) (of_nat (length audioData))) (Fin 100)
             = Fin v /\ 0 <= v <= 100) as Hpct.
  { intros f. unfold of_nat. cbn [div mul]. rewrite Hz. eexists. split; [reflexivity|].
    assert (count_if f audioData <= length audioData)%nat as Hc
        by apply List.filter_length_le.
    assert (0 <= inject_Z (Z.of_nat (count_if f audioData))) as H0
        by (rewrite <- (Zle_Qle 0); lia).
    assert (inject_Z (Z.of_nat (count_if f audioData))
            <= inject_Z (Z.of_nat (length audioData))) as H1
        by (rewrite <- Zle_Qle; lia).
    assert (0 <= inject_Z (Z.of_nat (count_if f audioData))
                 / inject_Z (Z.of_nat (length audioData)) <= 1) as [? ?].
    { split; [apply Qle_shift_div_l | apply Qle_shift_div_r]; lra. }
    split; lra. }
  destruct (Hpct (fun sample => gt (Math_abs sample) (Fin (99 # 100)))) as (cl & -> & Hcl).
  destruct (Hpct (fun sample => lt (Math_abs sample) (Fin (1 # 1000)))) as (si & -> & Hsi).
  now exists cl, si.
Qed.

Lemma quality_percentages_witness :
  exists cl si,
    clipping (calculateQuality (H := Examples.sample_host) Examples.audioConfig
                [one; zero; Fin (1 # 2)]) = Fin cl /\
    silence (calculateQuality (H := Examples.sample_host) Examples.audioConfig
               [one; zero; Fin (1 # 2)]) = Fin si /\
    0 <= cl <= 100 /\ 0 <= si <= 100.
Proof.
  apply (quality_percentages (H := Examples.sample_host) Examples.audioConfig
           [one; zero; Fin (1 # 2)]).
  discriminate.
Defined.

(** X12.  On a frame of zeros [detectSilence] answers whether the
    threshold exceeds 0, and false for the empty frame, whose volume is
    [NaN]. *)
Theorem detectSilence_of_silence `{MathLib} (audioData : Float32Array)
  (threshold : number) :
  Forall (fun x => strict_eq x zero = true) audioData ->
  detectSilence audioData threshold
  = match audioData with [] => false | _ => gt threshold zero end.
Proof.
  intros Hz. destruct audioData as [|x xs]; [reflexivity|].
  unfold detectSilence, calculateRMSVolume, sum_squares, zero.
  destruct (sum_squares_zero (x :: xs) 0 ltac:(reflexivity) Hz) as (s & -> & Hs).
  pose proof (length_positive _ (x :: xs) ltac:(discriminate)) as Hpos.
  unfold of_nat. cbn [div]. rewrite (positive_nonzero _ Hpos).
  cbn [Math_sqrt].
  assert (s / inject_Z (Z.of_nat (length (x :: xs))) == 0) as Hq.
  { rewrite Hs. field. lra. }
  assert (Qltb (s / inject_Z (Z.of_nat (length (x :: xs)))) 0 = false) as ->
      by (apply Qltb_ge; lra).
  assert (Qeq_bool (s / inject_Z (Z.of_nat (length (x :: xs)))) 0 = true) as ->
      by (now apply Qeq_bool_iff).
  reflexivity.
Qed.

Lemma detectSilence_of_silence_witness :
  detectSilence (H := Examples.sample_host) [zero; zero] (Fin (1 # 100)) = true.
Proof.
  apply (detectSilence_of_silence (H := Examples.sample_host) [zero; zero] (Fin (1 # 100))).
  repeat constructor.
Defined.

(** X13.  [resample] between equal rates returns the samples it was
    given; between two [NaN] rates, which are not equal, it returns an
    empty array. *)
Theorem resample_same_rate (audioData : Float32Array) (rate : number) :
  forall limit,
    (is_nan rate = false -> resample limit audioData rate rate = Some audioData) /\
    resample limit audioData NaN NaN = Some [].
Proof.
  intros limit. split; [|reflexivity].
  intros H. unfold resample. now rewrite strict_eq_refl.
Qed.

(** X17.  The noise reduction returns as many samples as it was given; a
    frame of at most 1024 samples comes back as zeros, since the window
    loop has no pass; and the last sample of any frame comes back as
    zero, since no window reaches it. *)
Theorem denoise_shape `{MathLib} (p : AudioProcessorImpl) (audioData : Float32Array) :
  length (fst (denoise p audioData)) = length audioData /\
  ((length audioData <= 1024)%nat ->
   fst (denoise p audioData) = zeros (length audioData)) /\
  (audioData <> [] ->
   get (fst (denoise p audioData)) (length audioData - 1) = zero).
Proof.
  split; [apply (denoise_tail p audioData (length audioData)); lia|]. split.
  - intros Hl. unfold denoise. cbn [fst].
    replace (length audioData - 1024)%nat with O by lia. reflexivity.
  - intros Hne.
    destruct (denoise_tail p audioData (length audioData - 1)%nat ltac:(lia)) as [_ ->].
    unfold get, zeros. apply nth_repeat_lt.
    destruct audioData; [congruence | cbn; lia].
Qed.

(** X18.  A call of [process] that returns keeps a noise profile that was
    there before it; [calibrateNoiseProfile] stores the profile it is
    given; and a processor without profile gets one exactly when the
    merged configuration enables the noise reduction: the first tenth of
    the decoded, and if enabled normalised, samples. *)
Theorem noise_profile_is_kept `{MathLib} (p p' : AudioProcessorImpl)
  (audioData : list Byte.byte) (cfg : PartialAudioConfig) (r : ProcessedAudio) :
  process p audioData cfg = Some (r, p') ->
  (forall n, noiseProfile p = Some n -> noiseProfile p' = Some n) /\
  (forall n, noiseProfile (calibrateNoiseProfile p n) = Some n) /\
  (noiseProfile p = None ->
   noiseProfile p'
   = if enableNoiseReduction (merge (config p) cfg)
     then
       let decoded := convertToFloat32 audioData in
       let decoded :=
         if enableNormalization (merge (config p) cfg)
         then normalize (merge (config p) cfg) decoded else decoded in
       Some (slice decoded 0 (length decoded / 10))
     else None).
Proof.
  intros Hp. unfold process in Hp.
  destruct (enableNoiseReduction (merge (config p) cfg)) eqn:En.
  - unfold denoise in Hp. cbn [noiseProfile config] in Hp.
    destruct (detectVoiceActivity _ _); [|discriminate].
    injection Hp as _ <-. cbn [noiseProfile]. repeat split.
    + now intros n ->.
    + intros ->. unfold createNoiseProfile. do 2 f_equal.
      unfold floor_scale.
      set (n := length _).
      assert (Qfloor (inject_Z (Z.of_nat n) * (1 # 10)) = (Z.of_nat n / 10)%Z) as ->.
      { unfold Qfloor, Qmult, inject_Z. cbn [Qnum Qden]. now rewrite Z.mul_1_r. }
      rewrite <- (Nat2Z.id (n / 10)). f_equal. now rewrite Nat2Z.inj_div.
  - destruct (detectVoiceActivity _ _); [|discriminate].
    injection Hp as _ <-. cbn [noiseProfile]. repeat split.
    + now intros n ->.
    + now intros ->.
Qed.

Lemma noise_profile_is_kept_witness :
  match process (H := Examples.sample_host) (create Examples.audioConfig)
          Examples.silent_frame no_override with
  | Some (_, p') => noiseProfile p' = Some []
  | None => False
  end.
Proof.
  destruct (process (H := Examples.sample_host) (create Examples.audioConfig)
              Examples.silent_frame no_override) as [[r p']|] eqn:E.
  - destruct (noise_profile_is_kept (H := Examples.sample_host)
                (create Examples.audioConfig) p' Examples.silent_frame no_override r E)
      as (_ & _ & Hn).
    rewrite (Hn eq_refl). reflexivity.
  - vm_compute in E. discriminate E.
Defined.

(** The length [resample] allocates between two different positive
    rates, in exact arithmetic. *)
Lemma resample_allocation (limit : Z) (audioData : Float32Array) (f t : Q) :
  0 < f -> 0 < t -> ~ f == t ->
  let n := Qfloor (inject_Z (Z.of_nat (length audioData)) * (t / f) + (1 # 2)) in
  (0 <= n)%Z /\
  ((n <= limit)%Z ->
   exists out, resample limit audioData (Fin f) (Fin t) = Some out) /\
  (forall out, resample limit audioData (Fin f) (Fin t) = Some out ->
               length out = Z.to_nat n).
Proof.
  intros Hf Ht Hne n.
  assert (0 <= n)%Z as Hn.
  { subst n. change 0%Z with (Qfloor 0). apply Qfloor_resp_le.
    assert (0 <= inject_Z (Z.of_nat (length audioData)))
      by (rewrite <- (Zle_Qle 0); lia).
    assert (0 < t / f) by (apply Qlt_shift_div_l; lra).
    nra. }
  split; [exact Hn|].
  unfold resample.
  assert (strict_eq (Fin f) (Fin t) = false) as ->.
  { cbn. destruct (Qeq_bool f t) eqn:E; [|reflexivity].
    apply Qeq_bool_iff in E. contradiction. }
  cbn [div]. rewrite (positive_nonzero f Hf).
  assert (array_length limit
            (Math_round (mul (of_nat (length audioData)) (Fin (t / f))))
          = if Qltb (inject_Z limit) (inject_Z n) then None else Some (Z.to_nat n)) as ->.
  { unfold of_nat. cbn [mul Math_round array_length]. fold n.
    assert (Qltb (inject_Z n) 0 = false) as ->.
    { apply Qltb_ge. rewrite <- (Zle_Qle 0). exact Hn. }
    now rewrite Qfloor_Z. }
  split.
  - intros Hl.
    assert (Qltb (inject_Z limit) (inject_Z n) = false) as ->.
    { apply Qltb_ge. rewrite <- Zle_Qle. exact Hl. }
    eexists. reflexivity.
  - intros out Hout. destruct (Qltb (inject_Z limit) (inject_Z n)); [discriminate|].
    injection Hout as <-. now rewrite length_map, length_seq.
Qed.

(** Where an output index [i] of [resample] falls, in exact arithmetic,
    on the input index [k], the output sample is that input sample. *)
Lemma resample_index (limit : Z) (audioData : Float32Array) (f t : Q)
  (out : Float32Array) (i k : nat) (q : Q) :
  0 < f -> 0 < t ->
  resample limit audioData (Fin f) (Fin t) = Some out ->
  (i < length out)%nat ->
  inject_Z (Z.of_nat i) / (t / f) == inject_Z (Z.of_nat k) ->
  nth_error audioData k = Some (Fin q) ->
  exists v, get out i = Fin v /\ v == q.
Proof.
  intros Hf Ht Hr Hi Hk Hq. unfold resample in Hr.
  destruct (strict_eq (Fin f) (Fin t)) eqn:Es.
  - injection Hr as <-. cbn in Es. apply Qeq_bool_iff in Es.
    assert (t / f == 1) as H1 by (rewrite Es; field; lra).
    rewrite H1 in Hk.
    assert (inject_Z (Z.of_nat i) == inject_Z (Z.of_nat k)) as Hik
        by (rewrite <- Hk; field).
    unfold Qeq in Hik. cbn in Hik. assert (i = k) by lia. subst k.
    exists q. split; [|reflexivity].
    unfold get. now apply nth_error_nth.
  - cbn [div] in Hr. rewrite (positive_nonzero f Hf) in Hr.
    destruct (array_length _ _) as [n|]; [|discriminate].
    injection Hr as <-. rewrite length_map, length_seq in Hi.
    rewrite get_map_seq by exact Hi.
    assert (0 < t / f) as Hratio by (apply Qlt_shift_div_l; lra).
    unfold of_nat. cbn [div]. rewrite (positive_nonzero _ Hratio).
    cbn [Math_floor Math_ceil ge le sub neg add to_index].
    rewrite (Qfloor_comp _ _ Hk), (Qceiling_comp _ _ Hk), Qfloor_Z, Qceiling_Z.
    assert (k < length audioData)%nat as Hlen
        by (apply nth_error_Some; congruence).
    assert (Qle_bool (inject_Z (Z.of_nat (length audioData))) (inject_Z (Z.of_nat k))
            = false) as ->.
    { destruct (Qle_bool _ _) eqn:E; [|reflexivity].
      apply Qle_bool_iff in E. rewrite <- Zle_Qle in E. lia. }
    rewrite Qfloor_Z, Nat2Z.id. unfold get.
    rewrite (nth_error_nth _ _ _ Hq). cbn [mul add one sub neg].
    eexists. split; [reflexivity|]. rewrite Hk. ring.
Qed.

(** The rounded length for a whole factor. *)
Lemma whole_factor_length (n : nat) (f t : Q) (k : Z) :
  0 < f -> t == inject_Z k * f ->
  Qfloor (inject_Z (Z.of_nat n) * (t / f) + (1 # 2)) = (Z.of_nat n * k)%Z.
Proof.
  intros Hf Ht.
  assert (inject_Z (Z.of_nat n) * (t / f) + (1 # 2)
          == inject_Z (Z.of_nat n * k) + (1 # 2)) as E.
  { rewrite Ht, inject_Z_mult. field. lra. }
  rewrite (Qfloor_comp _ _ E).
  pose proof (Qfloor_le (inject_Z (Z.of_nat n * k) + (1 # 2))) as Hlo.
  pose proof (Qlt_floor (inject_Z (Z.of_nat n * k) + (1 # 2))) as Hhi.
  set (z := Qfloor _) in *.
  assert (z <= Z.of_nat n * k)%Z.
  { assert (z < Z.of_nat n * k + 1)%Z; [|lia]. rewrite Zlt_Qlt, inject_Z_plus.
    change (inject_Z 1) with 1. lra. }
  assert (Z.of_nat n * k < z + 1)%Z; [|lia].
  rewrite Zlt_Qlt. lra.
Qed.

(** X14.  Taking samples from a positive rate to a whole multiple [k >= 1]
    of it, [resample] returns, when it returns, [k] times as many
    samples; and it returns when the host grants an array of that
    length. *)
Theorem resample_length (limit : Z) (audioData : Float32Array) (f t : Q) (k : Z) :
  0 < f -> (1 <= k)%Z -> t == inject_Z k * f ->
  ((Z.of_nat (length audioData) * k <= limit)%Z ->
   exists out, resample limit audioData (Fin f) (Fin t) = Some out) /\
  (forall out, resample limit audioData (Fin f) (Fin t) = Some out ->
               length out = (length audioData * Z.to_nat k)%nat).
Proof.
  intros Hf Hk Ht.
  assert (1 <= inject_Z k) as Hk1 by (change 1 with (inject_Z 1); now rewrite <- Zle_Qle).
  assert (0 < t) as Htp by (rewrite Ht; nra).
  destruct (Z.eq_dec k 1%Z) as [-> | Hk2].
  - assert (strict_eq (Fin f) (Fin t) = true) as Es.
    { cbn. apply Qeq_bool_iff. rewrite Ht. ring. }
    unfold resample. rewrite Es. split.
    + intros _. now exists audioData.
    + intros out [= <-]. cbn. lia.
  - assert (~ f == t) as Hne.
    { rewrite Ht. intros E. assert (2 <= inject_Z k).
      { change 2 with (inject_Z 2). rewrite <- Zle_Qle. lia. }
      nra. }
    destruct (resample_allocation limit audioData f t Hf Htp Hne) as (_ & Hex & Hlen).
    rewrite (whole_factor_length _ f t k Hf Ht) in Hex, Hlen.
    split; [exact Hex|].
    intros out Hout. rewrite (Hlen out Hout). lia.
Qed.

Lemma resample_length_witness :
  (exists out, resample 1000 [Fin 1; Fin 2; Fin 3] (Fin 22050) (Fin 44100) = Some out) /\
  (forall out, resample 1000 [Fin 1; Fin 2; Fin 3] (Fin 22050) (Fin 44100) = Some out ->
               length out = 6%nat).
Proof.
  destruct (resample_length 1000 [Fin 1; Fin 2; Fin 3] 22050 44100 2) as [Hex Hlen];
    [reflexivity | lia | reflexivity |].
  split; [apply Hex; cbn; lia | exact Hlen].
Defined.

(** X15.  Taking samples from a positive rate to a whole multiple [k >= 1]
    of it, [resample] keeps the samples it was given: output sample
    [k j] is the finite input sample [j]. *)
Theorem resample_on_grid (limit : Z) (audioData : Float32Array) (f t : Q) (k : Z)
  (out : Float32Array) (j : nat) (q : Q) :
  0 < f -> (1 <= k)%Z -> t == inject_Z k * f ->
  resample limit audioData (Fin f) (Fin t) = Some out ->
  nth_error audioData j = Some (Fin q) ->
  exists v, get out (j * Z.to_nat k) = Fin v /\ v == q.
Proof.
  intros Hf Hk Ht Hout Hq.
  assert (1 <= inject_Z k) as Hk1 by (change 1 with (inject_Z 1); now rewrite <- Zle_Qle).
  assert (0 < t) as Htp by (rewrite Ht; nra).
  assert (j < length audioData)%nat as Hj by (apply nth_error_Some; congruence).
  assert (length out = (length audioData * Z.to_nat k)%nat) as Hlen.
  { destruct (Z.eq_dec k 1%Z) as [-> | Hk2].
    - assert (strict_eq (Fin f) (Fin t) = true) as Es.
      { cbn. apply Qeq_bool_iff. rewrite Ht. ring. }
      unfold resample in Hout. rewrite Es in Hout. injection Hout as <-. cbn. lia.
    - assert (~ f == t) as Hne.
      { rewrite Ht. intros E. assert (2 <= inject_Z k).
        { change 2 with (inject_Z 2). rewrite <- Zle_Qle. lia. }
        nra. }
      destruct (resample_allocation limit audioData f t Hf Htp Hne) as (_ & _ & Hl).
      rewrite (whole_factor_length _ f t k Hf Ht) in Hl.
      rewrite (Hl out Hout). lia. }
  apply (resample_index limit audioData f t out (j * Z.to_nat k) j q Hf Htp Hout).
  - rewrite Hlen. apply Nat.mul_lt_mono_pos_r; lia.
  - rewrite Ht, Nat2Z.inj_mul, Z2Nat.id, inject_Z_mult by lia. field. split; lra.
  - exact Hq.
Qed.

Lemma resample_on_grid_witness :
  exists v, get Examples.upsampled 2 = Fin v /\ v == 2.
Proof.
  apply (resample_on_grid 1000 [Fin 1; Fin 2; Fin 3] 1 2 2 Examples.upsampled 1 2);
    [reflexivity | lia | reflexivity | reflexivity | reflexivity].
Defined.

(** X16.  With a threshold of at least 0 and a ratio of at least 1
    [applyCompressor] keeps every sample within the threshold, and takes
    a finite sample beyond it neither to the other sign nor beyond its
    former magnitude. *)
Theorem applyCompressor_envelope (audioData : Float32Array) (T R : Q) :
  0 <= T -> 1 <= R ->
  Forall2 (compressed T) audioData (applyCompressor audioData (Fin T) (Fin R)).
Proof.
  intros HT HR. unfold applyCompressor.
  induction audioData as [|x xs IH]; [constructor|].
  cbn [map]. constructor; [|exact IH].
  split.
  - intros ->. reflexivity.
  - intros q -> Hq.
    assert (gt (Math_abs (Fin q)) (Fin T) = true) as -> by now apply gt_Fin.
    cbn [Math_abs sub neg add div]. rewrite (positive_nonzero R) by lra.
    assert (0 < (Qabs q + - T) / R <= Qabs q + - T) as [Hlo Hhi].
    { split; [apply Qlt_shift_div_l; lra | apply Qle_shift_div_r; nra]. }
    cbn [gt lt zero]. destruct (Qltb 0 q) eqn:E.
    + apply Qltb_lt in E. cbn [mul]. eexists. split; [reflexivity|].
      rewrite (Qabs_pos q) in * by lra.
      rewrite Qabs_pos by lra. split; [lra | nra].
    + apply Qltb_ge in E. cbn [mul]. eexists. split; [reflexivity|].
      assert (q < 0) as Hneg.
      { destruct (Qlt_le_dec q 0); [assumption|].
        assert (q == 0) as H0 by lra. rewrite H0 in Hq.
        change (Qabs 0) with 0 in Hq. lra. }
      rewrite (Qabs_neg q) in * by lra.
      rewrite Qabs_neg by lra. split; [lra | nra].
Qed.

Lemma applyCompressor_envelope_witness :
  Forall2 (compressed (1 # 2)) [Fin (9 # 10); Fin (- 1 # 10)]
    (applyCompressor [Fin (9 # 10); Fin (- 1 # 10)] (Fin (1 # 2)) (Fin 4)).
Proof.
  apply (applyCompressor_envelope [Fin (9 # 10); Fin (- 1 # 10)] (1 # 2) 4);
    [discriminate | discriminate].
Defined.

(** X19.  [detectVoiceActivity] answers false for the empty frame.  On a
    non-empty frame with a sample rate above 0 and below 200/3 the hop of
    its window loop is 0, the number of windows is [+Infinity], and the
    loop never exits.  With a sample rate below 0, from 200/3 on, or not
    finite, it returns.  (At a sample rate of zero the sign of the zero
    decides, which the numbers here do not carry.) *)
Theorem detectVoiceActivity_never_returns (c : AudioConfig) (audioData : Float32Array) :
  detectVoiceActivity c [] = Some false /\
  (forall r, audioData <> [] -> sampleRate c = Fin r ->
             0 < r -> r * (3 # 100) < 2 ->
             detectVoiceActivity c audioData = None) /\
  ((forall r, sampleRate c = Fin r -> r < 0 \/ 2 <= r * (3 # 100)) ->
   exists b, detectVoiceActivity c audioData = Some b).
Proof.
  split; [apply detectVoiceActivity_empty|]. split.
  - intros r Hne Hr H0 H2. apply detectVoiceActivity_None.
    split; [exact Hne|]. exists r. repeat split; [exact Hr | lra | exact H2].
  - intros H. destruct (detectVoiceActivity c audioData) as [b|] eqn:E; [now exists b|].
    apply detectVoiceActivity_None in E as (_ & r & Hr & H0 & H2).
    destruct (H r Hr); lra.
Qed.

(** X20.  [process], given at least two bytes under a merged
    configuration without normalisation whose sample rate lies above 0
    and below 200/3, never returns: the decoded frame is not empty and
    the voice detection it awaits loops for ever. *)
Theorem process_never_returns `{MathLib} (p : AudioProcessorImpl)
  (audioData : list Byte.byte) (cfg : PartialAudioConfig) (r : Q) :
  (2 <= length audioData)%nat ->
  enableNormalization (merge (config p) cfg) = false ->
  sampleRate (merge (config p) cfg) = Fin r ->
  0 < r -> r * (3 # 100) < 2 ->
  process p audioData cfg = None.
Proof.
  intros Hlen Hnorm Hr H0 H2.
  unfold process. cbv zeta. rewrite Hnorm.
  set (c := merge (config p) cfg) in *.
  set (decoded := convertToFloat32 audioData).
  assert (length decoded = (length audioData / 2)%nat) as Hn.
  { subst decoded. unfold convertToFloat32. now rewrite length_map, length_seq. }
  destruct (if enableNoiseReduction c
            then denoise {| config := c; noiseProfile := noiseProfile p |} decoded
            else (decoded, {| config := c; noiseProfile := noiseProfile p |}))
    as [d q] eqn:Ed.
  assert (length d = length decoded) as Hd.
  { destruct (enableNoiseReduction c).
    - pose proof (denoise_tail {| config := c; noiseProfile := noiseProfile p |} decoded
                    (length decoded) ltac:(lia)) as [Hs _].
      rewrite Ed in Hs. exact Hs.
    - now injection Ed as <- _. }
  set (processed := applyGain d (targetVolume c)).
  assert (processed <> []) as Hne.
  { intros Hp. assert (length processed = 0%nat) as Hz by now rewrite Hp.
    subst processed. unfold applyGain in Hz. rewrite length_map in Hz.
    assert (1 <= length audioData / 2)%nat by (apply Nat.div_le_lower_bound; lia). lia. }
  assert (detectVoiceActivity c processed = None) as ->; [|reflexivity].
  apply detectVoiceActivity_None. split; [exact Hne|].
  exists r. repeat split; [exact Hr | lra | exact H2].
Qed.

Lemma process_never_returns_witness :
  process (H := Examples.sample_host) (create Examples.audioConfig)
    Examples.silent_frame Examples.low_rate = None.
Proof.
  apply (process_never_returns (H := Examples.sample_host) (create Examples.audioConfig)
           Examples.silent_frame Examples.low_rate 50);
    [cbn; lia | reflexivity | reflexivity | reflexivity | reflexivity].
Defined.

End AudioProcessorBehaviour.

(** ** The session manager: registration, pausing, the silence timer,
    removal and the statistics *)

Module SessionBehaviour.
Import JS Session JSFacts Reading SessionFacts.

Lemma ends_emit (m : AudioSessionManager) (e : event) (sessionId : string) :
  session_ends (emit m e) sessionId
  = (session_ends m sessionId
     + match e with
       | OnSessionEnd i => if String.eqb i sessionId then 1 else 0
       | _ => 0
       end)%nat.
Proof.
  unfold session_ends, emit. cbn [trace].
  rewrite List.filter_app, List.length_app. destruct e; try reflexivity.
  cbn. now destruct (String.eqb _ _).
Qed.

(** A stop calls no session-ended callback and leaves the other sessions
    alone. *)
Lemma stopSession_frame {M : MathLib} (m : AudioSessionManager) (sessionId : string)
  (close stt : outcome) (now : Z) (other : string) :
  session_ends (snd (stopSession m sessionId close stt now)) other
  = session_ends m other /\
  (other <> sessionId ->
   sessions (snd (stopSession m sessionId close stt now)) !! other
   = sessions m !! other).
Proof.
  unfold stopSession, stopRecording.
  destruct (sessions m !! sessionId) as [s|]; [|now split].
  destruct (mediaStream m), (activeAudioContext m) eqn:Ea, (silenceTimer m) eqn:Et,
           close, stt;
    cbn; rewrite ?Ea, ?Et; cbn; rewrite ?Ea, ?Et; cbn;
    (split; [unfold session_ends; cbn; rewrite ?List.filter_app, ?List.length_app; cbn; lia
            | intros Hne; now rewrite ?lookup_insert_ne by congruence]).
Qed.

(** X21.  Without [autoStart] in the merged configuration [createSession]
    returns the id and registers under it an inactive, non-recording
    session with that configuration, empty buffers and zeroed
    statistics; no other session changes and no collaborator is called. *)
Theorem createSession_registers (m : AudioSessionManager)
  (options : option PartialAudioSessionConfig) (sessionId : string) (now : Z)
  (microphone context stt : outcome) :
  autoStart (merge (this_config m) options) = false ->
  exists m',
    createSession m options sessionId now microphone context stt
    = (Returns sessionId, m') /\
    getSession m' sessionId
    = Some {| id := sessionId; config := merge (this_config m) options;
              isActive := false; isRecording := false;
              startTime := now; endTime := None;
              audioChunks := []; processedChunks := []; transcripts := [];
              statistics := empty_statistics |} /\
    (forall other, other <> sessionId -> getSession m' other = getSession m other) /\
    trace m' = trace m.
Proof.
  intros Ha. unfold createSession. rewrite Ha.
  eexists. split; [reflexivity|]. unfold getSession. cbn [sessions set_sessions trace].
  split; [apply lookup_insert_eq|]. split; [|reflexivity].
  intros other Hne. now apply lookup_insert_ne.
Qed.

Lemma createSession_registers_witness :
  exists m',
    createSession Examples.manager None "s1" 0 Resolves Resolves Resolves
    = (Returns "s1"%string, m') /\
    flags m' "s1" = Some (false, false).
Proof.
  destruct (createSession_registers Examples.manager None "s1" 0 Resolves Resolves
              Resolves eq_refl) as (m' & E & G & _).
  exists m'. split; [exact E|]. unfold flags. unfold getSession in G. now rewrite G.
Defined.

(** X22.  With [autoStart] in the merged configuration and a microphone
    request that is rejected, [createSession] throws the rejection and
    the session stays registered, inactive and not recording; no other
    session changes. *)
Theorem createSession_failed_autoStart (m : AudioSessionManager)
  (options : option PartialAudioSessionConfig) (sessionId : string) (now : Z)
  (context stt : outcome) (e : Error) :
  autoStart (merge (this_config m) options) = true ->
  exists m',
    createSession m options sessionId now (Rejects e) context stt = (Throws e, m') /\
    flags m' sessionId = Some (false, false) /\
    (forall other, other <> sessionId -> getSession m' other = getSession m other).
Proof.
  intros Ha. unfold createSession. rewrite Ha.
  unfold startSession. cbn [sessions set_sessions]. rewrite lookup_insert_eq.
  cbn [isActive startRecording]. eexists. split; [reflexivity|].
  split; [apply flags_store|].
  intros other Hne. unfold getSession.
  cbn [sessions store emit set_collaborators set_sessions set_flags set_isRecording
         set_isActive id].
  rewrite !lookup_insert_ne by congruence. reflexivity.
Qed.

Lemma createSession_failed_autoStart_witness :
  exists m',
    createSession Examples.manager (Some Examples.only_autoStart) "s1" 0
      (Rejects (External "NotAllowedError")) Resolves Resolves
    = (Throws (External "NotAllowedError"), m') /\
    flags m' "s1" = Some (false, false) /\
    (forall other, other <> "s1"%string ->
                   getSession m' other = getSession Examples.manager other).
Proof.
  apply (createSession_failed_autoStart Examples.manager (Some Examples.only_autoStart)
           "s1" 0 Resolves Resolves (External "NotAllowedError")).
  reflexivity.
Defined.

(** X23.  On an active session [pauseSession] clears [isRecording] and
    [resumeSession] sets it again; on an unknown or inactive session
    both do nothing at all. *)
Theorem pause_and_resume (m : AudioSessionManager) (sessionId : string) :
  (forall s, sessions m !! sessionId = Some s -> isActive s = true ->
             flags (pauseSession m sessionId) sessionId = Some (true, false) /\
             flags (resumeSession (pauseSession m sessionId) sessionId) sessionId
             = Some (true, true)) /\
  (flags m sessionId <> Some (true, true) /\ flags m sessionId <> Some (true, false) ->
   pauseSession m sessionId = m /\ resumeSession m sessionId = m).
Proof.
  split.
  - intros s Hs Ha. unfold pauseSession, resumeSession, getSession. rewrite Hs, Ha.
    split.
    + unfold flags, emit, store. cbn [sessions]. rewrite lookup_insert_eq. cbn. now rewrite Ha.
    + unfold flags, emit, store. cbn [sessions]. rewrite lookup_insert_eq.
      cbn [isActive set_isRecording set_flags]. rewrite Ha.
      cbn [sessions]. rewrite lookup_insert_eq. cbn. now rewrite Ha.
  - intros [H1 H2]. unfold pauseSession, resumeSession, getSession, flags in *.
    destruct (sessions m !! sessionId) as [s|]; [|now split].
    destruct (isActive s), (isRecording s); try congruence; now split.
Qed.

(** X24.  [handleVADChange] records the verdict and touches no session.
    While the verdict repeats the previous one the [silenceTimer] field
    and the trace stay as they are; when it changes, or is the first, a
    verdict of speech leaves the field empty and a verdict of silence
    leaves in it a timer armed for the session. *)
Theorem handleVADChange_timer (m : AudioSessionManager) (s : AudioSession)
  (vadResult : VAD.VADResult) :
  lastVADResult (handleVADChange m s vadResult) = Some vadResult /\
  sessions (handleVADChange m s vadResult) = sessions m /\
  (option_map VAD.isSpeech (lastVADResult m) = Some (VAD.isSpeech vadResult) ->
   silenceTimer (handleVADChange m s vadResult) = silenceTimer m /\
   trace (handleVADChange m s vadResult) = trace m) /\
  (option_map VAD.isSpeech (lastVADResult m) <> Some (VAD.isSpeech vadResult) ->
   silenceTimer (handleVADChange m s vadResult)
   = if VAD.isSpeech vadResult then None else Some (id s)).
Proof.
  unfold handleVADChange.
  destruct (lastVADResult m) as [last|]; cbn [option_map].
  - destruct (VAD.isSpeech last), (VAD.isSpeech vadResult), (silenceTimer m) eqn:Et;
      cbn; rewrite ?Et; repeat (split || intro); try reflexivity; try congruence;
      cbn; rewrite ?Et; try reflexivity; congruence.
  - destruct (VAD.isSpeech vadResult), (silenceTimer m) eqn:Et;
      cbn; rewrite ?Et; repeat (split || intro); try reflexivity; try congruence;
      cbn; rewrite ?Et; try reflexivity; congruence.
Qed.

(** X25.  [stopSession] on an unknown id throws [SessionNotFound] and
    changes nothing.  When the speech service rejects its stop (the
    audio context closing, if there is one), the rejection is thrown
    with the recording torn down (no media stream, no silence timer,
    [isRecording] cleared) and the session otherwise as it was: its
    [isActive] flag and its end time are not written. *)
Theorem stopSession_failure {M : MathLib} (m : AudioSessionManager)
  (sessionId : string) (close stt : outcome) (now : Z) :
  (sessions m !! sessionId = None ->
   stopSession m sessionId close stt now = (Throws (SessionNotFound sessionId), m)) /\
  (forall s e,
     sessions m !! sessionId = Some s ->
     stt = Rejects e ->
     activeAudioContext m = false \/ close = Resolves ->
     exists m',
       stopSession m sessionId close stt now = (Throws e, m') /\
       getSession m' sessionId = Some (set_isRecording s false) /\
       mediaStream m' = false /\
       silenceTimer m' = None).
Proof.
  split.
  - intros H. unfold stopSession. now rewrite H.
  - intros s e Hs -> Hc. unfold stopSession, stopRecording, getSession. rewrite Hs.
    destruct (mediaStream m) eqn:Em, (activeAudioContext m) eqn:Ea,
             (silenceTimer m) eqn:Et;
      destruct Hc as [Hc | ->]; try discriminate;
      cbn; rewrite ?Ea, ?Et; cbn; rewrite ?Ea, ?Et; cbn;
      eexists; (split; [reflexivity|]); cbn; rewrite ?Em, ?Ea, ?Et, ?lookup_insert_eq;
      repeat split; reflexivity.
Qed.

(** X27.  [countSilencePeriods] never exceeds the number of transcripts
    whose confidence exceeds the session's minimum: every period of
    silence it counts follows one of them. *)
Theorem silence_periods_bound (s : AudioSession) :
  (countSilencePeriods s <= length (confident s))%nat.
Proof.
  unfold countSilencePeriods, confident.
  set (step := fun (acc : nat * bool) transcript => _).
  set (inSpeech := fun t => gt (confidence t) (minConfidence (config s))).
  assert (forall l n w,
             (fst (fold_left step l (n, w)) + (if snd (fold_left step l (n, w)) then 1 else 0)
              <= n + (if w then 1 else 0) + length (List.filter inSpeech l))%nat) as H.
  { induction l as [|t l IH]; intros n w; cbn [fold_left List.filter length fst snd];
      [destruct w; lia|].
    change (step (n, w) t)
      with (if negb (inSpeech t) && w then S n else n, inSpeech t).
    specialize (IH (if negb (inSpeech t) && w then S n else n) (inSpeech t)).
    destruct (inSpeech t), w; cbn [negb andb length] in *; lia. }
  specialize (H (transcripts s) O false).
  destruct (snd _); lia.
Qed.

(** X28.  When the silence timer of a known session fires: if the session
    has [autoStop] and is active, it is stopped, its session-ended
    callback is called once, and a timer firing again afterwards changes
    nothing; if it lacks [autoStop] or is not active, nothing happens. *)
Theorem silence_timer_ends_session_once {M : MathLib} (m : AudioSessionManager)
  (sessionId : string) (s : AudioSession) (now : Z) :
  sessions m !! sessionId = Some s ->
  (autoStop (config s) = true -> isActive s = true ->
   exists m',
     silenceTimerFires m sessionId Resolves Resolves now = (Returns tt, m') /\
     flags m' sessionId = Some (false, false) /\
     session_ends m' sessionId = S (session_ends m sessionId) /\
     forall close stt later,
       silenceTimerFires m' sessionId close stt later = (Returns tt, m')) /\
  (autoStop (config s) && isActive s = false ->
   forall close stt, silenceTimerFires m sessionId close stt now = (Returns tt, m)).
Proof.
  intros Hs. split.
  - intros Ha Hact. unfold silenceTimerFires at 1. rewrite Hs, Ha, Hact. cbn [andb].
    destruct (stopSession_resolves m sessionId s now Hs) as (m1 & E & L & _).
    rewrite E. eexists. split; [reflexivity|].
    assert (flags (emit m1 (OnSessionEnd sessionId)) sessionId = Some (false, false)) as Hf.
    { unfold flags. cbn [sessions emit]. now rewrite L. }
    split; [exact Hf|]. split.
    + rewrite ends_emit, String.eqb_refl.
      destruct (stopSession_frame m sessionId Resolves Resolves now sessionId) as [He _].
      rewrite E in He. cbn [snd] in He. lia.
    + intros close stt later. unfold silenceTimerFires. cbn [sessions emit]. rewrite L.
      cbn [isActive set_statistics calculateFinalStatistics endTime set_isActive set_flags
             set_endTime].
      now rewrite andb_false_r.
  - intros H close stt. unfold silenceTimerFires. now rewrite Hs, H.
Qed.

Lemma silence_timer_ends_session_once_witness :
  exists m',
    silenceTimerFires (H := Examples.sample_host) Examples.started "s1"
      Resolves Resolves 1000
    = (Returns tt, m') /\
    flags m' "s1" = Some (false, false) /\
    session_ends m' "s1" = 1%nat.
Proof.
  destruct (proj1 (silence_timer_ends_session_once (M := Examples.sample_host)
                     Examples.started "s1"
                     (set_flags Examples.created_session true true) 1000 eq_refl)
              eq_refl eq_refl) as (m' & E & F & N & _).
  exists m'. repeat split; assumption.
Defined.

(** X29.  After [removeSession] the id is unknown, whatever the stop it
    launched came to: [getSession] finds nothing, [startSession] and
    [stopSession] throw [SessionNotFound]; every other session is as it
    was. *)
Theorem removeSession_forgets {M : MathLib} (m : AudioSessionManager)
  (sessionId : string) (close stt : outcome) (now : Z)
  (microphone context stt' : outcome) :
  getSession (removeSession m sessionId close stt now) sessionId = None /\
  (forall other, other <> sessionId ->
                 getSession (removeSession m sessionId close stt now) other
                 = getSession m other) /\
  fst (startSession (removeSession m sessionId close stt now) sessionId
         microphone context stt')
  = Throws (SessionNotFound sessionId) /\
  fst (stopSession (removeSession m sessionId close stt now) sessionId close stt now)
  = Throws (SessionNotFound sessionId).
Proof.
  assert (getSession (removeSession m sessionId close stt now) sessionId = None) as Hn.
  { unfold getSession, removeSession. cbn [sessions set_sessions]. apply lookup_delete_eq. }
  split; [exact Hn|]. split.
  - intros other Hne. unfold getSession, removeSession. cbn [sessions set_sessions].
    rewrite lookup_delete_ne by congruence.
    destruct (sessions m !! sessionId) as [s|]; [|reflexivity].
    destruct (isActive s); [|reflexivity].
    now apply stopSession_frame.
  - unfold getSession in Hn. unfold startSession, stopSession. now rewrite Hn.
Qed.

(** The ratios [getStatistics] reports on a detector whose two frame
    counters add up to its frame counter. *)
Lemma ratios_of_counters {M : MathLib} (d : VAD.VoiceActivityDetector) :
  (VAD.speechFrames (VAD.this_state d) + VAD.silenceFrames (VAD.this_state d))%nat
  = VAD.this_frameIndex d ->
  exists r,
    VAD.speechRatio (VAD.getStatistics d) = Fin r /\
    VAD.silenceRatio (VAD.getStatistics d) = Fin (1 + - r) /\
    0 <= r <= 1.
Proof.
  intros Hc. unfold VAD.getStatistics. cbn [VAD.speechRatio VAD.silenceRatio].
  destruct (0 <? VAD.this_frameIndex d)%nat eqn:E.
  - apply Nat.ltb_lt in E.
    assert (0 < inject_Z (Z.of_nat (VAD.this_frameIndex d))) as Hpos.
    { rewrite <- (Zlt_Qlt 0). lia. }
    assert (Qeq_bool (inject_Z (Z.of_nat (VAD.this_frameIndex d))) 0 = false) as Hz.
    { destruct (Qeq_bool _ 0) eqn:Eq; [|reflexivity]. apply Qeq_bool_iff in Eq. lra. }
    unfold of_nat. cbn [div]. rewrite Hz. eexists. split; [reflexivity|].
    split; [reflexivity|].
    assert (inject_Z (Z.of_nat (VAD.speechFrames (VAD.this_state d)))
            <= inject_Z (Z.of_nat (VAD.this_frameIndex d))) as Hle.
    { rewrite <- Zle_Qle. lia. }
    assert (0 <= inject_Z (Z.of_nat (VAD.speechFrames (VAD.this_state d)))) as Hnn.
    { rewrite <- (Zle_Qle 0). lia. }
    split; [apply Qle_shift_div_l | apply Qle_shift_div_r]; lra.
  - exists 0. split; [reflexivity|]. split; [reflexivity|]. lra.
Qed.

(** X26.  Take a manager whose detector has gone through any history of
    calls since it was built, and a session of it that is stopped, every
    collaborator accepting, at a clock not before its start.  Then the
    statistics of the session carry as [totalDuration] the time from
    start to stop, and its speaking and its silence duration are each a
    number from 0 to that total. *)
Theorem final_durations_within_total {M : MathLib} (m : AudioSessionManager)
  (sessionId : string) (s : AudioSession) (now : Z)
  (c : VAD.VADConfig) (calls : list VAD.call) :
  sessions m !! sessionId = Some s ->
  vad m = VAD.run (VAD.create c) calls ->
  (startTime s <= now)%Z ->
  exists m' s' speaking silence,
    stopSession m sessionId Resolves Resolves now = (Returns tt, m') /\
    getSession m' sessionId = Some s' /\
    totalDuration (statistics s') = Fin (inject_Z (now - startTime s)) /\
    speakingDuration (statistics s') = Fin speaking /\
    silenceDuration (statistics s') = Fin silence /\
    0 <= speaking <= inject_Z (now - startTime s) /\
    0 <= silence <= inject_Z (now - startTime s).
Proof.
  intros Hs Hv Hnow.
  destruct (stopSession_resolves m sessionId s now Hs) as (m' & E & L & _).
  destruct (ratios_of_counters (vad m)) as (r & Hr & Hsil & Hr0 & Hr1).
  { rewrite Hv.
    apply (VADFacts.run_invariant
             (fun d => (VAD.speechFrames (VAD.this_state d)
                        + VAD.silenceFrames (VAD.this_state d))%nat
                       = VAD.this_frameIndex d)).
    - apply VADBehaviour.perform_counters.
    - reflexivity. }
  assert (0 <= inject_Z (now - startTime s)) as Ht.
  { rewrite <- (Zle_Qle 0). lia. }
  exists m'. eexists. exists (inject_Z (now - startTime s) * r),
    (inject_Z (now - startTime s) * (1 + - r)).
  split; [exact E|]. split; [exact L|].
  unfold calculateFinalStatistics.
  cbn [endTime set_isActive set_flags set_endTime set_isRecording startTime statistics
         set_statistics totalDuration speakingDuration silenceDuration].
  rewrite Hr, Hsil. repeat split; nra.
Qed.

Lemma final_durations_within_total_witness :
  exists m' s' speaking silence,
    stopSession (H := Examples.sample_host) Examples.started_after_frames "s1"
      Resolves Resolves 1000
    = (Returns tt, m') /\
    getSession m' "s1" = Some s' /\
    totalDuration (statistics s') = Fin (inject_Z (1000 - 0)) /\
    speakingDuration (statistics s') = Fin speaking /\
    silenceDuration (statistics s') = Fin silence /\
    0 <= speaking <= inject_Z (1000 - 0) /\
    0 <= silence <= inject_Z (1000 - 0).
Proof.
  apply (final_durations_within_total (M := Examples.sample_host)
           Examples.started_after_frames "s1"
           (set_flags Examples.created_session true true) 1000
           Examples.vadConfig
           [VAD.ProcessFrame [Fin 1; Fin (- 1 # 2)]; VAD.ProcessFrame [];
            VAD.ProcessFrame []]);
    [reflexivity | reflexivity | cbn; lia].
Defined.




End SessionBehaviour.
